(** * Sales-lead conversion: synthetic data generator and model comparison

    A shallow embedding of [ml_model/01_generate_dataset.py] and
    [ml_model/02_train_evaluate_model.py], and the properties of the
    specification established on it.

    Numbers.  NumPy's float64 values are modelled by [npfloat]: a rational
    (finite values, computed exactly), the two infinities, or NaN, with the
    IEEE-754 rules for the special values (division by zero, NaN
    propagation, comparisons with NaN are false).  Rounding error, overflow
    and the sign of zero are not modelled.  Integer columns are [Z].

    Randomness.  The process-wide stream [np.random] is an explicit state of
    an abstract type, threaded through the sampling calls in source order;
    the six samplers the generator calls form the interface [NumpyRandom].

    Files.  The file system is a finite map from paths to nodes. *)

From Stdlib Require Import ZArith QArith Qabs Qround Qminmax Lia Lqa String List.
From stdpp Require Import base strings gmap list sorting.
Import ListNotations.

Local Open Scope Q_scope.

(** ** NumPy float64, idealised *)

Module NP.

Inductive npfloat : Type :=
| Fin (q : Q)
| PInf
| NInf
| NaN.

Definition of_int (z : Z) : npfloat := Fin (inject_Z z).

Definition is_nan (x : npfloat) : bool :=
  match x with NaN => true | _ => false end.

(** A finite value: neither an infinity nor NaN. *)
Definition is_fin (x : npfloat) : Prop := exists q, x = Fin q.

(** Sign of a value: [Gt] positive, [Lt] negative, [Eq] zero (or NaN). *)
Definition fsign (x : npfloat) : comparison :=
  match x with
  | Fin q => Qcompare q 0
  | PInf => Gt
  | NInf => Lt
  | NaN => Eq
  end.

Definition sign_mul (a b : comparison) : comparison :=
  match a, b with
  | Eq, _ | _, Eq => Eq
  | Gt, Gt | Lt, Lt => Gt
  | Gt, Lt | Lt, Gt => Lt
  end.

(** An infinity of the given sign; a zero sign stands for the invalid
    operations (0/0, inf*0), which give NaN. *)
Definition inf_of_sign (c : comparison) : npfloat :=
  match c with Gt => PInf | Lt => NInf | Eq => NaN end.

Definition fneg (x : npfloat) : npfloat :=
  match x with
  | Fin q => Fin (- q)
  | PInf => NInf
  | NInf => PInf
  | NaN => NaN
  end.

Definition fadd (x y : npfloat) : npfloat :=
  match x, y with
  | NaN, _ | _, NaN => NaN
  | Fin a, Fin b => Fin (a + b)
  | PInf, NInf | NInf, PInf => NaN
  | PInf, _ | _, PInf => PInf
  | NInf, _ | _, NInf => NInf
  end.

Definition fsub (x y : npfloat) : npfloat := fadd x (fneg y).

Definition fmul (x y : npfloat) : npfloat :=
  match x, y with
  | NaN, _ | _, NaN => NaN
  | Fin a, Fin b => Fin (a * b)
  | _, _ => inf_of_sign (sign_mul (fsign x) (fsign y))
  end.

Definition fdiv (x y : npfloat) : npfloat :=
  match x, y with
  | NaN, _ | _, NaN => NaN
  | Fin a, Fin b =>
      if Qeq_bool b 0 then inf_of_sign (Qcompare a 0) else Fin (a / b)
  | Fin _, _ => Fin 0
  | _, Fin b =>
      inf_of_sign (sign_mul (fsign x) (match Qcompare b 0 with Lt => Lt | _ => Gt end))
  | _, _ => NaN
  end.

Definition fabs (x : npfloat) : npfloat :=
  match x with
  | Fin q => Fin (Qabs q)
  | PInf | NInf => PInf
  | NaN => NaN
  end.

(** [x < y]; false as soon as one side is NaN. *)
Definition flt (x y : npfloat) : bool :=
  match x, y with
  | NaN, _ | _, NaN => false
  | Fin a, Fin b => match Qcompare a b with Lt => true | _ => false end
  | NInf, NInf => false
  | NInf, _ => true
  | _, NInf => false
  | PInf, _ => false
  | _, PInf => true
  end.

(** [np.maximum] and [np.minimum]: NaN propagates. *)
Definition maximum (x y : npfloat) : npfloat :=
  if is_nan x || is_nan y then NaN else if flt x y then y else x.

Definition minimum (x y : npfloat) : npfloat :=
  if is_nan x || is_nan y then NaN else if flt y x then y else x.

(** [np.clip(a, a_min, a_max)] is [np.minimum(a_max, np.maximum(a, a_min))]. *)
Definition clip (a a_min a_max : npfloat) : npfloat :=
  minimum (maximum a a_min) a_max.

(** [np.rint]: round to the nearest integer, ties to even. *)
Definition rint (q : Q) : Z :=
  let f := Qfloor q in
  match Qcompare (q - inject_Z f) (1 # 2) with
  | Lt => f
  | Gt => (f + 1)%Z
  | Eq => if Z.even f then f else (f + 1)%Z
  end.

(** [ndarray.round(decimals)]: scale by ten to the [decimals], [rint],
    scale back. *)
Definition round (decimals : nat) (q : Q) : Q :=
  let scale := inject_Z (10 ^ Z.of_nat decimals) in
  inject_Z (rint (q * scale)) / scale.

(** [Series.max()] of a float column: NaN on an empty column. *)
Definition series_max (l : list Q) : npfloat :=
  match l with
  | [] => NaN
  | x :: t => Fin (fold_left Qmax t x)
  end.

(** [Series.max()] of an integer column. *)
Definition series_max_int (l : list Z) : npfloat :=
  match l with
  | [] => NaN
  | x :: t => of_int (fold_left Z.max t x)
  end.

End NP.

Export NP.

(** ** The random stream *)

(** A computation that consumes the stream: it takes the state of the stream
    and returns a value with the state after the draws. *)
Definition Rand (RS A : Type) : Type := RS -> A * RS.

Definition rand_ret {RS A} (a : A) : Rand RS A := fun s => (a, s).

Definition rand_bind {RS A B} (c : Rand RS A) (k : A -> Rand RS B) : Rand RS B :=
  fun s => let (a, s') := c s in k a s'.

Notation "'let*' x ':=' c 'in' k" := (rand_bind c (fun x => k))
  (at level 10, x name, c at level 200, k at level 200, only parsing).

(** The scalar samplers of [np.random] that the generator uses.  A call with
    [size=n] fills its array with [n] successive scalar draws. *)
Class NumpyRandom (RS : Type) : Type := {
  (** one draw of [np.random.choice(options, p=weights)] *)
  choice1 : list string -> list Q -> Rand RS string;
  (** one draw of [np.random.uniform(low, high)] *)
  uniform1 : Q -> Q -> Rand RS Q;
  (** one draw of [np.random.randint(low, high)], [high] excluded *)
  randint1 : Z -> Z -> Rand RS Z;
  (** one draw of [np.random.lognormal(mean, sigma)] *)
  lognormal1 : Q -> Q -> Rand RS Q;
  (** one draw of [np.random.normal(loc, scale)] *)
  normal1 : Q -> Q -> Rand RS Q;
  (** one draw of [np.random.rand()] *)
  rand1 : Rand RS Q
}.

(** The supports of the samplers, as NumPy documents them: a choice is one
    of the options, an integer lies in the half-open range. *)
Class NumpyRandomSpec (RS : Type) `{NumpyRandom RS} : Prop := {
  choice1_elem : forall options weights s,
    options <> [] -> In (fst (choice1 options weights s)) options;
  randint1_range : forall low high s,
    (low < high)%Z -> (low <= fst (randint1 low high s) < high)%Z
}.

(** [size=n]: [n] successive draws from the stream. *)
Fixpoint draws {RS A} (n : nat) (c : Rand RS A) : Rand RS (list A) :=
  match n with
  | O => rand_ret []
  | S n' => let* x := c in let* xs := draws n' c in rand_ret (x :: xs)
  end.

(** ** Tables and files *)

(** A column of a pandas frame: float64, int64 or object (strings). *)
Inductive Column : Type :=
| FloatCol (values : list npfloat)
| IntCol (values : list Z)
| StrCol (values : list string).

(** A frame: its named columns, in column order. *)
Definition DataFrame : Type := list (string * Column).

Definition column_names (df : DataFrame) : list string := map fst df.

Definition column_length (c : Column) : nat :=
  match c with
  | FloatCol l => length l
  | IntCol l => length l
  | StrCol l => length l
  end.

(** What a path of the file system holds.  A file written by [to_csv] is
    kept as the table it renders; [Opaque] is a file that [read_csv] cannot
    parse (an empty file, an image, a pickle). *)
Inductive FileNode : Type :=
| CsvTable (table : DataFrame)
| Opaque (content : string)
| Directory.

(** The exceptions the two programs can meet. *)
Inductive Exception : Type :=
| FileNotFoundError (msg : string)
| IsADirectoryError
| ParserError
| KeyError (key : string)
| ValueError (msg : string)
| TypeError
| AttributeError
| IndexError
| NotFittedError.

Inductive Result (A : Type) : Type :=
| Ok (a : A)
| Raise (e : Exception).
Arguments Ok {A} a.
Arguments Raise {A} e.

Definition result_bind {A B} (c : Result A) (k : A -> Result B) : Result B :=
  match c with
  | Ok a => k a
  | Raise e => Raise e
  end.

Notation "'let?' x ':=' c 'in' k" := (result_bind c (fun x => k))
  (at level 10, x name, c at level 200, k at level 200, only parsing).

(** Runs [f] over the list and stops at the first exception. *)
Fixpoint result_map {A B} (f : A -> Result B) (l : list A) : Result (list B) :=
  match l with
  | [] => Ok []
  | x :: t => let? y := f x in let? ys := result_map f t in Ok (y :: ys)
  end.

(** ** 01_generate_dataset.py *)

Module Gen.

Local Open Scope string_scope.

Definition NUM_LEADS : nat := Z.to_nat 10000.
Definition BASE_CONVERSION_RATE : Q := 0.10.
Definition OUTPUT_FILE : string := "synthetic_sales_leads.csv".

Definition BUSINESS_TYPES : list string := ["Restaurant"; "Retail"; "Services"].
Definition PRIORITY_LEVELS : list string := ["Low"; "Medium"; "High"].

(** The dict [priority_map] of the source. *)
Definition priority_map : gmap string Q :=
  <["Low" := -0.05]> (<["Medium" := 0.05]> (<["High" := 0.15]> ∅)).

(** The dict [data] and the frame [df] built from it, before the label
    column is added: one array per key, each drawn with [size=NUM_LEADS]. *)
Record LeadData : Type := {
  business_type : list string;
  rating : list Q;
  user_ratings_total : list Z;
  deal_value : list Q;
  priority : list string;
  time_in_pipeline : list Z;
  documents_verified_count : list Z;
  contacts_count : list Z
}.

(** *** The effects, one per statement of the source *)

(** [(df["deal_value"] / df["deal_value"].max()) * 0.20] at one record *)
Definition deal_value_effect (deal_max : npfloat) (v : Q) : npfloat :=
  fmul (fdiv (Fin v) deal_max) (Fin 0.20).

(** [(df["rating"] / 5.0) * 0.10] *)
Definition rating_effect (r : Q) : npfloat :=
  fmul (fdiv (Fin r) (Fin 5.0)) (Fin 0.10).

(** [(df["user_ratings_total"] / df["user_ratings_total"].max()) * 0.05] *)
Definition review_count_effect (reviews_max : npfloat) (c : Z) : npfloat :=
  fmul (fdiv (of_int c) reviews_max) (Fin 0.05).

(** [(df["documents_verified_count"] / 6.0) * 0.25] *)
Definition document_effect (d : Z) : npfloat :=
  fmul (fdiv (of_int d) (Fin 6.0)) (Fin 0.25).

(** [df["priority"].map(priority_map)]: a key outside the dict maps to NaN *)
Definition priority_effect (p : string) : npfloat :=
  match priority_map !! p with
  | Some w => Fin w
  | None => NaN
  end.

(** [conversion_probability[df["business_type"] == "Restaurant"] += 0.05] *)
Definition business_type_bonus (b : string) (p : npfloat) : npfloat :=
  if String.eqb b "Restaurant" then fadd p (Fin 0.05) else p.

(** [((df["time_in_pipeline"] - 45) / 45).abs() * 0.05] *)
Definition time_penalty (t : Z) : npfloat :=
  fmul (fabs (fdiv (of_int (t - 45)) (of_int 45))) (Fin 0.05).

(** [conversion_probability += series]: element by element.  The arrays
    all have [NUM_LEADS] entries, so no broadcasting error arises. *)
Definition iadd (cp series : list npfloat) : list npfloat := zip_with fadd cp series.
Definition isub (cp series : list npfloat) : list npfloat := zip_with fsub cp series.

(** Lines 42 to 62: the array [conversion_probability] after the seven
    in-place updates, before the noise. *)
Definition accumulate_effects (n : nat) (df : LeadData) : list npfloat :=
  let cp := replicate n (Fin BASE_CONVERSION_RATE) in
  let cp := iadd cp (map (deal_value_effect (series_max (deal_value df))) (deal_value df)) in
  let cp := iadd cp (map rating_effect (rating df)) in
  let cp := iadd cp (map (review_count_effect (series_max_int (user_ratings_total df)))
                         (user_ratings_total df)) in
  let cp := iadd cp (map document_effect (documents_verified_count df)) in
  let cp := iadd cp (map priority_effect (priority df)) in
  let cp := zip_with business_type_bonus (business_type df) cp in
  let cp := isub cp (map time_penalty (time_in_pipeline df)) in
  cp.

(** [np.clip(conversion_probability, 0.01, 0.99)] *)
Definition clip_probability (p : npfloat) : npfloat := clip p (Fin 0.01) (Fin 0.99).

(** [(np.random.rand(NUM_LEADS) < conversion_probability).astype(int)] at
    one record *)
Definition bernoulli_label (u : Q) (p : npfloat) : Z :=
  if flt (Fin u) p then 1%Z else 0%Z.

(** The frame written to disk: the eight feature columns in the order of
    the dict, then the label. *)
Definition to_frame (df : LeadData) (converted : list Z) : DataFrame :=
  [ ("business_type", StrCol (business_type df));
    ("rating", FloatCol (map Fin (rating df)));
    ("user_ratings_total", IntCol (user_ratings_total df));
    ("deal_value", FloatCol (map Fin (deal_value df)));
    ("priority", StrCol (priority df));
    ("time_in_pipeline", IntCol (time_in_pipeline df));
    ("documents_verified_count", IntCol (documents_verified_count df));
    ("contacts_count", IntCol (contacts_count df));
    ("converted", IntCol converted) ].

(** Everything one run computes, the intermediate arrays included. *)
Record GeneratorRun : Type := {
  run_data : LeadData;
  run_effects : list npfloat;      (* after the seven effects *)
  run_noisy : list npfloat;        (* after [add_noise] *)
  run_probability : list npfloat;  (* after [np.clip] *)
  run_uniform : list Q;            (* the draws of [np.random.rand] *)
  run_converted : list Z           (* the column [converted] *)
}.

Definition run_frame (r : GeneratorRun) : DataFrame :=
  to_frame (run_data r) (run_converted r).

Section WithRandom.
Context {RS : Type} `{NumpyRandom RS}.

(** [add_noise(data, noise_level)] *)
Definition add_noise (data : list npfloat) (noise_level : Q) : Rand RS (list npfloat) :=
  let* noise := draws (length data) (normal1 0 noise_level) in
  rand_ret (zip_with fadd data (map Fin noise)).

(** Lines 28 to 37: the eight arrays, drawn in this order. *)
Definition sample_features (n : nat) : Rand RS LeadData :=
  let* bt := draws n (choice1 BUSINESS_TYPES [0.5; 0.3; 0.2]) in
  let* rt := draws n (uniform1 3.0 5.0) in
  let* urt := draws n (randint1 10 1000) in
  let* dv := draws n (lognormal1 8.5 0.8) in
  let* pr := draws n (choice1 PRIORITY_LEVELS [0.3; 0.5; 0.2]) in
  let* tip := draws n (randint1 1 90) in
  let* dvc := draws n (randint1 0 7) in
  let* cc := draws n (randint1 1 5) in
  rand_ret {| business_type := bt;
              rating := map (NP.round 1) rt;
              user_ratings_total := urt;
              deal_value := map (NP.round 0) dv;
              priority := pr;
              time_in_pipeline := tip;
              documents_verified_count := dvc;
              contacts_count := cc |}.

(** The body of [generate_synthetic_data] for [n] leads, up to the
    label column. *)
Definition run_generator (n : nat) : Rand RS GeneratorRun :=
  let* df := sample_features n in
  let cp := accumulate_effects n df in
  let* noisy := add_noise cp 0.1 in
  let clipped := map clip_probability noisy in
  let* u := draws n rand1 in
  rand_ret {| run_data := df;
              run_effects := cp;
              run_noisy := noisy;
              run_probability := clipped;
              run_uniform := u;
              run_converted := zip_with bernoulli_label u clipped |}.

(** The noise array of a run: the draws [add_noise] makes from the
    stream as the sampling of the features leaves it. *)
Definition run_noise (n : nat) (s : RS) : list Q :=
  fst (draws n (normal1 0 0.1) (snd (sample_features n s))).

(** The state the program runs in: the process-wide random stream and
    the file system. *)
Record World : Type := {
  np_random : RS;
  files : gmap string FileNode
}.

(** The body of [generate_synthetic_data] with the lead count as a
    parameter: draws from the stream it finds, as it finds it, and writes
    the frame to [OUTPUT_FILE] ([df.to_csv(OUTPUT_FILE, index=False)]). *)
Definition generate_n (n : nat) (w : World) : World :=
  let (r, s) := run_generator n (np_random w) in
  {| np_random := s;
     files := <[OUTPUT_FILE := CsvTable (run_frame r)]> (files w) |}.

(** [generate_synthetic_data()] *)
Definition generate_synthetic_data (w : World) : World := generate_n NUM_LEADS w.

End WithRandom.

(** *** The probability of one record, as the specification describes it

    Base rate, then the seven effects in order, then the noise, then the
    clipping. *)

(** Steps 2 and 3: the base rate and the seven effects, in order. *)
Definition spec_effects
    (deal_max reviews_max : npfloat)
    (bt : string) (rt : Q) (urt : Z) (dv : Q) (pr : string) (tip dvc : Z) : npfloat :=
  let p0 := Fin BASE_CONVERSION_RATE in
  let p1 := fadd p0 (deal_value_effect deal_max dv) in
  let p2 := fadd p1 (rating_effect rt) in
  let p3 := fadd p2 (review_count_effect reviews_max urt) in
  let p4 := fadd p3 (document_effect dvc) in
  let p5 := fadd p4 (priority_effect pr) in
  let p6 := business_type_bonus bt p5 in
  fsub p6 (time_penalty tip).

(** Steps 4 and 5: the noise is added to the accumulated value, and the sum
    is clipped. *)
Definition spec_conversion_probability (effects : npfloat) (noise : Q) : npfloat :=
  clip (fadd effects (Fin noise)) (Fin 0.01) (Fin 0.99).

End Gen.

(** ** A small generator to run the model with

    A linear congruential generator with crude samplers: a stand-in for
    NumPy's Mersenne Twister that satisfies [NumpyRandomSpec]. *)

Module Lcg.

Definition modulus : Z := 2147483648.

Definition next (s : Z) : Z := ((1103515245 * s + 12345) mod modulus)%Z.

(** A fraction in [0, 1). *)
Definition unit_of (s : Z) : Q := Qmake s 2147483648.

Definition lcg_rand : Rand Z Q := fun s => (unit_of (next s), next s).

(** Inverse-CDF walk over the options. *)
Fixpoint pick (options : list string) (weights : list Q) (u : Q) (last : string) : string :=
  match options, weights with
  | o :: os, w :: ws =>
      match Qcompare u w with
      | Lt => o
      | _ => pick os ws (u - w) o
      end
  | o :: _, [] => o
  | [], _ => last
  end.

Definition lcg_choice (options : list string) (weights : list Q) : Rand Z string :=
  fun s => (pick options weights (unit_of (next s)) EmptyString, next s).

Definition lcg_uniform (low high : Q) : Rand Z Q :=
  fun s => (low + (high - low) * unit_of (next s), next s).

Definition lcg_randint (low high : Z) : Rand Z Z :=
  fun s => ((low + next s mod (high - low))%Z, next s).

Definition lcg_lognormal (mean sigma : Q) : Rand Z Q :=
  fun s => (inject_Z (1 + next s mod 20000), next s).

Definition lcg_normal (loc scale : Q) : Rand Z Q :=
  fun s => (loc + scale * (2 * unit_of (next s) - 1), next s).

#[export] Instance lcg_random : NumpyRandom Z := {|
  choice1 := lcg_choice;
  uniform1 := lcg_uniform;
  randint1 := lcg_randint;
  lognormal1 := lcg_lognormal;
  normal1 := lcg_normal;
  rand1 := lcg_rand
|}.

End Lcg.

(** ** pandas frames *)

Module Pd.

(** [df[name]]: the first column of that name. *)
Fixpoint get_column (df : DataFrame) (name : string) : Result Column :=
  match df with
  | [] => Raise (KeyError name)
  | (k, c) :: rest => if String.eqb k name then Ok c else get_column rest name
  end.

(** [df[names]]: the named columns, in the order of [names]. *)
Definition select (df : DataFrame) (names : list string) : Result DataFrame :=
  result_map (fun name => let? c := get_column df name in Ok (name, c)) names.

(** The entries at the positions [idx], in that order.  The positions a
    split returns are in range; a position out of range is skipped. *)
Definition take {A} (l : list A) (idx : list nat) : list A :=
  omap (fun i => l !! i) idx.

Definition take_column (c : Column) (idx : list nat) : Column :=
  match c with
  | FloatCol l => FloatCol (take l idx)
  | IntCol l => IntCol (take l idx)
  | StrCol l => StrCol (take l idx)
  end.

(** [df.iloc[idx]] *)
Definition take_rows (df : DataFrame) (idx : list nat) : DataFrame :=
  map (fun kc => (fst kc, take_column (snd kc) idx)) df.

(** [df[target] = c] for a column that exists: the column is replaced in
    place. *)
Definition replace_column (df : DataFrame) (target : string) (c : Column) : DataFrame :=
  map (fun kc => if String.eqb (fst kc) target then (fst kc, c) else kc) df.

Definition num_rows (df : DataFrame) : nat :=
  match df with
  | [] => O
  | kc :: _ => column_length (snd kc)
  end.

(** A column read as float64: text cannot be converted. *)
Definition numeric_values (c : Column) : Result (list npfloat) :=
  match c with
  | FloatCol l => Ok l
  | IntCol l => Ok (map of_int l)
  | StrCol _ => Raise (ValueError "could not convert string to float")
  end.

(** A column read as text categories.  Only object columns are modelled
    as categorical inputs; the dataset's two categorical columns are text. *)
Definition category_values (c : Column) : Result (list string) :=
  match c with
  | StrCol l => Ok l
  | _ => Raise (ValueError "categorical column is not text")
  end.

(** A column read as integer labels. *)
Definition label_values (c : Column) : Result (list Z) :=
  match c with
  | IntCol l => Ok l
  | _ => Raise (ValueError "Unknown label type")
  end.

(** [pd.read_csv(path)] *)
Definition read_csv (fs : gmap string FileNode) (path : string) : Result DataFrame :=
  match fs !! path with
  | Some (CsvTable t) => Ok t
  | Some (Opaque _) => Raise ParserError
  | Some Directory => Raise IsADirectoryError
  | None => Raise (FileNotFoundError "No such file or directory")
  end.

(** [path.exists()] *)
Definition path_exists (fs : gmap string FileNode) (path : string) : bool :=
  match fs !! path with
  | Some _ => true
  | None => false
  end.

End Pd.

(** ** The parts of scikit-learn the trainer configures *)

Module Sk.

(** *** Metrics

    The values the metrics return on binary targets: labels 0 and 1, the
    positive label being 1, and arrays of one length.  Outside that domain
    (a third label, arrays of different lengths, a score that is not
    finite) scikit-learn raises instead of returning; statements about
    whether [evaluate_model] returns carry that domain as hypotheses. *)

(** Number of positions where [f] holds of the true and predicted label. *)
Fixpoint count_pairs (f : Z -> Z -> bool) (y_true y_pred : list Z) : Z :=
  match y_true, y_pred with
  | t :: ts, p :: ps => ((if f t p then 1 else 0) + count_pairs f ts ps)%Z
  | _, _ => 0%Z
  end.

Definition true_positives := count_pairs (fun t p => (t =? 1)%Z && (p =? 1)%Z).
Definition false_positives := count_pairs (fun t p => negb (t =? 1)%Z && (p =? 1)%Z).
Definition false_negatives := count_pairs (fun t p => (t =? 1)%Z && negb (p =? 1)%Z).

(** A ratio of counts, with the value of the [zero_division] argument
    when the denominator is zero. *)
Definition ratio_or (zero_division : npfloat) (num den : Z) : npfloat :=
  if (den =? 0)%Z then zero_division else fdiv (of_int num) (of_int den).

(** [accuracy_score(y_true, y_pred)]: it has no [zero_division] argument. *)
Definition accuracy_score (y_true y_pred : list Z) : npfloat :=
  fdiv (of_int (count_pairs Z.eqb y_true y_pred)) (of_int (Z.of_nat (length y_true))).

(** [precision_score(y_true, y_pred, zero_division=zd)] *)
Definition precision_score (zero_division : npfloat) (y_true y_pred : list Z) : npfloat :=
  let tp := true_positives y_true y_pred in
  ratio_or zero_division tp (tp + false_positives y_true y_pred).

(** [recall_score(y_true, y_pred, zero_division=zd)] *)
Definition recall_score (zero_division : npfloat) (y_true y_pred : list Z) : npfloat :=
  let tp := true_positives y_true y_pred in
  ratio_or zero_division tp (tp + false_negatives y_true y_pred).

(** [f1_score(y_true, y_pred, zero_division=zd)] *)
Definition f1_score (zero_division : npfloat) (y_true y_pred : list Z) : npfloat :=
  let tp := true_positives y_true y_pred in
  ratio_or zero_division (2 * tp)
    (2 * tp + false_positives y_true y_pred + false_negatives y_true y_pred).

(** The scores of the records whose label satisfies [f]. *)
Fixpoint scores_where (f : Z -> bool) (y_true : list Z) (y_score : list npfloat)
  : list npfloat :=
  match y_true, y_score with
  | t :: ts, s :: ss =>
      if f t then s :: scores_where f ts ss else scores_where f ts ss
  | _, _ => []
  end.

(** Twice the credit of one positive/negative pair: 2 when the positive
    is ranked above, 1 on a tie. *)
Definition pair_credit (pos neg : npfloat) : Z :=
  if flt neg pos then 2%Z else if flt pos neg then 0%Z else 1%Z.

Definition sum_Z (l : list Z) : Z := fold_right Z.add 0%Z l.

Definition SINGLE_CLASS_MESSAGE : string :=
  "Only one class present in y_true. ROC AUC score is not defined in that case.".

(** What the installed scikit-learn does when [roc_auc_score] meets a single
    class in [y_true]: it raises [ValueError], or, in later releases, warns
    and returns NaN. *)
Inductive SingleClassAuc : Type := RaisesValueError | ReturnsNaN.

(** [roc_auc_score(y_true, y_score)]: the area under the ROC curve, which
    is the share of positive/negative pairs ranked correctly.  With a
    single class in [y_true] the score is undefined; there is no
    [zero_division] argument and no default is substituted. *)
Definition roc_auc_score (installed : SingleClassAuc)
    (y_true : list Z) (y_score : list npfloat) : Result npfloat :=
  let pos := scores_where (fun t => (t =? 1)%Z) y_true y_score in
  let neg := scores_where (fun t => negb (t =? 1)%Z) y_true y_score in
  match pos, neg with
  | [], _ | _, [] =>
      match installed with
      | RaisesValueError => Raise (ValueError SINGLE_CLASS_MESSAGE)
      | ReturnsNaN => Ok NaN
      end
  | _, _ =>
      let credit := sum_Z (map (fun p => sum_Z (map (pair_credit p) neg)) pos) in
      Ok (fdiv (of_int credit)
               (of_int (2 * Z.of_nat (length pos) * Z.of_nat (length neg))))
  end.

(** *** OneHotEncoder and StandardScaler *)

Inductive HandleUnknown : Type := HandleError | HandleIgnore.

Record OneHotEncoder : Type := {
  handle_unknown : HandleUnknown;
  dense_output : bool
}.

(** The release of scikit-learn that is installed: the keyword
    [sparse_output] exists from 1.2 on. *)
Inductive Release : Type := Before_1_2 | Since_1_2.

(** The constructor called with [handle_unknown=h] and one keyword for
    the output format; an unknown keyword raises [TypeError]. *)
Definition OneHotEncoder_init (rel : Release) (h : HandleUnknown)
    (keyword : string) (sparse : bool) : Result OneHotEncoder :=
  match rel with
  | Before_1_2 =>
      if String.eqb keyword "sparse"
      then Ok {| handle_unknown := h; dense_output := negb sparse |}
      else Raise TypeError
  | Since_1_2 =>
      if String.eqb keyword "sparse_output" || String.eqb keyword "sparse"
      then Ok {| handle_unknown := h; dense_output := negb sparse |}
      else Raise TypeError
  end.

(** The order of text values: by character code. *)
Definition str_le (a b : string) : Prop := String.leb a b = true.

#[export] Instance str_le_dec : RelDecision str_le :=
  fun a b => bool_eq_dec (String.leb a b) true.

(** [np.unique] of a text column: the distinct values, sorted. *)
Definition unique (l : list string) : list string :=
  merge_sort str_le (remove_dups l).

(** The indicator column of category [c]. *)
Definition indicator (c : string) (values : list string) : list npfloat :=
  map (fun v => if String.eqb v c then Fin 1 else Fin 0) values.

Definition known (categories : list string) (v : string) : bool :=
  existsb (String.eqb v) categories.

(** [OneHotEncoder.transform] on one column: one indicator column per
    fitted category.  A value outside the fitted categories raises with
    [handle_unknown="error"] and matches no indicator with ["ignore"]. *)
Definition encode (enc : OneHotEncoder) (feature : string) (categories : list string)
    (values : list string) : Result DataFrame :=
  match handle_unknown enc with
  | HandleError =>
      if forallb (known categories) values
      then Ok (map (fun c => (("cat__" ++ feature ++ "_" ++ c)%string,
                              FloatCol (indicator c values))) categories)
      else Raise (ValueError "Found unknown categories")
  | HandleIgnore =>
      Ok (map (fun c => (("cat__" ++ feature ++ "_" ++ c)%string,
                         FloatCol (indicator c values))) categories)
  end.

Definition fsum (l : list npfloat) : npfloat := fold_left fadd l (Fin 0).

Definition is_zero (x : npfloat) : bool :=
  match x with Fin q => Qeq_bool q 0 | _ => false end.

(** The state a fitted [ColumnTransformer] holds: per numeric feature the
    mean and scale of the [StandardScaler], per categorical feature the
    categories of the [OneHotEncoder]. *)
Record Fitted : Type := {
  mean_ : list npfloat;
  scale_ : list npfloat;
  categories_ : list (list string)
}.

(** [ColumnTransformer([("num", scaler, numeric), ("cat", encoder,
    categorical)])] with pandas output; columns not listed are dropped. *)
Record ColumnTransformer : Type := {
  numeric : list string;
  categorical : list string;
  encoder : OneHotEncoder;
  fitted_ : option Fitted
}.

(** [ct.set_output(transform="pandas")]: the method exists from
    scikit-learn 1.2 on; on a release before, looking it up raises
    [AttributeError].  It returns the estimator itself; the pandas output it
    asks for is the frame [transform] returns below. *)
Definition set_output (rel : Release) (ct : ColumnTransformer) : Result ColumnTransformer :=
  match rel with
  | Before_1_2 => Raise AttributeError
  | Since_1_2 => Ok ct
  end.

(** A frame has the columns the transformer reads: the numeric ones hold
    numbers and the categorical ones text. *)
Definition has_columns (ct : ColumnTransformer) (X : DataFrame) : Prop :=
  Forall (fun name => exists c xs,
            Pd.get_column X name = Ok c /\ Pd.numeric_values c = Ok xs) (numeric ct) /\
  Forall (fun name => exists c vs,
            Pd.get_column X name = Ok c /\ Pd.category_values c = Ok vs) (categorical ct).

(** The classifiers of the comparison, with the hyper-parameters [main]
    gives them. *)
Inductive ModelKind : Type :=
| DummyClassifier
| LogisticRegression
| LGBMClassifier.

(** What the trainer takes from NumPy, scikit-learn and LightGBM without
    looking inside. *)
Class Learners (Clf : Type) : Type := {
  np_sqrt : npfloat -> npfloat;
  single_class_auc : SingleClassAuc;
  (** [train_test_split]: the row positions of the train and of the test
      partition, from the row count, the test fraction, the seed and the
      labels to stratify by *)
  train_test_split : nat -> Q -> Z -> list Z -> list nat * list nat;
  (** [classifier.fit(Xt, y)] of a classifier of the given kind and seed *)
  classifier_fit : ModelKind -> Z -> DataFrame -> list Z -> Result Clf;
  classifier_predict : Clf -> DataFrame -> list Z;
  (** one row of class probabilities per record *)
  classifier_predict_proba : Clf -> DataFrame -> list (list npfloat);
  feature_importances_ : Clf -> list Z
}.

(** A fitted LightGBM classifier has one importance per input column. *)
Class LearnersSpec (Clf : Type) `{Learners Clf} : Prop := {
  feature_importances_length : forall seed Xt y clf,
    classifier_fit LGBMClassifier seed Xt y = Ok clf ->
    length (feature_importances_ clf) = length Xt
}.

Section WithLearners.
Context {Clf : Type} `{Learners Clf}.

(** [StandardScaler.fit] on one column: mean and scale, a zero scale
    being replaced by one. *)
Definition scaler_fit (xs : list npfloat) : Result (npfloat * npfloat) :=
  match xs with
  | [] => Raise (ValueError "Found array with 0 sample(s)")
  | _ =>
      let n := of_int (Z.of_nat (length xs)) in
      let mean := fdiv (fsum xs) n in
      let var := fdiv (fsum (map (fun x => fmul (fsub x mean) (fsub x mean)) xs)) n in
      let scale := np_sqrt var in
      Ok (mean, if is_zero scale then Fin 1 else scale)
  end.

Definition scaler_transform (mean scale : npfloat) (xs : list npfloat) : list npfloat :=
  map (fun x => fdiv (fsub x mean) scale) xs.

(** [ColumnTransformer.fit(X)] *)
Definition fit (ct : ColumnTransformer) (X : DataFrame) : Result ColumnTransformer :=
  let? stats := result_map (fun name =>
                  let? c := Pd.get_column X name in
                  let? xs := Pd.numeric_values c in
                  scaler_fit xs) (numeric ct) in
  let? cats := result_map (fun name =>
                  let? c := Pd.get_column X name in
                  let? vs := Pd.category_values c in
                  Ok (unique vs)) (categorical ct) in
  Ok {| numeric := numeric ct;
        categorical := categorical ct;
        encoder := encoder ct;
        fitted_ := Some {| mean_ := map fst stats;
                           scale_ := map snd stats;
                           categories_ := cats |} |}.

(** [ColumnTransformer.transform(X)]: the scaled numeric columns, then
    the indicator columns of each categorical feature. *)
Definition transform (ct : ColumnTransformer) (X : DataFrame) : Result DataFrame :=
  match fitted_ ct with
  | None => Raise NotFittedError
  | Some f =>
      let? nums := result_map (fun nms =>
                     let? c := Pd.get_column X (fst nms) in
                     let? xs := Pd.numeric_values c in
                     Ok (("num__" ++ fst nms)%string,
                         FloatCol (scaler_transform (fst (snd nms)) (snd (snd nms)) xs)))
                   (zip (numeric ct) (zip (mean_ f) (scale_ f))) in
      let? cats := result_map (fun nc =>
                     let? c := Pd.get_column X (fst nc) in
                     let? vs := Pd.category_values c in
                     encode (encoder ct) (fst nc) (snd nc) vs)
                   (zip (categorical ct) (categories_ f)) in
      Ok (nums ++ concat cats)
  end.

(** [ColumnTransformer.get_feature_names_out()] *)
Definition get_feature_names_out (ct : ColumnTransformer) : Result (list string) :=
  match fitted_ ct with
  | None => Raise NotFittedError
  | Some f =>
      Ok (map (fun name => ("num__" ++ name)%string) (numeric ct)
          ++ concat (map (fun nc =>
                           map (fun c => ("cat__" ++ fst nc ++ "_" ++ c)%string) (snd nc))
                         (zip (categorical ct) (categories_ f))))
  end.

End WithLearners.

End Sk.

(** ** 02_train_evaluate_model.py *)

Module Trainer.

Local Open Scope string_scope.
Import Sk.

Definition RANDOM_STATE : Z := 42.
Definition TEST_SIZE : Q := 0.2.
Definition TARGET_COLUMN : string := "converted".

Definition DATA_PATH : string := "synthetic_sales_leads.csv".
Definition ROC_PLOT_PATH : string := "roc_curve.png".
Definition FEATURE_IMPORTANCE_PLOT_PATH : string := "lightgbm_feature_importance.png".
Definition FEATURE_IMPORTANCE_CSV_PATH : string := "lightgbm_feature_importance.csv".
Definition MODEL_OUTPUT_PATH : string := "lightgbm_model.pkl".
Definition METRICS_OUTPUT_PATH : string := "model_metrics.csv".

Definition NUMERIC_FEATURES : list string :=
  [ "rating"; "user_ratings_total"; "deal_value"; "time_in_pipeline";
    "documents_verified_count"; "contacts_count" ].

Definition CATEGORICAL_FEATURES : list string := [ "business_type"; "priority" ].

(** [build_one_hot_encoder()]: the keyword of scikit-learn >= 1.2 first
    and, on [TypeError], the keyword of the releases before. *)
Definition build_one_hot_encoder (rel : Release) : Result OneHotEncoder :=
  match OneHotEncoder_init rel HandleIgnore "sparse_output" false with
  | Raise TypeError => OneHotEncoder_init rel HandleIgnore "sparse" false
  | r => r
  end.

(** [build_preprocessor()]: the transformer is constructed, then
    [set_output] is called on it (line 70). *)
Definition build_preprocessor (rel : Release) : Result ColumnTransformer :=
  let? categorical_transformer := build_one_hot_encoder rel in
  let preprocessor := {| numeric := NUMERIC_FEATURES;
                         categorical := CATEGORICAL_FEATURES;
                         encoder := categorical_transformer;
                         fitted_ := None |} in
  let? configured := set_output rel preprocessor in
  Ok configured.

Definition MISSING_DATASET_MESSAGE : string :=
  "Dataset not found. Please run 01_generate_dataset.py before training.".

(** [load_dataset(path)] *)
Definition load_dataset (fs : gmap string FileNode) (path : string) : Result DataFrame :=
  if negb (Pd.path_exists fs path)
  then Raise (FileNotFoundError MISSING_DATASET_MESSAGE)
  else Pd.read_csv fs path.

(** The dict [metrics] of [evaluate_model]. *)
Record Metrics : Type := {
  accuracy : npfloat;
  precision : npfloat;
  recall : npfloat;
  f1_score : npfloat;
  roc_auc : npfloat
}.

(** [a[:, 1]]: the second entry of every row. *)
Definition second_column (rows : list (list npfloat)) : Result (list npfloat) :=
  result_map (fun row => match row !! 1%nat with
                         | Some p => Ok p
                         | None => Raise IndexError
                         end) rows.

(** The metrics of [evaluate_model], from the predictions of a model. *)
Definition score (installed : SingleClassAuc)
    (y_test y_pred : list Z) (proba : list (list npfloat))
  : Result (Metrics * list npfloat) :=
  let? y_prob := second_column proba in
  let acc := Sk.accuracy_score y_test y_pred in
  let prec := Sk.precision_score (Fin 0) y_test y_pred in
  let rec := Sk.recall_score (Fin 0) y_test y_pred in
  let f1 := Sk.f1_score (Fin 0) y_test y_pred in
  let? auc := Sk.roc_auc_score installed y_test y_prob in
  Ok ({| accuracy := acc; precision := prec; recall := rec;
         f1_score := f1; roc_auc := auc |}, y_prob).

Section WithLearners.
Context {Clf : Type} `{Learners Clf}.

(** The dict [models]: the three pipelines hold the same preprocessor
    object, so there is one preprocessor state, and one fitted
    classifier per name once its pipeline is fitted. *)
Record Models : Type := {
  preprocessor : ColumnTransformer;
  classifiers : gmap string Clf
}.

Definition MODELS : list (string * ModelKind) :=
  [ ("Dummy Classifier", DummyClassifier);
    ("Logistic Regression", LogisticRegression);
    ("LightGBM", LGBMClassifier) ].

(** [pipeline.fit(X_train, y_train)]: refits the shared preprocessor,
    then fits the classifier on the transformed frame. *)
Definition pipeline_fit (name : string) (kind : ModelKind)
    (X_train : DataFrame) (y_train : list Z) (m : Models) : Result Models :=
  let? pre := fit (preprocessor m) X_train in
  let? Xt := transform pre X_train in
  let? clf := classifier_fit kind RANDOM_STATE Xt y_train in
  Ok {| preprocessor := pre; classifiers := <[name := clf]> (classifiers m) |}.

Definition fitted_classifier (m : Models) (name : string) : Result Clf :=
  match classifiers m !! name with
  | Some clf => Ok clf
  | None => Raise NotFittedError
  end.

(** [model.predict(X)] and [model.predict_proba(X)] of the pipeline
    [name]: only [transform] is applied to [X]. *)
Definition pipeline_predict (m : Models) (name : string) (X : DataFrame)
  : Result (list Z) :=
  let? Xt := transform (preprocessor m) X in
  let? clf := fitted_classifier m name in
  Ok (classifier_predict clf Xt).

Definition pipeline_predict_proba (m : Models) (name : string) (X : DataFrame)
  : Result (list (list npfloat)) :=
  let? Xt := transform (preprocessor m) X in
  let? clf := fitted_classifier m name in
  Ok (classifier_predict_proba clf Xt).

(** [evaluate_model(model, X_test, y_test)] *)
Definition evaluate_model (m : Models) (name : string)
    (X_test : DataFrame) (y_test : list Z) : Result (Metrics * list npfloat) :=
  let? y_pred := pipeline_predict m name X_test in
  let? proba := pipeline_predict_proba m name X_test in
  score single_class_auc y_test y_pred proba.

(** The loop of [main] over [models.items()]. *)
Fixpoint train_and_evaluate (todo : list (string * ModelKind))
    (X_train : DataFrame) (y_train : list Z) (X_test : DataFrame) (y_test : list Z)
    (m : Models) (metrics_output : list (string * Metrics))
  : Result (Models * list (string * Metrics)) :=
  match todo with
  | [] => Ok (m, metrics_output)
  | (model_name, kind) :: rest =>
      let? m' := pipeline_fit model_name kind X_train y_train m in
      let? res := evaluate_model m' model_name X_test y_test in
      train_and_evaluate rest X_train y_train X_test y_test m'
        (metrics_output ++ [(model_name, fst res)])
  end.

(** [sort_values("importance", ascending=False)] *)
Definition by_importance_desc (a b : string * Z) : Prop := (snd b <= snd a)%Z.

#[export] Instance by_importance_desc_dec : RelDecision by_importance_desc :=
  fun a b => Z_le_dec (snd b) (snd a).

(** [plot_feature_importance(model)]: the table it returns. *)
Definition plot_feature_importance (m : Models) (name : string)
  : Result (list (string * Z)) :=
  let? feature_names := get_feature_names_out (preprocessor m) in
  let? clf := fitted_classifier m name in
  let importances := feature_importances_ clf in
  if Nat.eqb (length feature_names) (length importances)
  then Ok (merge_sort by_importance_desc (zip feature_names importances))
  else Raise (ValueError "All arrays must be of the same length").

Definition metrics_frame (rows : list (string * Metrics)) : DataFrame :=
  [ ("model", StrCol (map fst rows));
    ("accuracy", FloatCol (map (fun r => accuracy (snd r)) rows));
    ("precision", FloatCol (map (fun r => precision (snd r)) rows));
    ("recall", FloatCol (map (fun r => recall (snd r)) rows));
    ("f1_score", FloatCol (map (fun r => f1_score (snd r)) rows));
    ("roc_auc", FloatCol (map (fun r => roc_auc (snd r)) rows)) ].

Definition importance_frame (rows : list (string * Z)) : DataFrame :=
  [ ("feature", StrCol (map fst rows)); ("importance", IntCol (map snd rows)) ].

(** What one run of [main] computes. *)
Record TrainerRun : Type := {
  run_X : DataFrame;
  run_y : list Z;
  run_X_train : DataFrame;
  run_X_test : DataFrame;
  run_y_train : list Z;
  run_y_test : list Z;
  run_models : Models;
  run_metrics : list (string * Metrics);
  run_feature_importance : list (string * Z);
  run_files : gmap string FileNode
}.

(** [main()] *)
Definition main (rel : Release) (fs : gmap string FileNode) : Result TrainerRun :=
  let? df := load_dataset fs DATA_PATH in
  let? X := Pd.select df (NUMERIC_FEATURES ++ CATEGORICAL_FEATURES) in
  let? ycol := Pd.get_column df TARGET_COLUMN in
  let? y := Pd.label_values ycol in
  let parts := train_test_split (Pd.num_rows X) TEST_SIZE RANDOM_STATE y in
  let X_train := Pd.take_rows X (fst parts) in
  let X_test := Pd.take_rows X (snd parts) in
  let y_train := Pd.take y (fst parts) in
  let y_test := Pd.take y (snd parts) in
  let? pre := build_preprocessor rel in
  let? trained := train_and_evaluate MODELS X_train y_train X_test y_test
                    {| preprocessor := pre; classifiers := ∅ |} [] in
  let fs := <[METRICS_OUTPUT_PATH := CsvTable (metrics_frame (snd trained))]> fs in
  let fs := <[ROC_PLOT_PATH := Opaque "png"]> fs in
  let? table := plot_feature_importance (fst trained) "LightGBM" in
  let fs := <[FEATURE_IMPORTANCE_PLOT_PATH := Opaque "png"]> fs in
  let fs := <[FEATURE_IMPORTANCE_CSV_PATH := CsvTable (importance_frame table)]> fs in
  let fs := <[MODEL_OUTPUT_PATH := Opaque "pkl"]> fs in
  Ok {| run_X := X; run_y := y;
        run_X_train := X_train; run_X_test := X_test;
        run_y_train := y_train; run_y_test := y_test;
        run_models := fst trained;
        run_metrics := snd trained;
        run_feature_importance := table;
        run_files := fs |}.

End WithLearners.

End Trainer.

(** ** Small learners to run the model with

    Stand-ins for the estimators: a split that sends every fifth row to the
    test partition, and a classifier that thresholds its first input column. *)

Module Toy.

Import Sk.

Record ToyClf : Type := {
  toy_kind : ModelKind;
  toy_columns : nat
}.

(** Square root by the integer square root of numerator times denominator. *)
Definition toy_sqrt (x : npfloat) : npfloat :=
  match x with
  | Fin q =>
      match Qcompare q 0 with
      | Lt => NaN
      | _ => Fin (Qmake (Z.sqrt (Qnum q * Zpos (Qden q))) (Qden q))
      end
  | PInf => PInf
  | _ => NaN
  end.

Definition toy_split (n : nat) (test_size : Q) (seed : Z) (stratify : list Z)
  : list nat * list nat :=
  (List.filter (fun i => negb (Nat.eqb (i mod 5) 0)) (seq 0 n),
   List.filter (fun i => Nat.eqb (i mod 5) 0) (seq 0 n)).

Definition first_column (Xt : DataFrame) : list npfloat :=
  match Xt with
  | (_, FloatCol l) :: _ => l
  | _ => []
  end.

Definition toy_fit (kind : ModelKind) (seed : Z) (Xt : DataFrame) (y : list Z)
  : Result ToyClf :=
  Ok {| toy_kind := kind; toy_columns := length Xt |}.

Definition toy_predict (clf : ToyClf) (Xt : DataFrame) : list Z :=
  match toy_kind clf with
  | DummyClassifier => map (fun _ => 0%Z) (first_column Xt)
  | _ => map (fun x => if flt (Fin 0) x then 1%Z else 0%Z) (first_column Xt)
  end.

Definition toy_predict_proba (clf : ToyClf) (Xt : DataFrame) : list (list npfloat) :=
  match toy_kind clf with
  | DummyClassifier => map (fun _ => [Fin 0.5; Fin 0.5]) (first_column Xt)
  | _ => map (fun x => if flt (Fin 0) x then [Fin 0.25; Fin 0.75]
                       else [Fin 0.75; Fin 0.25]) (first_column Xt)
  end.

Definition toy_importances (clf : ToyClf) : list Z :=
  map (fun i => Z.of_nat ((i * 7) mod 5)) (seq 0 (toy_columns clf)).

#[export] Instance toy_learners : Learners ToyClf := {|
  np_sqrt := toy_sqrt;
  single_class_auc := RaisesValueError;
  train_test_split := toy_split;
  classifier_fit := toy_fit;
  classifier_predict := toy_predict;
  classifier_predict_proba := toy_predict_proba;
  feature_importances_ := toy_importances
|}.

End Toy.

(** ** Further supports, ranges and derived tables *)

(** The supports of the two continuous samplers of the features: a uniform
    draw lies between its bounds, a log-normal draw is positive. *)
Class NumpyContinuousSpec (RS : Type) `{NumpyRandom RS} : Prop := {
  uniform1_range : forall low high s,
    low <= high -> low <= fst (uniform1 low high s) <= high;
  lognormal1_pos : forall mean sigma s, 0 < fst (lognormal1 mean sigma s)
}.

(** A finite value between 0 and 1. *)
Definition in_unit (x : npfloat) : Prop := exists q, x = Fin q /\ 0 <= q <= 1.

Module Outputs.


(** [top_n = feature_importance_df.head(20)]: the rows the bar chart of
    [plot_feature_importance] shows. *)
Definition top_n (feature_importance_df : list (string * Z)) : list (string * Z) :=
  firstn 20 feature_importance_df.

(** The rows of the table that the bar chart leaves out. *)
Definition not_plotted (feature_importance_df : list (string * Z)) : list (string * Z) :=
  skipn 20 feature_importance_df.

End Outputs.

(** ** Reading a dataset file *)

(** The first entry of the first column, when it is a text column. *)
Definition first_business_type (node : option FileNode) : option string :=
  match node with
  | Some (CsvTable ((_, StrCol (b :: _)) :: _)) => Some b
  | _ => None
  end.

(** ** Concrete runs

    Inputs on which the model is executed in the examples below. *)

Module Demo.

Local Open Scope string_scope.

(** A process whose stream is in state 42, on an empty directory. *)
Definition world42 : Gen.World (RS := Z) :=
  {| Gen.np_random := 42%Z; Gen.files := ∅ |}.

(** The same directory, the stream in another state. *)
Definition world2 : Gen.World (RS := Z) :=
  {| Gen.np_random := 2%Z; Gen.files := ∅ |}.

(** The stream in state 42 again, in a directory that already holds a file
    at the output path. *)
Definition world42_stale : Gen.World (RS := Z) :=
  {| Gen.np_random := 42%Z;
     Gen.files := <[Gen.OUTPUT_FILE := Opaque "stale"]> ∅ |}.

(** Three leads drawn from state 42. *)
Definition run3 : Gen.GeneratorRun :=
  fst (Gen.run_generator (H := Lcg.lcg_random) 3 42%Z).

(** A directory holding a dataset of twenty leads. *)
Definition fs20 : gmap string FileNode :=
  Gen.files (Gen.generate_n (H := Lcg.lcg_random) 20 world42).

(** A training partition of four leads. *)
Definition X_train : DataFrame :=
  [ ("rating", FloatCol [Fin 4.5; Fin 3.2; Fin 4.9; Fin 3.8]);
    ("user_ratings_total", IntCol [120; 15; 640; 88]%Z);
    ("deal_value", FloatCol [Fin 5200; Fin 1800; Fin 9100; Fin 3000]);
    ("time_in_pipeline", IntCol [40; 5; 60; 80]%Z);
    ("documents_verified_count", IntCol [6; 1; 4; 2]%Z);
    ("contacts_count", IntCol [2; 1; 4; 3]%Z);
    ("business_type", StrCol ["Restaurant"; "Retail"; "Restaurant"; "Retail"]);
    ("priority", StrCol ["High"; "Low"; "Medium"; "Low"]) ].

Definition y_train : list Z := [1; 0; 1; 0]%Z.

(** A test partition of two leads; the business type of the second one,
    "Services", does not occur in [X_train]. *)
Definition X_test : DataFrame :=
  [ ("rating", FloatCol [Fin 4.1; Fin 3.5]);
    ("user_ratings_total", IntCol [300; 42]%Z);
    ("deal_value", FloatCol [Fin 4100; Fin 2500]);
    ("time_in_pipeline", IntCol [45; 12]%Z);
    ("documents_verified_count", IntCol [5; 0]%Z);
    ("contacts_count", IntCol [3; 1]%Z);
    ("business_type", StrCol ["Retail"; "Services"]);
    ("priority", StrCol ["Medium"; "High"]) ].

(** Labels of the test partition with both classes, and with one class. *)
Definition y_test : list Z := [1; 0]%Z.
Definition y_test_single_class : list Z := [0; 0]%Z.

(** The models once the pipeline of the dummy classifier is fitted. *)
Definition dummy_fitted : Result (Trainer.Models (Clf := Toy.ToyClf)) :=
  let? pre := Trainer.build_preprocessor Sk.Since_1_2 in
  Trainer.pipeline_fit (H := Toy.toy_learners) "Dummy Classifier" Sk.DummyClassifier
    X_train y_train
    {| Trainer.preprocessor := pre; Trainer.classifiers := ∅ |}.

(** A directory where the dataset path holds an empty file, and one where
    it holds nothing. *)
Definition fs_empty_file : gmap string FileNode :=
  <[Trainer.DATA_PATH := Opaque EmptyString]> ∅.

Definition fs_nothing : gmap string FileNode := ∅.

(** A directory whose dataset holds the eight features and no label. *)
Definition fs_features_only : gmap string FileNode :=
  <[Trainer.DATA_PATH := CsvTable X_train]> ∅.

End Demo.

(** * Properties *)

(** ** Floats *)

Lemma flt_fin (a b : Q) : flt (Fin a) (Fin b) = true <-> a < b.
Proof.
  unfold flt. rewrite Qlt_alt. destruct (Qcompare a b); split; congruence.
Qed.

Lemma flt_fin_false (a b : Q) : flt (Fin a) (Fin b) = false <-> b <= a.
Proof.
  rewrite <- Bool.not_true_iff_false, flt_fin. split.
  - apply Qnot_lt_le.
  - intros Hle Hlt. exact (Qle_not_lt _ _ Hle Hlt).
Qed.

Lemma maximum_fin (a b : Q) :
  maximum (Fin a) (Fin b) = if flt (Fin a) (Fin b) then Fin b else Fin a.
Proof. reflexivity. Qed.

Lemma minimum_fin (a b : Q) :
  minimum (Fin a) (Fin b) = if flt (Fin b) (Fin a) then Fin b else Fin a.
Proof. reflexivity. Qed.

(** Clipping a finite value to finite bounds gives a finite value between
    the bounds. *)
Lemma clip_fin (q lo hi : Q) :
  lo <= hi ->
  exists q', clip (Fin q) (Fin lo) (Fin hi) = Fin q' /\ lo <= q' <= hi.
Proof.
  intros Hlohi. unfold clip. rewrite maximum_fin.
  destruct (flt (Fin q) (Fin lo)) eqn:Hlo; rewrite minimum_fin.
  - destruct (flt (Fin hi) (Fin lo)) eqn:Hhi.
    + apply flt_fin in Hhi. exfalso. exact (Qlt_not_le _ _ Hhi Hlohi).
    + exists lo. split; [reflexivity | split; [apply Qle_refl | exact Hlohi]].
  - apply flt_fin_false in Hlo.
    destruct (flt (Fin hi) (Fin q)) eqn:Hhi.
    + exists hi. split; [reflexivity | split; [exact Hlohi | apply Qle_refl]].
    + apply flt_fin_false in Hhi. exists q. split; [reflexivity | split; assumption].
Qed.

(** NaN passes through the clipping. *)
Lemma clip_nan (lo hi : npfloat) : clip NaN lo hi = NaN.
Proof. reflexivity. Qed.

Lemma fdiv_fin (a b : Q) : ~ b == 0 -> fdiv (Fin a) (Fin b) = Fin (a / b).
Proof.
  intros Hb. unfold fdiv. destruct (Qeq_bool b 0) eqn:E; [|reflexivity].
  apply Qeq_bool_iff in E. contradiction.
Qed.

(** ** Draws from the stream *)

Lemma draws_length {RS A} (c : Rand RS A) (n : nat) (s : RS) :
  length (fst (draws n c s)) = n.
Proof.
  revert s. induction n as [|n IH]; intros s; simpl; [reflexivity|].
  unfold rand_bind. destruct (c s) as [x s1].
  specialize (IH s1). destruct (draws n c s1) as [xs s2]. simpl in *.
  now rewrite IH.
Qed.

(** A property of every single draw holds of every entry of an array. *)
Lemma draws_Forall {RS A} (P : A -> Prop) (c : Rand RS A) :
  (forall s, P (fst (c s))) ->
  forall n s, Forall P (fst (draws n c s)).
Proof.
  intros Hc n. induction n as [|n IH]; intros s; simpl; [constructor|].
  unfold rand_bind. pose proof (Hc s) as Hx. destruct (c s) as [x s1].
  specialize (IH s1). destruct (draws n c s1) as [xs s2]. simpl in *.
  constructor; assumption.
Qed.

Lemma lookup_map {A B} (f : A -> B) (l : list A) (i : nat) :
  map f l !! i = option_map f (l !! i).
Proof.
  revert i. induction l as [|x l IH]; intros [|i]; simpl; try reflexivity. apply IH.
Qed.

(** ** The generator, record by record *)

Section GeneratorFacts.
Context {RS : Type} `{NumpyRandom RS}.

Ltac step_draws :=
  match goal with
  | |- context [draws ?n ?c ?s] =>
      let Hlen := fresh "Hlen" in
      pose proof (draws_length c n s) as Hlen;
      destruct (draws n c s) as [? ?]; cbn [fst snd] in Hlen
  end.

(** Every array of the dict [data] has [n] entries. *)
Lemma sample_features_lengths (n : nat) (s : RS) :
  let df := fst (Gen.sample_features n s) in
  length (Gen.business_type df) = n /\
  length (Gen.rating df) = n /\
  length (Gen.user_ratings_total df) = n /\
  length (Gen.deal_value df) = n /\
  length (Gen.priority df) = n /\
  length (Gen.time_in_pipeline df) = n /\
  length (Gen.documents_verified_count df) = n /\
  length (Gen.contacts_count df) = n.
Proof.
  unfold Gen.sample_features, rand_bind, rand_ret.
  repeat step_draws. cbn [fst Gen.business_type Gen.rating Gen.user_ratings_total
    Gen.deal_value Gen.priority Gen.time_in_pipeline Gen.documents_verified_count
    Gen.contacts_count].
  rewrite !length_map. repeat split; assumption.
Qed.

Lemma accumulate_effects_length (n : nat) (df : Gen.LeadData) :
  length (Gen.business_type df) = n ->
  length (Gen.rating df) = n ->
  length (Gen.user_ratings_total df) = n ->
  length (Gen.deal_value df) = n ->
  length (Gen.priority df) = n ->
  length (Gen.time_in_pipeline df) = n ->
  length (Gen.documents_verified_count df) = n ->
  length (Gen.accumulate_effects n df) = n.
Proof.
  intros. unfold Gen.accumulate_effects, Gen.iadd, Gen.isub.
  rewrite !length_zip_with, !length_map, length_replicate. lia.
Qed.

(** The accumulated value of record [i], from its own features and the
    two batch maxima. *)
Lemma accumulate_effects_lookup (n : nat) (df : Gen.LeadData) (i : nat)
    bt rt urt dv pr tip dvc :
  (i < n)%nat ->
  Gen.business_type df !! i = Some bt ->
  Gen.rating df !! i = Some rt ->
  Gen.user_ratings_total df !! i = Some urt ->
  Gen.deal_value df !! i = Some dv ->
  Gen.priority df !! i = Some pr ->
  Gen.time_in_pipeline df !! i = Some tip ->
  Gen.documents_verified_count df !! i = Some dvc ->
  Gen.accumulate_effects n df !! i =
    Some (Gen.spec_effects (series_max (Gen.deal_value df))
            (series_max_int (Gen.user_ratings_total df))
            bt rt urt dv pr tip dvc).
Proof.
  intros Hi Hbt Hrt Hurt Hdv Hpr Htip Hdvc.
  unfold Gen.accumulate_effects, Gen.iadd, Gen.isub.
  rewrite !lookup_zip_with, !lookup_map, lookup_replicate_2 by exact Hi.
  rewrite Hbt, Hrt, Hurt, Hdv, Hpr, Htip, Hdvc. reflexivity.
Qed.

End GeneratorFacts.

Section GeneratorRuns.
Context {RS : Type} `{NumpyRandom RS}.

(** What [run_generator] computes, array by array. *)
Lemma run_generator_spec (n : nat) (s : RS) :
  let r := fst (Gen.run_generator n s) in
  let df := fst (Gen.sample_features n s) in
  Gen.run_data r = df /\
  Gen.run_effects r = Gen.accumulate_effects n df /\
  Gen.run_noisy r =
    zip_with fadd (Gen.accumulate_effects n df) (map Fin (Gen.run_noise n s)) /\
  Gen.run_probability r = map Gen.clip_probability (Gen.run_noisy r) /\
  Gen.run_converted r =
    zip_with Gen.bernoulli_label (Gen.run_uniform r) (Gen.run_probability r) /\
  length (Gen.run_noise n s) = n /\
  length (Gen.run_uniform r) = n.
Proof.
  pose proof (sample_features_lengths n s) as Hlen.
  unfold Gen.run_generator, Gen.add_noise, Gen.run_noise, rand_bind, rand_ret.
  destruct (Gen.sample_features n s) as [df s1]. cbn [fst snd] in *.
  destruct Hlen as (H1 & H2 & H3 & H4 & H5 & H6 & H7 & _).
  rewrite (accumulate_effects_length n df H1 H2 H3 H4 H5 H6 H7).
  pose proof (draws_length (normal1 0 0.1) n s1) as Hnoise.
  destruct (draws n (normal1 0 0.1) s1) as [noise s2]. cbn [fst snd] in *.
  pose proof (draws_length rand1 n s2) as Hu.
  destruct (draws n rand1 s2) as [u s3]. cbn [fst snd] in *.
  repeat split; assumption.
Qed.

(** Record [i] of a run: its features, its noise and its uniform draw, and
    the values computed from them at each stage. *)
Lemma run_record (n : nat) (s : RS) (i : nat) :
  (i < n)%nat ->
  let r := fst (Gen.run_generator n s) in
  let df := Gen.run_data r in
  exists bt rt urt dv pr tip dvc noise u,
    Gen.business_type df !! i = Some bt /\
    Gen.rating df !! i = Some rt /\
    Gen.user_ratings_total df !! i = Some urt /\
    Gen.deal_value df !! i = Some dv /\
    Gen.priority df !! i = Some pr /\
    Gen.time_in_pipeline df !! i = Some tip /\
    Gen.documents_verified_count df !! i = Some dvc /\
    Gen.run_noise n s !! i = Some noise /\
    Gen.run_uniform r !! i = Some u /\
    let effects :=
      Gen.spec_effects (series_max (Gen.deal_value df))
        (series_max_int (Gen.user_ratings_total df)) bt rt urt dv pr tip dvc in
    Gen.run_effects r !! i = Some effects /\
    Gen.run_noisy r !! i = Some (fadd effects (Fin noise)) /\
    Gen.run_probability r !! i = Some (Gen.spec_conversion_probability effects noise) /\
    Gen.run_converted r !! i =
      Some (Gen.bernoulli_label u (Gen.spec_conversion_probability effects noise)).
Proof.
  intros Hi r df.
  destruct (run_generator_spec n s) as (Hdata & Heff & Hnoisy & Hprob & Hconv & Hln & Hlu).
  fold r in Hdata, Heff, Hnoisy, Hprob, Hconv, Hlu.
  destruct (sample_features_lengths n s) as (L1 & L2 & L3 & L4 & L5 & L6 & L7 & _).
  rewrite <- Hdata in L1, L2, L3, L4, L5, L6, L7, Heff, Hnoisy. fold df in L1, L2, L3, L4, L5, L6, L7, Heff, Hnoisy.
  assert (Hsome : forall A (l : list A), length l = n -> exists x, l !! i = Some x).
  { intros A l Hl. apply lookup_lt_is_Some_2. lia. }
  destruct (Hsome _ _ L1) as [bt Hbt]. destruct (Hsome _ _ L2) as [rt Hrt].
  destruct (Hsome _ _ L3) as [urt Hurt]. destruct (Hsome _ _ L4) as [dv Hdv].
  destruct (Hsome _ _ L5) as [pr Hpr]. destruct (Hsome _ _ L6) as [tip Htip].
  destruct (Hsome _ _ L7) as [dvc Hdvc]. destruct (Hsome _ _ Hln) as [noise Hno].
  destruct (Hsome _ _ Hlu) as [u Hu].
  exists bt, rt, urt, dv, pr, tip, dvc, noise, u.
  pose proof (accumulate_effects_lookup n df i bt rt urt dv pr tip dvc
                Hi Hbt Hrt Hurt Hdv Hpr Htip Hdvc) as Hacc.
  assert (Hn : Gen.run_noisy r !! i =
               Some (fadd (Gen.spec_effects (series_max (Gen.deal_value df))
                             (series_max_int (Gen.user_ratings_total df))
                             bt rt urt dv pr tip dvc) (Fin noise))).
  { rewrite Hnoisy, lookup_zip_with, lookup_map, Hacc, Hno. reflexivity. }
  assert (Hp : Gen.run_probability r !! i =
               Some (Gen.spec_conversion_probability
                       (Gen.spec_effects (series_max (Gen.deal_value df))
                          (series_max_int (Gen.user_ratings_total df))
                          bt rt urt dv pr tip dvc) noise)).
  { rewrite Hprob, lookup_map, Hn. reflexivity. }
  repeat split; try assumption.
  - rewrite Heff. exact Hacc.
  - rewrite Hconv, lookup_zip_with, Hu, Hp. reflexivity.
Qed.

End GeneratorRuns.



(** ** Finite values *)

Lemma fadd_is_fin (x y : npfloat) : is_fin x -> is_fin y -> is_fin (fadd x y).
Proof. intros [a ->] [b ->]. eexists. reflexivity. Qed.

Lemma fsub_is_fin (x y : npfloat) : is_fin x -> is_fin y -> is_fin (fsub x y).
Proof. intros [a ->] [b ->]. eexists. reflexivity. Qed.

Lemma fmul_is_fin (x y : npfloat) : is_fin x -> is_fin y -> is_fin (fmul x y).
Proof. intros [a ->] [b ->]. eexists. reflexivity. Qed.

Lemma fdiv_is_fin (a b : Q) : ~ b == 0 -> is_fin (fdiv (Fin a) (Fin b)).
Proof. intros Hb. rewrite fdiv_fin by exact Hb. eexists. reflexivity. Qed.

Lemma fabs_is_fin (x : npfloat) : is_fin x -> is_fin (fabs x).
Proof. intros [a ->]. eexists. reflexivity. Qed.

Lemma inject_Z_nonzero (z : Z) : z <> 0%Z -> ~ inject_Z z == 0.
Proof.
  intros Hz Heq. apply Hz. unfold Qeq, inject_Z in Heq. simpl in Heq. lia.
Qed.

Lemma time_penalty_is_fin (t : Z) : is_fin (Gen.time_penalty t).
Proof.
  unfold Gen.time_penalty, of_int.
  apply fmul_is_fin; [|eexists; reflexivity].
  apply fabs_is_fin, fdiv_is_fin, inject_Z_nonzero. discriminate.
Qed.

Lemma priority_effect_is_fin (pr : string) :
  In pr Gen.PRIORITY_LEVELS -> is_fin (Gen.priority_effect pr).
Proof.
  intros [<- | [<- | [<- | []]]]; eexists; vm_compute; reflexivity.
Qed.

Lemma business_type_bonus_is_fin (bt : string) (p : npfloat) :
  is_fin p -> is_fin (Gen.business_type_bonus bt p).
Proof.
  intros Hp. unfold Gen.business_type_bonus.
  destruct (String.eqb bt "Restaurant"); [|exact Hp].
  apply fadd_is_fin; [exact Hp | eexists; reflexivity].
Qed.

(** The accumulated value of a record is finite as soon as the two batch
    maxima are finite and not zero and the priority is a key of the map. *)
Lemma spec_effects_is_fin (m k : Q) bt rt urt dv pr tip dvc :
  ~ m == 0 -> ~ k == 0 -> In pr Gen.PRIORITY_LEVELS ->
  is_fin (Gen.spec_effects (Fin m) (Fin k) bt rt urt dv pr tip dvc).
Proof.
  intros Hm Hk Hpr. unfold Gen.spec_effects.
  apply fsub_is_fin; [|apply time_penalty_is_fin].
  apply business_type_bonus_is_fin.
  repeat apply fadd_is_fin.
  - eexists; reflexivity.
  - unfold Gen.deal_value_effect. apply fmul_is_fin; [|eexists; reflexivity].
    apply fdiv_is_fin; exact Hm.
  - unfold Gen.rating_effect. apply fmul_is_fin; [|eexists; reflexivity].
    apply fdiv_is_fin. intros Heq. discriminate Heq.
  - unfold Gen.review_count_effect, of_int. apply fmul_is_fin; [|eexists; reflexivity].
    apply fdiv_is_fin; exact Hk.
  - unfold Gen.document_effect, of_int. apply fmul_is_fin; [|eexists; reflexivity].
    apply fdiv_is_fin. intros Heq. discriminate Heq.
  - apply priority_effect_is_fin; exact Hpr.
Qed.

Lemma fold_left_Zmax_ge (l : list Z) (x : Z) : (x <= fold_left Z.max l x)%Z.
Proof.
  revert x. induction l as [|y l IH]; intros x; simpl; [lia|].
  specialize (IH (Z.max x y)). lia.
Qed.

(** The maximum of a column of integers that are all at least [lo]. *)
Lemma series_max_int_ge (l : list Z) (lo : Z) :
  l <> [] -> Forall (fun z => (lo <= z)%Z) l ->
  exists k, series_max_int l = of_int k /\ (lo <= k)%Z.
Proof.
  intros Hne Hall. destruct l as [|x t]; [contradiction|].
  exists (fold_left Z.max t x). split; [reflexivity|].
  apply Forall_inv in Hall. pose proof (fold_left_Zmax_ge t x). lia.
Qed.

(** ** The supports of the sampled features *)

Section Supports.
Context {RS : Type} `{NumpyRandom RS} {HS : NumpyRandomSpec RS}.

Lemma choice_draws_elem (options : list string) (weights : list Q) (n : nat) (s : RS) :
  options <> [] ->
  Forall (fun c => In c options) (fst (draws n (choice1 options weights) s)).
Proof.
  intros Hne. apply draws_Forall. intros s'. apply choice1_elem. exact Hne.
Qed.

Lemma randint_draws_range (low high : Z) (n : nat) (s : RS) :
  (low < high)%Z ->
  Forall (fun z => (low <= z < high)%Z) (fst (draws n (randint1 low high) s)).
Proof.
  intros Hlt. apply draws_Forall. intros s'. apply randint1_range. exact Hlt.
Qed.

(** The sampled features lie in the supports of their distributions. *)
Lemma sample_features_support (n : nat) (s : RS) :
  let df := fst (Gen.sample_features n s) in
  Forall (fun b => In b Gen.BUSINESS_TYPES) (Gen.business_type df) /\
  Forall (fun z => (10 <= z < 1000)%Z) (Gen.user_ratings_total df) /\
  Forall (fun p => In p Gen.PRIORITY_LEVELS) (Gen.priority df) /\
  Forall (fun z => (1 <= z < 90)%Z) (Gen.time_in_pipeline df) /\
  Forall (fun z => (0 <= z < 7)%Z) (Gen.documents_verified_count df) /\
  Forall (fun z => (1 <= z < 5)%Z) (Gen.contacts_count df).
Proof.
  unfold Gen.sample_features, rand_bind, rand_ret.
  pose proof (choice_draws_elem Gen.BUSINESS_TYPES [0.5; 0.3; 0.2] n s) as H1.
  destruct (draws n (choice1 Gen.BUSINESS_TYPES [0.5; 0.3; 0.2]) s) as [bt s1].
  destruct (draws n (uniform1 3.0 5.0) s1) as [rt s2].
  pose proof (randint_draws_range 10 1000 n s2) as H3.
  destruct (draws n (randint1 10 1000) s2) as [urt s3].
  destruct (draws n (lognormal1 8.5 0.8) s3) as [dv s4].
  pose proof (choice_draws_elem Gen.PRIORITY_LEVELS [0.3; 0.5; 0.2] n s4) as H5.
  destruct (draws n (choice1 Gen.PRIORITY_LEVELS [0.3; 0.5; 0.2]) s4) as [pr s5].
  pose proof (randint_draws_range 1 90 n s5) as H6.
  destruct (draws n (randint1 1 90) s5) as [tip s6].
  pose proof (randint_draws_range 0 7 n s6) as H7.
  destruct (draws n (randint1 0 7) s6) as [dvc s7].
  pose proof (randint_draws_range 1 5 n s7) as H8.
  destruct (draws n (randint1 1 5) s7) as [cc s8].
  cbn [fst snd Gen.business_type Gen.user_ratings_total Gen.priority
       Gen.time_in_pipeline Gen.documents_verified_count Gen.contacts_count] in *.
  repeat split;
    first [ apply H1; discriminate | apply H3; lia | apply H5; discriminate
          | apply H6; lia | apply H7; lia | apply H8; lia ].
Qed.

End Supports.

(** C1. The conversion probability of every generated record, after the
    clipping and before the label is drawn, is a number between 0.01 and
    0.99.  The features are in the supports of their samplers and the
    largest deal value of the batch is positive. *)
Theorem C1_clipped_probability_in_range
    {RS : Type} `{NumpyRandom RS} (HS : NumpyRandomSpec RS)
    (n : nat) (s : RS) (i : nat) (p : npfloat) :
  let r := fst (Gen.run_generator n s) in
  (exists m, series_max (Gen.deal_value (Gen.run_data r)) = Fin m /\ 0 < m) ->
  Gen.run_probability r !! i = Some p ->
  exists q, p = Fin q /\ 0.01 <= q <= 0.99.
Proof.
  intros r [m [Hm Hpos]] Hp.
  assert (Hi : (i < n)%nat).
  { destruct (run_generator_spec n s) as (_ & _ & Hnoisy & Hprob & _ & Hln & _).
    fold r in Hnoisy, Hprob. apply lookup_lt_Some in Hp.
    rewrite Hprob, length_map, Hnoisy, length_zip_with, length_map, Hln in Hp. lia. }
  destruct (run_record n s i Hi)
    as (bt & rt & urt & dv & pr & tip & dvc & noise & u & Hbt & Hrt & Hurt & Hdv
        & Hpr & Htip & Hdvc & Hno & Hu & Heff & Hnoisy & Hprob & Hconv).
  fold r in Hbt, Hrt, Hurt, Hdv, Hpr, Htip, Hdvc, Hprob. cbv zeta in Hprob.
  rewrite Hprob in Hp. injection Hp as <-.
  destruct (run_generator_spec n s) as (Hdata & _). fold r in Hdata.
  destruct (sample_features_support n s) as (_ & Hrev & Hprio & _).
  rewrite <- Hdata in Hrev, Hprio.
  destruct (series_max_int_ge (Gen.user_ratings_total (Gen.run_data r)) 10)
    as [k [Hk Hk10]].
  { intros Hnil. rewrite Hnil in Hurt. discriminate. }
  { eapply Forall_impl; [exact Hrev|]. intros z Hz. simpl in Hz. lia. }
  rewrite Hm, Hk. unfold of_int.
  destruct (spec_effects_is_fin m (inject_Z k) bt rt urt dv pr tip dvc) as [e He].
  { intros Heq. rewrite Heq in Hpos. exact (Qlt_irrefl _ Hpos). }
  { apply inject_Z_nonzero. lia. }
  { rewrite Forall_forall in Hprio. apply Hprio.
    apply list_elem_of_lookup. exists i. exact Hpr. }
  rewrite He. unfold Gen.spec_conversion_probability.
  change (fadd (Fin e) (Fin noise)) with (Fin (e + noise)).
  apply clip_fin. discriminate.
Qed.

(** ** The small generator satisfies the interface *)

Lemma pick_elem (options : list string) (weights : list Q) (u : Q) (last : string) :
  In (Lcg.pick options weights u last) options \/
  (options = [] /\ Lcg.pick options weights u last = last).
Proof.
  revert weights u last. induction options as [|o os IH]; intros weights u last.
  - right. split; reflexivity.
  - left. destruct weights as [|w ws]; simpl; [left; reflexivity|].
    destruct (Qcompare u w); try (left; reflexivity);
      (destruct (IH ws (u - w) o) as [Hin | [-> Heq]];
       [right; exact Hin | left; simpl; reflexivity]).
Qed.

Lemma lcg_spec : NumpyRandomSpec (H := Lcg.lcg_random) Z.
Proof.
  split.
  - intros options weights s Hne. simpl.
    destruct (pick_elem options weights (Lcg.unit_of (Lcg.next s)) EmptyString)
      as [Hin | [Hnil _]]; [exact Hin | contradiction].
  - intros low high s Hlt. simpl.
    pose proof (Z.mod_pos_bound (Lcg.next s) (high - low)). lia.
Qed.

Lemma C1_witness :
  exists p q,
    Gen.run_probability Demo.run3 !! 0%nat = Some p /\ p = Fin q /\ 0.01 <= q <= 0.99.
Proof.
  assert (Hmax : exists m,
             series_max (Gen.deal_value (Gen.run_data Demo.run3)) = Fin m /\ 0 < m).
  { eexists. split; [vm_compute; reflexivity | reflexivity]. }
  destruct (Gen.run_probability Demo.run3 !! 0%nat) as [p|] eqn:E;
    [|vm_compute in E; discriminate].
  destruct (C1_clipped_probability_in_range lcg_spec 3 42%Z 0 p Hmax E) as [q Hq].
  exists p, q. split; [reflexivity | exact Hq].
Defined.



(** ** The pipeline-time penalty *)

Lemma time_penalty_value (t : Z) :
  Gen.time_penalty t = Fin (Qabs (inject_Z (t - 45) / inject_Z 45) * 0.05).
Proof. reflexivity. Qed.

(** C8. The pipeline-time term is subtracted from the accumulated value of
    every record; its size is 0.05 times the absolute deviation of
    [time_in_pipeline] from 45, divided by 45; it is the same at equal
    deviations on both sides of 45, and it is not monotonic: it is zero at
    45 and positive at 1 and at 89. *)
Theorem C8_time_penalty_symmetric_non_monotonic :
  (forall {RS : Type} `{NumpyRandom RS} (n : nat) (s : RS) (i : nat),
      (i < n)%nat ->
      let r := fst (Gen.run_generator n s) in
      exists tip before q,
        Gen.time_in_pipeline (Gen.run_data r) !! i = Some tip /\
        Gen.time_penalty tip = Fin q /\
        Gen.run_effects r !! i = Some (fsub before (Fin q))) /\
  (forall t, exists q,
      Gen.time_penalty t = Fin q /\
      q == 0.05 * (Qabs (inject_Z t - 45) / 45) /\
      0 <= q) /\
  (forall d, Gen.time_penalty (45 + d) = Gen.time_penalty (45 - d)) /\
  flt (Gen.time_penalty 45) (Gen.time_penalty 1) = true /\
  flt (Gen.time_penalty 45) (Gen.time_penalty 89) = true /\
  (exists q, Gen.time_penalty 45 = Fin q /\ q == 0).
Proof.
  split; [|split; [|split; [|split; [|split]]]].
  - intros RS HR n s i Hi r.
    destruct (run_record n s i Hi)
      as (bt & rt & urt & dv & pr & tip & dvc & noise & u & _ & _ & _ & _
          & _ & Htip & _ & _ & _ & Heff & _).
    fold r in Htip, Heff. cbv zeta in Heff.
    destruct (time_penalty_is_fin tip) as [q Hq].
    exists tip. eexists. exists q. split; [exact Htip|]. split; [exact Hq|].
    rewrite Heff. unfold Gen.spec_effects. rewrite Hq. reflexivity.
  - intros t. eexists. split; [apply time_penalty_value|]. split.
    + unfold Qdiv. rewrite Qabs_Qmult.
      assert (Heq : inject_Z (t - 45) == inject_Z t - 45).
      { unfold Zminus. rewrite inject_Z_plus, inject_Z_opp. reflexivity. }
      rewrite Heq.
      change (Qabs (/ inject_Z 45)) with (/ 45).
      ring.
    + apply Qmult_le_0_compat; [apply Qabs_nonneg | discriminate].
  - intros d. rewrite !time_penalty_value. do 2 f_equal.
    unfold Qabs, Qdiv, Qmult, Qinv, inject_Z. simpl. f_equal. lia.
  - reflexivity.
  - reflexivity.
  - eexists. split; reflexivity.
Qed.

Lemma C8_witness :
  (0 < 3)%nat /\
  exists tip before q,
    Gen.time_in_pipeline (Gen.run_data Demo.run3) !! 0%nat = Some tip /\
    Gen.time_penalty tip = Fin q /\
    Gen.run_effects Demo.run3 !! 0%nat = Some (fsub before (Fin q)).
Proof.
  split; [lia|].
  exact (proj1 C8_time_penalty_symmetric_non_monotonic Z Lcg.lcg_random
           3%nat 42%Z 0%nat ltac:(lia)).
Defined.

(** ** Reproducibility of the generator *)

Section Reproducibility.
Context {RS : Type} `{NumpyRandom RS}.

Lemma draws_head {A} (c : Rand RS A) (n : nat) (s : RS) :
  fst (draws (S n) c s) !! 0%nat = Some (fst (c s)).
Proof.
  simpl. unfold rand_bind. destruct (c s) as [x s1].
  destruct (draws n c s1) as [xs s2]. reflexivity.
Qed.

Lemma sample_features_business_type (n : nat) (s : RS) :
  Gen.business_type (fst (Gen.sample_features n s)) =
  fst (draws n (choice1 Gen.BUSINESS_TYPES [0.5; 0.3; 0.2]) s).
Proof.
  unfold Gen.sample_features, rand_bind, rand_ret.
  repeat match goal with
         | |- context [draws ?k ?c ?t] => destruct (draws k c t) as [? ?]
         end.
  reflexivity.
Qed.

(** The dataset file after a run, and the first cell of its first column:
    the first draw from the stream the process started with. *)
Lemma generate_n_output (n : nat) (w : Gen.World) :
  Gen.files (Gen.generate_n n w) !! Gen.OUTPUT_FILE =
  Some (CsvTable (Gen.run_frame (fst (Gen.run_generator n (Gen.np_random w))))).
Proof.
  unfold Gen.generate_n. destruct (Gen.run_generator n (Gen.np_random w)) as [r s].
  cbn [Gen.files fst]. apply lookup_insert_eq.
Qed.

Lemma generate_n_first_business_type (n : nat) (w : Gen.World) :
  first_business_type (Gen.files (Gen.generate_n (S n) w) !! Gen.OUTPUT_FILE) =
  Some (fst (choice1 Gen.BUSINESS_TYPES [0.5; 0.3; 0.2] (Gen.np_random w))).
Proof.
  rewrite generate_n_output. unfold Gen.run_frame, Gen.to_frame.
  destruct (run_generator_spec (S n) (Gen.np_random w)) as (Hdata & _).
  cbv zeta in Hdata. rewrite Hdata, sample_features_business_type.
  pose proof (draws_head (choice1 Gen.BUSINESS_TYPES [0.5; 0.3; 0.2]) n (Gen.np_random w))
    as Hhead.
  destruct (fst (draws (S n) (choice1 Gen.BUSINESS_TYPES [0.5; 0.3; 0.2]) (Gen.np_random w)))
    as [|b bs]; [discriminate|].
  simpl in Hhead. injection Hhead as ->. reflexivity.
Qed.

Lemma generate_synthetic_data_is_generate_n (w : Gen.World) :
  Gen.generate_synthetic_data w = Gen.generate_n Gen.NUM_LEADS w.
Proof. reflexivity. Qed.

End Reproducibility.

(** C4, as stated, fails: the program does not seed the stream.  Two runs of
    [generate_synthetic_data] in the same directory, started with the stream
    in two different states, write different datasets. *)
Lemma C4_counterexample :
  Gen.files Demo.world42 = Gen.files Demo.world2 /\
  Gen.files (Gen.generate_synthetic_data (H := Lcg.lcg_random) Demo.world42)
    !! Gen.OUTPUT_FILE <>
  Gen.files (Gen.generate_synthetic_data (H := Lcg.lcg_random) Demo.world2)
    !! Gen.OUTPUT_FILE.
Proof.
  split; [reflexivity|]. intros Heq.
  apply (f_equal first_business_type) in Heq.
  rewrite !generate_synthetic_data_is_generate_n in Heq.
  change Gen.NUM_LEADS with (S (Nat.pred Gen.NUM_LEADS)) in Heq.
  rewrite !generate_n_first_business_type in Heq.
  vm_compute in Heq. discriminate Heq.
Qed.

(** C4, amended.  The dataset a run writes is determined by the state of the
    random stream at the start of the run and by the lead count: two runs
    that start from the same state write the same dataset and leave the
    stream in the same state, whatever the directory held before.  The
    program sets no seed of its own. *)
Theorem C4_dataset_determined_by_stream_state
    {RS : Type} `{NumpyRandom RS} (n : nat) (w1 w2 : Gen.World) :
  Gen.np_random w1 = Gen.np_random w2 ->
  Gen.files (Gen.generate_n n w1) !! Gen.OUTPUT_FILE =
    Gen.files (Gen.generate_n n w2) !! Gen.OUTPUT_FILE /\
  Gen.np_random (Gen.generate_n n w1) = Gen.np_random (Gen.generate_n n w2) /\
  Gen.files (Gen.generate_n n w1) !! Gen.OUTPUT_FILE =
    Some (CsvTable (Gen.run_frame (fst (Gen.run_generator n (Gen.np_random w1))))) /\
  (n = Gen.NUM_LEADS ->
   Gen.files (Gen.generate_synthetic_data w1) !! Gen.OUTPUT_FILE =
     Gen.files (Gen.generate_synthetic_data w2) !! Gen.OUTPUT_FILE).
Proof.
  intros Hs. rewrite !generate_n_output, Hs.
  split; [reflexivity|]. split; [|split; [reflexivity|]].
  - unfold Gen.generate_n. rewrite Hs.
    destruct (Gen.run_generator n (Gen.np_random w2)) as [r s]. reflexivity.
  - intros _. rewrite !generate_synthetic_data_is_generate_n, !generate_n_output, Hs.
    reflexivity.
Qed.

Lemma C4_witness :
  Gen.np_random Demo.world42 = Gen.np_random Demo.world42_stale /\
  Gen.files (Gen.generate_n (H := Lcg.lcg_random) 3 Demo.world42) !! Gen.OUTPUT_FILE =
    Gen.files (Gen.generate_n (H := Lcg.lcg_random) 3 Demo.world42_stale)
      !! Gen.OUTPUT_FILE.
Proof.
  split; [reflexivity|].
  exact (proj1 (C4_dataset_determined_by_stream_state (H := Lcg.lcg_random) 3
                  Demo.world42 Demo.world42_stale eq_refl)).
Defined.

(** ** Loading the dataset *)

(** C5. [load_dataset] raises the missing-input error, whose message tells
    the caller to run the generator script first, exactly when nothing
    exists at the dataset path.  When a file exists, [load_dataset] raises
    nothing of its own: it returns what the CSV reader returns, which for a
    CSV table is that table. *)
Theorem C5_load_dataset_missing_input (fs : gmap string FileNode) (path : string) :
  (Trainer.load_dataset fs path
     = Raise (FileNotFoundError Trainer.MISSING_DATASET_MESSAGE)
   <-> fs !! path = None) /\
  (forall msg, Trainer.load_dataset fs path = Raise (FileNotFoundError msg)
               <-> (fs !! path = None /\ msg = Trainer.MISSING_DATASET_MESSAGE)) /\
  (forall table, fs !! path = Some (CsvTable table) ->
                 Trainer.load_dataset fs path = Ok table) /\
  (is_Some (fs !! path) -> Trainer.load_dataset fs path = Pd.read_csv fs path) /\
  String.index 0 "Please run 01_generate_dataset.py before training"
    Trainer.MISSING_DATASET_MESSAGE = Some 19%nat.
Proof.
  unfold Trainer.load_dataset, Pd.path_exists, Pd.read_csv.
  split; [|split; [|split; [|split]]].
  - destruct (fs !! path) as [[t | c |]|]; simpl; split; congruence.
  - intros msg. destruct (fs !! path) as [[t | c |]|]; simpl; split;
      try congruence; try (intros [? ?]; congruence).
    intros Hr. split; [reflexivity | congruence].
  - intros table ->. reflexivity.
  - intros [node ->]. reflexivity.
  - reflexivity.
Qed.

Lemma C5_witness :
  exists table,
    Demo.fs20 !! Trainer.DATA_PATH = Some (CsvTable table) /\
    Trainer.load_dataset Demo.fs20 Trainer.DATA_PATH = Ok table.
Proof.
  assert (Hfile : exists table, Demo.fs20 !! Trainer.DATA_PATH = Some (CsvTable table)).
  { eexists. unfold Demo.fs20. apply (generate_n_output (H := Lcg.lcg_random)). }
  destruct Hfile as [table Htable]. exists table. split; [exact Htable|].
  exact (proj1 (proj2 (proj2 (C5_load_dataset_missing_input Demo.fs20 Trainer.DATA_PATH)))
           table Htable).
Defined.

(** ** Metrics *)

Lemma ratio_or_zero (zd : npfloat) (num : Z) : Sk.ratio_or zd num 0 = zd.
Proof. reflexivity. Qed.

Lemma scores_where_none (f : Z -> bool) (y_true : list Z) (y_score : list npfloat) :
  Forall (fun t => f t = false) y_true -> Sk.scores_where f y_true y_score = [].
Proof.
  intros Hall. revert y_score. induction Hall as [|t ts Ht _ IH]; intros y_score.
  - reflexivity.
  - destruct y_score as [|s ss]; simpl; [reflexivity|]. rewrite Ht. apply IH.
Qed.

(** With a single class among the true labels the ROC-AUC is not computed:
    the call raises or returns NaN, as the installed release does. *)
Lemma roc_auc_score_single_class (installed : Sk.SingleClassAuc)
    (y_true : list Z) (y_score : list npfloat) :
  Forall (fun t => t <> 1%Z) y_true \/ Forall (fun t => t = 1%Z) y_true ->
  Sk.roc_auc_score installed y_true y_score =
    match installed with
    | Sk.RaisesValueError => Raise (ValueError Sk.SINGLE_CLASS_MESSAGE)
    | Sk.ReturnsNaN => Ok NaN
    end.
Proof.
  intros [Hneg | Hpos]; unfold Sk.roc_auc_score.
  - rewrite (scores_where_none (fun t => (t =? 1)%Z)).
    + reflexivity.
    + eapply Forall_impl; [exact Hneg|]. intros t Ht. simpl. apply Z.eqb_neq. exact Ht.
  - rewrite (scores_where_none (fun t => negb (t =? 1)%Z)).
    + destruct (Sk.scores_where _ y_true y_score); reflexivity.
    + eapply Forall_impl; [exact Hpos|]. intros t Ht. simpl in *. subst t. reflexivity.
Qed.

Lemma count_pairs_no_positive_prediction (f : Z -> bool) (y_true y_pred : list Z) :
  Forall (fun p => p <> 1%Z) y_pred ->
  Sk.count_pairs (fun t p => f t && (p =? 1)%Z) y_true y_pred = 0%Z.
Proof.
  intros Hall. revert y_true. induction Hall as [|p ps Hp _ IH]; intros y_true.
  - destruct y_true; reflexivity.
  - destruct y_true as [|t ts]; simpl; [reflexivity|].
    apply Z.eqb_neq in Hp. rewrite Hp, Bool.andb_false_r, IH. reflexivity.
Qed.

(** What [score] returns when it returns. *)
Lemma score_ok (installed : Sk.SingleClassAuc)
    (y_test y_pred : list Z) (proba : list (list npfloat))
    (m : Trainer.Metrics) (y_prob : list npfloat) :
  Trainer.score installed y_test y_pred proba = Ok (m, y_prob) ->
  Trainer.second_column proba = Ok y_prob /\
  Trainer.accuracy m = Sk.accuracy_score y_test y_pred /\
  Trainer.precision m = Sk.precision_score (Fin 0) y_test y_pred /\
  Trainer.recall m = Sk.recall_score (Fin 0) y_test y_pred /\
  Trainer.f1_score m = Sk.f1_score (Fin 0) y_test y_pred /\
  Sk.roc_auc_score installed y_test y_prob = Ok (Trainer.roc_auc m).
Proof.
  unfold Trainer.score, result_bind. intros Hs.
  destruct (Trainer.second_column proba) as [yp|e]; [|discriminate].
  destruct (Sk.roc_auc_score installed y_test yp) as [auc|e] eqn:Hauc; [|discriminate].
  injection Hs as <- <-. repeat split; try reflexivity. exact Hauc.
Qed.

(** C6, as stated, fails for ROC-AUC: on a test partition with a single
    class the evaluation of a fitted model raises instead of reporting a
    ROC-AUC of zero. *)
Lemma C6_counterexample :
  exists m,
    Demo.dummy_fitted = Ok m /\
    Trainer.evaluate_model (H := Toy.toy_learners) m "Dummy Classifier"
      Demo.X_test Demo.y_test_single_class
    = Raise (ValueError Sk.SINGLE_CLASS_MESSAGE) /\
    ~ (exists res,
          Trainer.evaluate_model (H := Toy.toy_learners) m "Dummy Classifier"
            Demo.X_test Demo.y_test_single_class = Ok res /\
          Trainer.roc_auc (fst res) = Fin 0).
Proof.
  eexists. split; [vm_compute; reflexivity|].
  assert (He : forall m,
             Trainer.evaluate_model (H := Toy.toy_learners) m "Dummy Classifier"
               Demo.X_test Demo.y_test_single_class
             = Raise (ValueError Sk.SINGLE_CLASS_MESSAGE) ->
             ~ (exists res,
                   Trainer.evaluate_model (H := Toy.toy_learners) m "Dummy Classifier"
                     Demo.X_test Demo.y_test_single_class = Ok res /\
                   Trainer.roc_auc (fst res) = Fin 0)).
  { intros m Hm [res [Hres _]]. rewrite Hm in Hres. discriminate. }
  split; [vm_compute; reflexivity | apply He; vm_compute; reflexivity].
Qed.

(** C6, amended.  Precision, recall and F1 are computed with
    [zero_division=0]: each of them is zero when its own denominator is
    zero, as the precision is when no record is predicted positive.  The
    accuracy and the ROC-AUC have no such default: on a test partition with a
    single class the ROC-AUC is never reported as zero; [evaluate_model]
    raises, or reports NaN where the installed scikit-learn returns NaN. *)
Theorem C6_zero_division_covers_precision_recall_f1 :
  (forall y_true y_pred,
      (Sk.true_positives y_true y_pred + Sk.false_positives y_true y_pred = 0)%Z ->
      Sk.precision_score (Fin 0) y_true y_pred = Fin 0) /\
  (forall y_true y_pred,
      (Sk.true_positives y_true y_pred + Sk.false_negatives y_true y_pred = 0)%Z ->
      Sk.recall_score (Fin 0) y_true y_pred = Fin 0) /\
  (forall y_true y_pred,
      (2 * Sk.true_positives y_true y_pred + Sk.false_positives y_true y_pred
       + Sk.false_negatives y_true y_pred = 0)%Z ->
      Sk.f1_score (Fin 0) y_true y_pred = Fin 0) /\
  (forall installed y_test y_pred proba m y_prob,
      Trainer.score installed y_test y_pred proba = Ok (m, y_prob) ->
      Forall (fun p => p <> 1%Z) y_pred ->
      Trainer.precision m = Fin 0) /\
  (forall installed y_test y_pred proba m y_prob,
      Trainer.score installed y_test y_pred proba = Ok (m, y_prob) ->
      Trainer.precision m = Sk.precision_score (Fin 0) y_test y_pred /\
      Trainer.recall m = Sk.recall_score (Fin 0) y_test y_pred /\
      Trainer.f1_score m = Sk.f1_score (Fin 0) y_test y_pred /\
      Trainer.accuracy m = Sk.accuracy_score y_test y_pred /\
      Sk.roc_auc_score installed y_test y_prob = Ok (Trainer.roc_auc m)) /\
  (forall {Clf : Type} `{Sk.Learners Clf} (models : Trainer.Models) name X_test y_test,
      Forall (fun t => t <> 1%Z) y_test \/ Forall (fun t => t = 1%Z) y_test ->
      forall res,
        Trainer.evaluate_model models name X_test y_test = Ok res ->
        Sk.single_class_auc = Sk.ReturnsNaN /\ Trainer.roc_auc (fst res) = NaN).
Proof.
  split; [|split; [|split; [|split; [|split]]]].
  - intros y_true y_pred Hz. unfold Sk.precision_score. cbv zeta. rewrite Hz.
    apply ratio_or_zero.
  - intros y_true y_pred Hz. unfold Sk.recall_score. cbv zeta. rewrite Hz.
    apply ratio_or_zero.
  - intros y_true y_pred Hz. unfold Sk.f1_score. cbv zeta. rewrite Hz.
    apply ratio_or_zero.
  - intros installed y_test y_pred proba m y_prob Hs Hnone.
    apply score_ok in Hs. destruct Hs as (_ & _ & -> & _).
    unfold Sk.precision_score, Sk.true_positives, Sk.false_positives. cbv zeta.
    rewrite !count_pairs_no_positive_prediction by exact Hnone. reflexivity.
  - intros installed y_test y_pred proba m y_prob Hs.
    apply score_ok in Hs. destruct Hs as (_ & Ha & Hp & Hr & Hf & Hauc).
    repeat split; assumption.
  - intros Clf HL models name X_test y_test Hsingle res.
    unfold Trainer.evaluate_model, result_bind.
    destruct (Trainer.pipeline_predict models name X_test) as [y_pred|e]; [|discriminate].
    destruct (Trainer.pipeline_predict_proba models name X_test) as [proba|e];
      [|discriminate].
    unfold Trainer.score, result_bind.
    destruct (Trainer.second_column proba) as [y_prob|e]; [|discriminate].
    rewrite (roc_auc_score_single_class _ y_test y_prob Hsingle).
    destruct Sk.single_class_auc; [discriminate|].
    intros [= <-]. split; reflexivity.
Qed.

Lemma C6_witness :
  exists m y_prob,
    Trainer.score Sk.RaisesValueError Demo.y_test [0; 0]%Z
      [[Fin 0.5; Fin 0.5]; [Fin 0.5; Fin 0.5]]
      = Ok (m, y_prob) /\
    Forall (fun p => p <> 1%Z) [0; 0]%Z /\
    Trainer.precision m = Fin 0.
Proof.
  assert (Hnone : Forall (fun p => p <> 1%Z) [0; 0]%Z).
  { repeat constructor; discriminate. }
  destruct (Trainer.score Sk.RaisesValueError Demo.y_test [0; 0]%Z
              [[Fin 0.5; Fin 0.5]; [Fin 0.5; Fin 0.5]])
    as [[m y_prob]|e] eqn:E; [|vm_compute in E; discriminate].
  exists m, y_prob. split; [reflexivity|]. split; [exact Hnone|].
  exact (proj1 (proj2 (proj2 (proj2 C6_zero_division_covers_precision_recall_f1)))
           Sk.RaisesValueError Demo.y_test [0; 0]%Z _ m y_prob E Hnone).
Defined.

(** ** The preprocessing transform *)

Lemma result_bind_ok {A B} (a : A) (k : A -> Result B) :
  result_bind (Ok a) k = k a.
Proof. reflexivity. Qed.


Lemma result_map_length {A B} (f : A -> Result B) (l : list A) (ys : list B) :
  result_map f l = Ok ys -> length ys = length l.
Proof.
  revert ys. induction l as [|x l IH]; intros ys; simpl.
  - intros [= <-]. reflexivity.
  - unfold result_bind. destruct (f x) as [y|e]; [|discriminate].
    destruct (result_map f l) as [zs|e]; [|discriminate].
    intros [= <-]. simpl. now rewrite (IH zs eq_refl).
Qed.

Lemma Forall_zip_fst {A B} (P : A -> Prop) (l : list A) (k : list B) :
  Forall P l -> Forall (fun p => P (fst p)) (zip l k).
Proof.
  intros Hl. revert k. induction Hl as [|x l Hx _ IH]; intros [|y k]; simpl;
    constructor; [exact Hx | apply IH].
Qed.

(** The indicator of a category is zero at a value that differs from it. *)
Lemma indicator_lookup (c : string) (values : list string) (i : nat) (v : string) :
  values !! i = Some v ->
  Sk.indicator c values !! i = Some (if String.eqb v c then Fin 1 else Fin 0).
Proof.
  intros Hv. unfold Sk.indicator. rewrite lookup_map, Hv. reflexivity.
Qed.


Section TransformFacts.
Context {Clf : Type} `{Sk.Learners Clf}.

(** What a successful [fit] leaves in the transformer. *)
Lemma fit_inv (ct ct' : Sk.ColumnTransformer) (X : DataFrame) :
  Sk.fit ct X = Ok ct' ->
  Sk.numeric ct' = Sk.numeric ct /\
  Sk.categorical ct' = Sk.categorical ct /\
  Sk.encoder ct' = Sk.encoder ct /\
  exists f,
    Sk.fitted_ ct' = Some f /\
    length (Sk.mean_ f) = length (Sk.numeric ct) /\
    length (Sk.scale_ f) = length (Sk.numeric ct) /\
    result_map (fun name =>
                  let? c := Pd.get_column X name in
                  let? vs := Pd.category_values c in
                  Ok (Sk.unique vs)) (Sk.categorical ct) = Ok (Sk.categories_ f).
Proof.
  unfold Sk.fit, result_bind. intros Hfit.
  destruct (result_map _ (Sk.numeric ct)) as [stats|e] eqn:Hs; [|discriminate].
  destruct (result_map _ (Sk.categorical ct)) as [cats|e] eqn:Hc; [|discriminate].
  injection Hfit as <-. cbn. repeat split; try reflexivity.
  eexists. split; [reflexivity|]. cbn.
  apply result_map_length in Hs. rewrite !length_map. repeat split; try exact Hs.
Qed.

(** [fit] reads the configuration of the transformer and the frame, not the
    state an earlier [fit] left. *)
Lemma fit_ignores_state (ct1 ct2 : Sk.ColumnTransformer) (X : DataFrame) :
  Sk.numeric ct1 = Sk.numeric ct2 ->
  Sk.categorical ct1 = Sk.categorical ct2 ->
  Sk.encoder ct1 = Sk.encoder ct2 ->
  Sk.fit ct1 X = Sk.fit ct2 X.
Proof. intros Hn Hc He. unfold Sk.fit. rewrite Hn, Hc, He. reflexivity. Qed.


End TransformFacts.

(** ** The shared preprocessor through the training loop *)

Section LoopFacts.
Context {Clf : Type} `{Sk.Learners Clf}.

Lemma pipeline_fit_inv (name : string) (kind : Sk.ModelKind) (X : DataFrame)
    (y : list Z) (m m' : Trainer.Models) :
  Trainer.pipeline_fit name kind X y m = Ok m' ->
  exists Xt clf,
    Sk.fit (Trainer.preprocessor m) X = Ok (Trainer.preprocessor m') /\
    Sk.transform (Trainer.preprocessor m') X = Ok Xt /\
    Sk.classifier_fit kind Trainer.RANDOM_STATE Xt y = Ok clf /\
    Trainer.classifiers m' = <[name := clf]> (Trainer.classifiers m).
Proof.
  unfold Trainer.pipeline_fit, result_bind. intros Hfit.
  destruct (Sk.fit (Trainer.preprocessor m) X) as [pre|e]; [|discriminate].
  destruct (Sk.transform pre X) as [Xt|e] eqn:Ht; [|discriminate].
  destruct (Sk.classifier_fit kind Trainer.RANDOM_STATE Xt y) as [clf|e] eqn:Hc;
    [|discriminate].
  injection Hfit as <-. exists Xt, clf. cbn. repeat split; assumption.
Qed.


End LoopFacts.

(** What [build_preprocessor] returns where it returns: [set_output] exists
    from scikit-learn 1.2 on only. *)
Lemma build_preprocessor_inv (rel : Sk.Release) (ct : Sk.ColumnTransformer) :
  Trainer.build_preprocessor rel = Ok ct ->
  rel = Sk.Since_1_2 /\
  Sk.handle_unknown (Sk.encoder ct) = Sk.HandleIgnore /\
  Sk.numeric ct = Trainer.NUMERIC_FEATURES /\
  Sk.categorical ct = Trainer.CATEGORICAL_FEATURES /\
  Sk.fitted_ ct = None.
Proof.
  destruct rel; cbn; [discriminate|]. intros [= <-]. repeat split.
Qed.



(** ** Frames *)

Lemma select_column_names (df X : DataFrame) (names : list string) :
  Pd.select df names = Ok X -> column_names X = names.
Proof.
  unfold Pd.select. revert X. induction names as [|name names IH]; intros X; simpl.
  - intros [= <-]. reflexivity.
  - unfold result_bind at 1.
    destruct (result_bind (Pd.get_column df name) _) as [kc|e] eqn:Hkc; [|discriminate].
    unfold result_bind at 1.
    destruct (result_map _ names) as [rest|e] eqn:Hrest; [|discriminate].
    intros [= <-]. unfold column_names in *. simpl. rewrite (IH rest eq_refl).
    unfold result_bind in Hkc. destruct (Pd.get_column df name); [|discriminate].
    injection Hkc as <-. reflexivity.
Qed.

(** The selection reads the selected columns only. *)
Lemma select_ext (df df' : DataFrame) (names : list string) :
  Forall (fun name => Pd.get_column df name = Pd.get_column df' name) names ->
  Pd.select df names = Pd.select df' names.
Proof.
  unfold Pd.select. induction 1 as [|name names Hname _ IH]; simpl; [reflexivity|].
  rewrite Hname, IH. reflexivity.
Qed.

Lemma take_rows_column_names (X : DataFrame) (idx : list nat) :
  column_names (Pd.take_rows X idx) = column_names X.
Proof.
  unfold column_names, Pd.take_rows. rewrite map_map. reflexivity.
Qed.

(** A column that differs from the replaced one is read as before. *)
Lemma get_column_replace (df : DataFrame) (target name : string) (c : Column) :
  name <> target ->
  Pd.get_column (Pd.replace_column df target c) name = Pd.get_column df name.
Proof.
  intros Hne. unfold Pd.replace_column. induction df as [|[k col] df IH]; simpl; [reflexivity|].
  destruct (String.eqb k target) eqn:Ek; simpl.
  - apply String.eqb_eq in Ek. subst k.
    destruct (String.eqb target name) eqn:En.
    + apply String.eqb_eq in En. congruence.
    + exact IH.
  - destruct (String.eqb k name); [reflexivity | exact IH].
Qed.

(** ** One run of the trainer *)

Section MainFacts.
Context {Clf : Type} `{Sk.Learners Clf}.

(** The stages a successful run of [main] went through. *)
Lemma main_inv (rel : Sk.Release) (fs : gmap string FileNode) (r : Trainer.TrainerRun) :
  Trainer.main rel fs = Ok r ->
  exists df ycol pre,
    Trainer.load_dataset fs Trainer.DATA_PATH = Ok df /\
    Pd.select df (Trainer.NUMERIC_FEATURES ++ Trainer.CATEGORICAL_FEATURES)
      = Ok (Trainer.run_X r) /\
    Pd.get_column df Trainer.TARGET_COLUMN = Ok ycol /\
    Pd.label_values ycol = Ok (Trainer.run_y r) /\
    (let parts := Sk.train_test_split (Pd.num_rows (Trainer.run_X r))
                    Trainer.TEST_SIZE Trainer.RANDOM_STATE (Trainer.run_y r) in
     Trainer.run_X_train r = Pd.take_rows (Trainer.run_X r) (fst parts) /\
     Trainer.run_X_test r = Pd.take_rows (Trainer.run_X r) (snd parts) /\
     Trainer.run_y_train r = Pd.take (Trainer.run_y r) (fst parts) /\
     Trainer.run_y_test r = Pd.take (Trainer.run_y r) (snd parts)) /\
    Trainer.build_preprocessor rel = Ok pre /\
    Trainer.train_and_evaluate Trainer.MODELS
      (Trainer.run_X_train r) (Trainer.run_y_train r)
      (Trainer.run_X_test r) (Trainer.run_y_test r)
      {| Trainer.preprocessor := pre; Trainer.classifiers := ∅ |} []
      = Ok (Trainer.run_models r, Trainer.run_metrics r) /\
    Trainer.plot_feature_importance (Trainer.run_models r) "LightGBM"
      = Ok (Trainer.run_feature_importance r) /\
    Trainer.run_files r !! Trainer.FEATURE_IMPORTANCE_CSV_PATH
      = Some (CsvTable (Trainer.importance_frame (Trainer.run_feature_importance r))).
Proof.
  unfold Trainer.main. intros Hmain.
  destruct (Trainer.load_dataset fs Trainer.DATA_PATH) as [df|e] eqn:Hload; [|discriminate].
  rewrite result_bind_ok in Hmain.
  destruct (Pd.select df _) as [X|e] eqn:HX; [|discriminate].
  rewrite result_bind_ok in Hmain.
  destruct (Pd.get_column df Trainer.TARGET_COLUMN) as [ycol|e] eqn:Hycol; [|discriminate].
  rewrite result_bind_ok in Hmain.
  destruct (Pd.label_values ycol) as [y|e] eqn:Hy; [|discriminate].
  rewrite result_bind_ok in Hmain. cbv zeta in Hmain.
  destruct (Trainer.build_preprocessor rel) as [pre|e] eqn:Hpre; [|discriminate].
  rewrite result_bind_ok in Hmain.
  destruct (Trainer.train_and_evaluate _ _ _ _ _ _ _) as [[m out]|e] eqn:Htrain;
    [|discriminate].
  rewrite result_bind_ok in Hmain. cbn [fst snd] in Hmain.
  destruct (Trainer.plot_feature_importance m "LightGBM") as [table|e] eqn:Hplot;
    [|discriminate].
  rewrite result_bind_ok in Hmain. injection Hmain as <-.
  exists df, ycol, pre.
  cbn [Trainer.run_X Trainer.run_y Trainer.run_X_train Trainer.run_X_test
       Trainer.run_y_train Trainer.run_y_test Trainer.run_models Trainer.run_metrics
       Trainer.run_feature_importance Trainer.run_files].
  repeat split; try reflexivity; try assumption.
  rewrite lookup_insert_ne by discriminate. apply lookup_insert_eq.
Qed.

End MainFacts.

Lemma result_map_ext {A B} (f g : A -> Result B) (l : list A) :
  Forall (fun x => f x = g x) l -> result_map f l = result_map g l.
Proof.
  induction 1 as [|x l Hx _ IH]; simpl; [reflexivity|]. rewrite Hx, IH. reflexivity.
Qed.

(** The transform reads the listed columns of its input and nothing else. *)
Lemma transform_ext {Clf : Type} `{Sk.Learners Clf}
    (ct : Sk.ColumnTransformer) (X X' : DataFrame) :
  Forall (fun name => Pd.get_column X name = Pd.get_column X' name)
         (Sk.numeric ct ++ Sk.categorical ct) ->
  Sk.transform ct X = Sk.transform ct X'.
Proof.
  intros Hcols. apply Forall_app in Hcols. destruct Hcols as [Hnum Hcat].
  unfold Sk.transform. destruct (Sk.fitted_ ct) as [f|]; [|reflexivity].
  rewrite (result_map_ext
             (fun nms => let? c := Pd.get_column X (fst nms) in
                         let? xs := Pd.numeric_values c in
                         Ok (("num__" ++ fst nms)%string,
                             FloatCol (Sk.scaler_transform (fst (snd nms))
                                         (snd (snd nms)) xs)))
             (fun nms => let? c := Pd.get_column X' (fst nms) in
                         let? xs := Pd.numeric_values c in
                         Ok (("num__" ++ fst nms)%string,
                             FloatCol (Sk.scaler_transform (fst (snd nms))
                                         (snd (snd nms)) xs)))).
  2:{ eapply Forall_impl; [apply Forall_zip_fst; exact Hnum|].
      intros nms Hn. cbn beta in *. rewrite Hn. reflexivity. }
  rewrite (result_map_ext
             (fun nc => let? c := Pd.get_column X (fst nc) in
                        let? vs := Pd.category_values c in
                        Sk.encode (Sk.encoder ct) (fst nc) (snd nc) vs)
             (fun nc => let? c := Pd.get_column X' (fst nc) in
                        let? vs := Pd.category_values c in
                        Sk.encode (Sk.encoder ct) (fst nc) (snd nc) vs)).
  2:{ eapply Forall_impl; [apply Forall_zip_fst; exact Hcat|].
      intros nc Hn. cbn beta in *. rewrite Hn. reflexivity. }
  reflexivity.
Qed.

(** C10.  In a run of the trainer the frame [X], its train and its test
    partition have exactly the six numeric and the two categorical columns,
    [converted] is not among them, and these partitions are what every
    pipeline is fitted and evaluated on.  [X] is the same whatever the label
    column of the dataset holds, and the transform that feeds the classifiers
    reads the eight listed columns only: the labels reach a model as the
    target of [fit], never as an input. *)
Theorem C10_target_column_is_not_a_model_input :
  (forall {Clf : Type} `{Sk.Learners Clf} rel fs (r : Trainer.TrainerRun),
      Trainer.main rel fs = Ok r ->
      let features := Trainer.NUMERIC_FEATURES ++ Trainer.CATEGORICAL_FEATURES in
      column_names (Trainer.run_X r) = features /\
      column_names (Trainer.run_X_train r) = features /\
      column_names (Trainer.run_X_test r) = features /\
      ~ In Trainer.TARGET_COLUMN (column_names (Trainer.run_X_train r)) /\
      ~ In Trainer.TARGET_COLUMN (column_names (Trainer.run_X_test r)) /\
      exists pre,
        Trainer.train_and_evaluate Trainer.MODELS
          (Trainer.run_X_train r) (Trainer.run_y_train r)
          (Trainer.run_X_test r) (Trainer.run_y_test r)
          {| Trainer.preprocessor := pre; Trainer.classifiers := ∅ |} []
        = Ok (Trainer.run_models r, Trainer.run_metrics r)) /\
  length Trainer.NUMERIC_FEATURES = 6%nat /\
  length Trainer.CATEGORICAL_FEATURES = 2%nat /\
  ~ In Trainer.TARGET_COLUMN (Trainer.NUMERIC_FEATURES ++ Trainer.CATEGORICAL_FEATURES) /\
  (forall df labels,
      Pd.select (Pd.replace_column df Trainer.TARGET_COLUMN labels)
        (Trainer.NUMERIC_FEATURES ++ Trainer.CATEGORICAL_FEATURES)
      = Pd.select df (Trainer.NUMERIC_FEATURES ++ Trainer.CATEGORICAL_FEATURES)) /\
  (forall {Clf : Type} `{Sk.Learners Clf} rel pre pre' X_fit X X',
      Trainer.build_preprocessor rel = Ok pre ->
      Sk.fit pre X_fit = Ok pre' ->
      Forall (fun name => Pd.get_column X name = Pd.get_column X' name)
             (Trainer.NUMERIC_FEATURES ++ Trainer.CATEGORICAL_FEATURES) ->
      Sk.transform pre' X = Sk.transform pre' X').
Proof.
  assert (Hnot : ~ In Trainer.TARGET_COLUMN
                     (Trainer.NUMERIC_FEATURES ++ Trainer.CATEGORICAL_FEATURES)).
  { simpl. intros Hin.
    repeat (destruct Hin as [Hin | Hin]; [discriminate Hin|]). exact Hin. }
  split; [|split; [reflexivity|split; [reflexivity|split; [exact Hnot|split]]]].
  - intros Clf HL rel fs r Hmain features.
    destruct (main_inv rel fs r Hmain)
      as (df & ycol & pre & _ & HX & _ & _ & (Htr & Hte & _) & _ & Htrain & _).
    apply select_column_names in HX. fold features in HX.
    assert (Htrn : column_names (Trainer.run_X_train r) = features).
    { rewrite Htr, take_rows_column_names. exact HX. }
    assert (Hten : column_names (Trainer.run_X_test r) = features).
    { rewrite Hte, take_rows_column_names. exact HX. }
    split; [exact HX|]. split; [exact Htrn|]. split; [exact Hten|].
    rewrite Htrn, Hten. split; [exact Hnot|]. split; [exact Hnot|].
    exists pre. exact Htrain.
  - intros df labels. apply select_ext.
    repeat constructor; apply get_column_replace; discriminate.
  - intros Clf HL rel pre pre' X_fit X X' Hpre Hfit Hcols.
    destruct (fit_inv pre pre' X_fit Hfit) as (Hn & Hc & _).
    apply transform_ext. rewrite Hn, Hc.
    destruct (build_preprocessor_inv rel pre Hpre) as (_ & _ & Hnum & Hcat & _).
    rewrite Hnum, Hcat. exact Hcols.
Qed.

Lemma C10_witness :
  exists r,
    Trainer.main (H := Toy.toy_learners) Sk.Since_1_2 Demo.fs20 = Ok r /\
    column_names (Trainer.run_X_train r)
      = Trainer.NUMERIC_FEATURES ++ Trainer.CATEGORICAL_FEATURES /\
    ~ In Trainer.TARGET_COLUMN (column_names (Trainer.run_X_test r)).
Proof.
  destruct (Trainer.main (H := Toy.toy_learners) Sk.Since_1_2 Demo.fs20) as [r|e] eqn:E;
    [|vm_compute in E; discriminate].
  exists r. split; [reflexivity|].
  destruct (proj1 C10_target_column_is_not_a_model_input
              Toy.ToyClf Toy.toy_learners Sk.Since_1_2 Demo.fs20 r E)
    as (_ & Htrain & _ & _ & Htest & _).
  split; [exact Htrain | exact Htest].
Defined.

(** ** The feature-importance table *)


Lemma by_importance_desc_total : Total Trainer.by_importance_desc.
Proof. intros a b. unfold Trainer.by_importance_desc. lia. Qed.

Lemma by_importance_desc_trans : Transitive Trainer.by_importance_desc.
Proof. intros a b c. unfold Trainer.by_importance_desc. lia. Qed.

Section ImportanceFacts.
Context {Clf : Type} `{Sk.Learners Clf}.
#[local] Existing Instance Trainer.by_importance_desc_dec.

(** What [plot_feature_importance] returns when it returns: the rows pair
    the feature names with the importances, sorted by importance. *)
Lemma plot_feature_importance_inv (m : Trainer.Models) (name : string)
    (table : list (string * Z)) :
  Trainer.plot_feature_importance m name = Ok table ->
  exists names,
    Sk.get_feature_names_out (Trainer.preprocessor m) = Ok names /\
    length table = length names /\
    map fst table ≡ₚ names /\
    StronglySorted (fun a b => (snd b <= snd a)%Z) table.
Proof.
  unfold Trainer.plot_feature_importance, result_bind. intros Hplot.
  destruct (Sk.get_feature_names_out (Trainer.preprocessor m)) as [names|e];
    [|discriminate].
  destruct (Trainer.fitted_classifier m name) as [clf|e]; [|discriminate].
  destruct (Nat.eqb (length names) (length (Sk.feature_importances_ clf))) eqn:Hlen;
    [|discriminate].
  apply Nat.eqb_eq in Hlen. injection Hplot as <-.
  exists names. split; [reflexivity|].
  pose proof (merge_sort_Permutation Trainer.by_importance_desc
                (zip names (Sk.feature_importances_ clf))) as Hperm.
  split; [|split].
  - rewrite (Permutation_length Hperm), length_zip_with. lia.
  - rewrite Hperm. change (map fst ?l) with (fst <$> l).
    rewrite fst_zip by lia. reflexivity.
  - apply (StronglySorted_merge_sort Trainer.by_importance_desc
             (Transitive0 := by_importance_desc_trans)
             (Total0 := by_importance_desc_total)).
Qed.

End ImportanceFacts.

Section EncodedFeatures.
Context {Clf : Type} `{Sk.Learners Clf}.

Lemma category_values_inv (c : Column) (vs : list string) :
  Pd.category_values c = Ok vs -> c = StrCol vs.
Proof. destruct c; simpl; intros [= <-]. reflexivity. Qed.

(** The feature names of the preprocessor of [main] once it is fitted: the
    numeric features, then one name per category of each categorical
    feature as found in the frame it was fitted on. *)
Lemma feature_names_after_fit (pre pre' : Sk.ColumnTransformer) (X : DataFrame) :
  Sk.numeric pre = Trainer.NUMERIC_FEATURES ->
  Sk.categorical pre = Trainer.CATEGORICAL_FEATURES ->
  Sk.fit pre X = Ok pre' ->
  exists bts prs,
    Pd.get_column X "business_type" = Ok (StrCol bts) /\
    Pd.get_column X "priority" = Ok (StrCol prs) /\
    Sk.get_feature_names_out pre' =
      Ok (map (fun name => ("num__" ++ name)%string) Trainer.NUMERIC_FEATURES
          ++ map (fun c => ("cat__business_type_" ++ c)%string) (Sk.unique bts)
          ++ map (fun c => ("cat__priority_" ++ c)%string) (Sk.unique prs)).
Proof.
  intros Hnum Hcat Hfit.
  destruct (fit_inv pre pre' X Hfit) as (Hn & Hc & _ & f & Hf & _ & _ & Hcats).
  rewrite Hcat in Hcats. unfold Trainer.CATEGORICAL_FEATURES in Hcats.
  simpl in Hcats. unfold result_bind in Hcats.
  destruct (Pd.get_column X "business_type") as [c1|e]; [|discriminate].
  destruct (Pd.category_values c1) as [bts|e] eqn:Hbts; [|discriminate].
  destruct (Pd.get_column X "priority") as [c2|e]; [|discriminate].
  destruct (Pd.category_values c2) as [prs|e] eqn:Hprs; [|discriminate].
  injection Hcats as Hcats.
  apply category_values_inv in Hbts, Hprs. subst c1 c2.
  exists bts, prs. split; [reflexivity|]. split; [reflexivity|].
  unfold Sk.get_feature_names_out. rewrite Hf, Hn, Hc, Hnum, Hcat, <- Hcats.
  simpl. rewrite app_nil_r. reflexivity.
Qed.

End EncodedFeatures.



(** ** The table is produced whenever the training loop succeeds *)

Lemma concat_lengths {A B C} (f : A -> Result (list B)) (g : A -> list C)
    (l : list A) (ys : list (list B)) :
  result_map f l = Ok ys ->
  (forall x y, f x = Ok y -> length y = length (g x)) ->
  length (concat ys) = length (concat (map g l)).
Proof.
  intros Hmap Hlen. revert ys Hmap. induction l as [|x l IH]; intros ys; simpl.
  - intros [= <-]. reflexivity.
  - unfold result_bind. destruct (f x) as [y|e] eqn:Hy; [|discriminate].
    destruct (result_map f l) as [zs|e]; [|discriminate].
    intros [= <-]. simpl. rewrite !length_app, (Hlen x y Hy), (IH zs eq_refl).
    reflexivity.
Qed.

Lemma encode_length (enc : Sk.OneHotEncoder) (feature : string)
    (categories values : list string) (cols : DataFrame) :
  Sk.encode enc feature categories values = Ok cols ->
  length cols = length categories.
Proof.
  unfold Sk.encode. destruct (Sk.handle_unknown enc).
  - destruct (forallb _ values); [|discriminate]. intros [= <-]. apply length_map.
  - intros [= <-]. apply length_map.
Qed.

Section TableIsProduced.
Context {Clf : Type} `{Sk.Learners Clf} {HS : Sk.LearnersSpec Clf}.

(** The transformed frame has one column per feature name. *)
Lemma transform_width (pre pre' : Sk.ColumnTransformer) (X_fit X Xt : DataFrame)
    (names : list string) :
  Sk.fit pre X_fit = Ok pre' ->
  Sk.transform pre' X = Ok Xt ->
  Sk.get_feature_names_out pre' = Ok names ->
  length Xt = length names.
Proof.
  intros Hfit Ht Hnames.
  destruct (fit_inv pre pre' X_fit Hfit) as (Hn & _ & _ & f & Hf & Hmean & Hscale & _).
  unfold Sk.transform in Ht. unfold Sk.get_feature_names_out in Hnames.
  rewrite Hf in Ht, Hnames. injection Hnames as <-.
  unfold result_bind in Ht.
  destruct (result_map _ (zip (Sk.numeric pre') _)) as [nums|e] eqn:Hnums; [|discriminate].
  destruct (result_map _ (zip (Sk.categorical pre') _)) as [cats|e] eqn:Hcats;
    [|discriminate].
  injection Ht as <-.
  apply result_map_length in Hnums.
  rewrite !length_app, Hnums, !length_zip_with, length_map.
  rewrite (concat_lengths _
             (fun nc : string * list string =>
                map (fun c => ("cat__" ++ fst nc ++ "_" ++ c)%string) (snd nc))
             _ _ Hcats).
  - rewrite Hn. lia.
  - intros nc cols Hcols. unfold result_bind in Hcols.
    destruct (Pd.get_column X (fst nc)) as [c|e]; [|discriminate].
    destruct (Pd.category_values c) as [vs|e]; [|discriminate].
    rewrite (encode_length _ _ _ _ _ Hcols), length_map. reflexivity.
Qed.

(** After the loop over [MODELS] the LightGBM classifier is the one fitted
    on the transformed training partition. *)
Lemma train_and_evaluate_lightgbm (X_train : DataFrame) (y_train : list Z)
    (X_test : DataFrame) (y_test : list Z) (m0 m : Trainer.Models)
    (out : list (string * Trainer.Metrics)) :
  Trainer.train_and_evaluate Trainer.MODELS X_train y_train X_test y_test m0 [] = Ok (m, out) ->
  exists pre Xt clf,
    Sk.fit pre X_train = Ok (Trainer.preprocessor m) /\
    Sk.transform (Trainer.preprocessor m) X_train = Ok Xt /\
    Sk.classifier_fit Sk.LGBMClassifier Trainer.RANDOM_STATE Xt y_train = Ok clf /\
    Trainer.classifiers m !! "LightGBM"%string = Some clf.
Proof.
  unfold Trainer.MODELS. simpl. unfold result_bind. intros Hrun.
  destruct (Trainer.pipeline_fit "Dummy Classifier" _ X_train y_train m0) as [m1|e];
    [|discriminate].
  destruct (Trainer.evaluate_model m1 _ X_test y_test) as [r1|e]; [|discriminate].
  destruct (Trainer.pipeline_fit "Logistic Regression" _ X_train y_train m1) as [m2|e];
    [|discriminate].
  destruct (Trainer.evaluate_model m2 _ X_test y_test) as [r2|e]; [|discriminate].
  destruct (Trainer.pipeline_fit "LightGBM" _ X_train y_train m2) as [m3|e] eqn:Hfit;
    [|discriminate].
  destruct (Trainer.evaluate_model m3 _ X_test y_test) as [r3|e]; [|discriminate].
  injection Hrun as <- _.
  destruct (pipeline_fit_inv _ _ _ _ _ _ Hfit) as (Xt & clf & Hpre & Ht & Hclf & Hmap).
  exists (Trainer.preprocessor m2), Xt, clf.
  split; [exact Hpre|]. split; [exact Ht|]. split; [exact Hclf|].
  rewrite Hmap. apply lookup_insert_eq.
Qed.

(** With one importance per input column, as LightGBM gives,
    [plot_feature_importance] returns its table after every successful
    training loop. *)
Lemma plot_feature_importance_total (X_train : DataFrame) (y_train : list Z)
    (X_test : DataFrame) (y_test : list Z) (m0 m : Trainer.Models)
    (out : list (string * Trainer.Metrics)) :
  Trainer.train_and_evaluate Trainer.MODELS X_train y_train X_test y_test m0 [] = Ok (m, out) ->
  exists table, Trainer.plot_feature_importance m "LightGBM" = Ok table.
Proof.
  intros Hrun.
  destruct (train_and_evaluate_lightgbm _ _ _ _ _ _ _ Hrun)
    as (pre & Xt & clf & Hfit & Ht & Hclf & Hlookup).
  destruct (fit_inv _ _ _ Hfit) as (_ & _ & _ & f & Hf & _).
  unfold Trainer.plot_feature_importance, Trainer.fitted_classifier.
  destruct (Sk.get_feature_names_out (Trainer.preprocessor m)) as [names|e] eqn:Hnames.
  2:{ unfold Sk.get_feature_names_out in Hnames. rewrite Hf in Hnames. discriminate. }
  rewrite result_bind_ok, Hlookup, result_bind_ok.
  rewrite (Sk.feature_importances_length _ _ _ _ Hclf).
  rewrite (transform_width _ _ _ _ _ _ Hfit Ht Hnames), Nat.eqb_refl.
  eexists. reflexivity.
Qed.

End TableIsProduced.

(** The small learners give one importance per input column. *)
Lemma toy_spec : Sk.LearnersSpec (H := Toy.toy_learners) Toy.ToyClf.
Proof.
  split. intros seed Xt y clf [= <-]. simpl. unfold Toy.toy_importances. simpl.
  rewrite length_map, length_seq. reflexivity.
Qed.

(** ** Examples on concrete inputs *)

(** Were every deal value of a batch zero, the batch maximum would be zero,
    the deal-value effect 0/0, and the probability NaN, which the clipping
    passes through; the comparison of the label draw with NaN is false. *)
Example all_zero_deal_values_give_nan :
  let effects :=
    Gen.spec_effects (series_max [0; 0]) (series_max_int [10; 20]%Z)
      "Retail" 4.0 10%Z 0 "Low" 30%Z 2%Z in
  Gen.spec_conversion_probability effects 0.05 = NaN /\
  Gen.bernoulli_label 0.5 (Gen.spec_conversion_probability effects 0.05) = 0%Z.
Proof. split; reflexivity. Qed.

(** The noise is added before the clipping: an accumulated value of 0.95
    with a noise of 0.1 is clipped to 0.99, where clipping first and adding
    the noise afterwards would leave the interval. *)
Example noise_then_clip :
  Gen.spec_conversion_probability (Fin 0.95) 0.1 = Fin 0.99 /\
  flt (Fin 0.99) (fadd (Gen.clip_probability (Fin 0.95)) (Fin 0.1)) = true.
Proof. split; reflexivity. Qed.

(** Nothing at the dataset path: the missing-input error.  An empty file at
    the path: the error of the reader, passed on. *)
Example load_dataset_nothing :
  Trainer.load_dataset Demo.fs_nothing Trainer.DATA_PATH
  = Raise (FileNotFoundError Trainer.MISSING_DATASET_MESSAGE).
Proof. reflexivity. Qed.

Example load_dataset_empty_file :
  Trainer.load_dataset Demo.fs_empty_file Trainer.DATA_PATH = Raise ParserError.
Proof. reflexivity. Qed.

(** The second lead of [Demo.X_test] has the business type "Services", not
    seen in [Demo.X_train]: both business-type indicators are zero in its
    row.  With [handle_unknown="error"] the same value would raise. *)
Example unseen_business_type_encoded_as_zeros :
  Sk.encode {| Sk.handle_unknown := Sk.HandleIgnore; Sk.dense_output := true |}
    "business_type" (Sk.unique ["Restaurant"; "Retail"; "Restaurant"; "Retail"])
    ["Retail"; "Services"]
  = Ok [ ("cat__business_type_Restaurant"%string, FloatCol [Fin 0; Fin 0]);
         ("cat__business_type_Retail"%string, FloatCol [Fin 1; Fin 0]) ] /\
  Sk.encode {| Sk.handle_unknown := Sk.HandleError; Sk.dense_output := true |}
    "business_type" (Sk.unique ["Restaurant"; "Retail"; "Restaurant"; "Retail"])
    ["Retail"; "Services"]
  = Raise (ValueError "Found unknown categories").
Proof. split; vm_compute; reflexivity. Qed.

(** The metrics of a model that predicts no positive: the precision and the
    F1 are reported as zero, the recall is 0/1. *)
Example no_positive_prediction :
  Sk.precision_score (Fin 0) [1; 0]%Z [0; 0]%Z = Fin 0 /\
  Sk.recall_score (Fin 0) [1; 0]%Z [0; 0]%Z = Fin (0 / 1) /\
  Sk.roc_auc_score Sk.RaisesValueError [0; 0]%Z [Fin 0.5; Fin 0.5]
    = Raise (ValueError Sk.SINGLE_CLASS_MESSAGE) /\
  Sk.roc_auc_score Sk.ReturnsNaN [0; 0]%Z [Fin 0.5; Fin 0.5] = Ok NaN.
Proof. repeat split. Qed.

(** * Further properties of the two programs *)

(** ** Rounding *)

Lemma rint_ge (a : Z) (q : Q) : inject_Z a <= q -> (a <= rint q)%Z.
Proof.
  intros Hq. unfold rint.
  pose proof (Qfloor_resp_le _ _ Hq) as Hf. rewrite Qfloor_Z in Hf.
  destruct (Qcompare _ _); [destruct (Z.even _)| |]; lia.
Qed.

Lemma rint_le (b : Z) (q : Q) : q <= inject_Z b -> (rint q <= b)%Z.
Proof.
  intros Hq. unfold rint.
  pose proof (Qfloor_resp_le _ _ Hq) as Hf. rewrite Qfloor_Z in Hf.
  destruct (Qcompare (q - inject_Z (Qfloor q)) (1 # 2)) eqn:E.
  - apply Qeq_alt in E.
    assert (Hne : Qfloor q <> b) by (intros Heq; rewrite Heq in E; lra).
    destruct (Z.even _); lia.
  - lia.
  - apply Qgt_alt in E.
    assert (Hne : Qfloor q <> b) by (intros Heq; rewrite Heq in E; lra).
    lia.
Qed.

(** Rounding to one decimal keeps a value between 3 and 5. *)
Lemma round_1_between_3_and_5 (q : Q) : 3 <= q <= 5 -> 3 <= NP.round 1 q <= 5.
Proof.
  intros [Hlo Hhi]. unfold NP.round.
  change (inject_Z (10 ^ Z.of_nat 1)) with (inject_Z 10).
  assert (H30 : (30 <= rint (q * inject_Z 10))%Z).
  { apply rint_ge. change (inject_Z 30) with (3 * inject_Z 10).
    apply Qmult_le_compat_r; [exact Hlo | discriminate]. }
  assert (H50 : (rint (q * inject_Z 10) <= 50)%Z).
  { apply rint_le. change (inject_Z 50) with (5 * inject_Z 10).
    apply Qmult_le_compat_r; [exact Hhi | discriminate]. }
  generalize dependent (rint (q * inject_Z 10)). intros k H30 H50.
  unfold Qle, Qdiv, Qmult, Qinv, inject_Z. simpl. lia.
Qed.

(** Rounding a positive value to an integer gives no negative value. *)
Lemma round_0_nonneg (q : Q) : 0 < q -> 0 <= NP.round 0 q.
Proof.
  intros Hq. unfold NP.round.
  change (inject_Z (10 ^ Z.of_nat 0)) with (inject_Z 1).
  assert (H0 : (0 <= rint (q * inject_Z 1))%Z).
  { apply rint_ge. change (inject_Z 0) with 0. change (inject_Z 1) with 1.
    rewrite Qmult_1_r. apply Qlt_le_weak. exact Hq. }
  generalize dependent (rint (q * inject_Z 1)). intros k H0.
  unfold Qle, Qdiv, Qmult, Qinv, inject_Z. simpl. lia.
Qed.

(** ** The generated dataset *)

(** X1. The frame the generator writes has the nine columns of the dataset in
    the order of the dict, the label last, and every column has as many
    entries as leads were requested. *)
Theorem X1_generated_frame_shape {RS : Type} `{NumpyRandom RS} (n : nat) (s : RS) :
  let r := fst (Gen.run_generator n s) in
  column_names (Gen.run_frame r) =
    [ "business_type"; "rating"; "user_ratings_total"; "deal_value"; "priority";
      "time_in_pipeline"; "documents_verified_count"; "contacts_count";
      "converted" ]%string /\
  Forall (fun kc => column_length (snd kc) = n) (Gen.run_frame r) /\
  Pd.num_rows (Gen.run_frame r) = n.
Proof.
  intros r.
  destruct (run_generator_spec n s) as (Hdata & Heff & Hnoisy & Hprob & Hconv & Hln & Hlu).
  fold r in Hdata, Heff, Hnoisy, Hprob, Hconv, Hlu.
  destruct (sample_features_lengths n s) as (L1 & L2 & L3 & L4 & L5 & L6 & L7 & L8).
  pose proof (accumulate_effects_length n _ L1 L2 L3 L4 L5 L6 L7) as Lacc.
  rewrite <- Hdata in L1, L2, L3, L4, L5, L6, L7, L8.
  assert (Lc : length (Gen.run_converted r) = n).
  { rewrite Hconv, length_zip_with, Hlu, Hprob, length_map, Hnoisy, length_zip_with,
      length_map, Hln, Lacc. lia. }
  split; [reflexivity|]. split.
  - unfold Gen.run_frame, Gen.to_frame.
    repeat constructor; cbn [snd column_length]; rewrite ?length_map; assumption.
  - unfold Gen.run_frame, Gen.to_frame, Pd.num_rows. cbn [snd column_length]. exact L1.
Qed.

Section ContinuousSupports.
Context {RS : Type} `{NumpyRandom RS} {HC : NumpyContinuousSpec RS}.

(** The ratings lie between 3 and 5 and no deal value is negative. *)
Lemma sample_features_continuous_support (n : nat) (s : RS) :
  let df := fst (Gen.sample_features n s) in
  Forall (fun r => 3 <= r <= 5) (Gen.rating df) /\
  Forall (fun v => 0 <= v) (Gen.deal_value df).
Proof.
  unfold Gen.sample_features, rand_bind, rand_ret.
  destruct (draws n (choice1 Gen.BUSINESS_TYPES [0.5; 0.3; 0.2]) s) as [bt s1].
  assert (H2 : Forall (fun r => 3 <= r <= 5) (fst (draws n (uniform1 3.0 5.0) s1))).
  { apply draws_Forall. intros t.
    destruct (uniform1_range 3.0 5.0 t ltac:(discriminate)) as [Hlo Hhi].
    split; [apply (Qle_trans _ 3.0); [discriminate | exact Hlo]
           | apply (Qle_trans _ 5.0); [exact Hhi | discriminate]]. }
  destruct (draws n (uniform1 3.0 5.0) s1) as [rt s2].
  destruct (draws n (randint1 10 1000) s2) as [urt s3].
  pose proof (draws_Forall (fun v => 0 < v) (lognormal1 8.5 0.8)
                (fun t => lognormal1_pos 8.5 0.8 t) n s3) as H4.
  destruct (draws n (lognormal1 8.5 0.8) s3) as [dv s4].
  destruct (draws n (choice1 Gen.PRIORITY_LEVELS [0.3; 0.5; 0.2]) s4) as [pr s5].
  destruct (draws n (randint1 1 90) s5) as [tip s6].
  destruct (draws n (randint1 0 7) s6) as [dvc s7].
  destruct (draws n (randint1 1 5) s7) as [cc s8].
  cbn [fst snd Gen.rating Gen.deal_value] in *. split.
  - induction H2 as [|x l Hx _ IH]; simpl; constructor;
      [apply round_1_between_3_and_5; exact Hx | exact IH].
  - induction H4 as [|x l Hx _ IH]; simpl; constructor;
      [apply round_0_nonneg; exact Hx | exact IH].
Qed.

End ContinuousSupports.

(** X2. Every feature of every generated record lies in the range its
    sampling call gives it: the business type and the priority are among the
    listed options, the rating is between 3 and 5, the review count between
    10 and 999, no deal value is negative, and the pipeline time, the
    document count and the contact count lie in 1..89, 0..6 and 1..4. *)
Theorem X2_features_in_range
    {RS : Type} `{NumpyRandom RS}
    (HS : NumpyRandomSpec RS) (HC : NumpyContinuousSpec RS) (n : nat) (s : RS) :
  let df := Gen.run_data (fst (Gen.run_generator n s)) in
  Forall (fun b => In b Gen.BUSINESS_TYPES) (Gen.business_type df) /\
  Forall (fun r => 3 <= r <= 5) (Gen.rating df) /\
  Forall (fun z => (10 <= z <= 999)%Z) (Gen.user_ratings_total df) /\
  Forall (fun v => 0 <= v) (Gen.deal_value df) /\
  Forall (fun p => In p Gen.PRIORITY_LEVELS) (Gen.priority df) /\
  Forall (fun z => (1 <= z <= 89)%Z) (Gen.time_in_pipeline df) /\
  Forall (fun z => (0 <= z <= 6)%Z) (Gen.documents_verified_count df) /\
  Forall (fun z => (1 <= z <= 4)%Z) (Gen.contacts_count df).
Proof.
  intros df. destruct (run_generator_spec n s) as (Hdata & _).
  unfold df. rewrite Hdata.
  destruct (sample_features_support n s) as (Hb & Hr & Hp & Ht & Hd & Hc).
  destruct (sample_features_continuous_support n s) as (Hrt & Hdv).
  repeat split; try assumption;
    (eapply Forall_impl; [eassumption|]; intros z Hz; simpl in Hz; lia).
Qed.

(** The small generator satisfies the continuous supports too. *)
Lemma lcg_unit_range (s : Z) : 0 <= Lcg.unit_of (Lcg.next s) <= 1.
Proof.
  pose proof (Z.mod_pos_bound (1103515245 * s + 12345) Lcg.modulus eq_refl) as Hm.
  unfold Lcg.unit_of, Lcg.next, Qle. simpl. unfold Lcg.modulus in *. lia.
Qed.

Lemma lcg_continuous_spec : NumpyContinuousSpec (H := Lcg.lcg_random) Z.
Proof.
  split.
  - intros low high s Hle. simpl. pose proof (lcg_unit_range s) as [H0 H1].
    generalize dependent (Lcg.unit_of (Lcg.next s)). intros u H0 H1. split; nra.
  - intros mean sigma s. simpl.
    pose proof (Z.mod_pos_bound (Lcg.next s) 20000 eq_refl).
    unfold Qlt, inject_Z. simpl. lia.
Qed.

Lemma X2_witness :
  Forall (fun r => 3 <= r <= 5) (Gen.rating (Gen.run_data Demo.run3)) /\
  Forall (fun z => (1 <= z <= 89)%Z) (Gen.time_in_pipeline (Gen.run_data Demo.run3)).
Proof.
  destruct (X2_features_in_range lcg_spec lcg_continuous_spec 3 42%Z)
    as (_ & Hr & _ & _ & _ & Ht & _).
  split; [exact Hr | exact Ht].
Defined.

(** ** The accumulated value before the noise *)

Lemma fold_left_Qmax_ge_init (l : list Q) (x : Q) : x <= fold_left Qmax l x.
Proof.
  revert x. induction l as [|y l IH]; intros x; simpl; [apply Qle_refl|].
  eapply Qle_trans; [apply Q.le_max_l | apply IH].
Qed.

Lemma fold_left_Qmax_ge_elem (l : list Q) (x y : Q) :
  In y l -> y <= fold_left Qmax l x.
Proof.
  revert x. induction l as [|z l IH]; intros x; simpl; [contradiction|].
  intros [<- | Hin].
  - eapply Qle_trans; [apply Q.le_max_r | apply fold_left_Qmax_ge_init].
  - apply IH. exact Hin.
Qed.

(** No entry of a column exceeds the maximum of the column. *)
Lemma series_max_ge (l : list Q) (m y : Q) :
  series_max l = Fin m -> In y l -> y <= m.
Proof.
  destruct l as [|x t]; simpl; [discriminate|]. intros [= <-] [<- | Hin].
  - apply fold_left_Qmax_ge_init.
  - apply fold_left_Qmax_ge_elem. exact Hin.
Qed.

Lemma fold_left_Zmax_ge_elem (l : list Z) (x y : Z) :
  In y l -> (y <= fold_left Z.max l x)%Z.
Proof.
  revert x. induction l as [|z l IH]; intros x; simpl; [contradiction|].
  intros [<- | Hin].
  - pose proof (fold_left_Zmax_ge l (Z.max x z)). lia.
  - apply IH. exact Hin.
Qed.

Lemma series_max_int_ge_elem (l : list Z) (k y : Z) :
  series_max_int l = of_int k -> In y l -> (y <= k)%Z.
Proof.
  destruct l as [|x t]; simpl; [discriminate|]. unfold of_int, inject_Z.
  intros [= <-] [<- | Hin].
  - apply fold_left_Zmax_ge.
  - apply fold_left_Zmax_ge_elem. exact Hin.
Qed.

Lemma priority_effect_bounds (pr : string) :
  In pr Gen.PRIORITY_LEVELS ->
  exists w, Gen.priority_effect pr = Fin w /\ -(0.05) <= w <= 0.15.
Proof.
  intros [<- | [<- | [<- | []]]]; eexists;
    (split; [vm_compute; reflexivity | split; discriminate]).
Qed.

Lemma time_penalty_bounds (t : Z) :
  (1 <= t <= 89)%Z ->
  exists q, Gen.time_penalty t = Fin q /\ 0 <= q <= 0.05.
Proof.
  intros Ht. eexists. split; [apply time_penalty_value|].
  assert (Habs : Qabs (inject_Z (t - 45) / inject_Z 45) <= 1).
  { apply Qabs_Qle_condition.
    assert (H1 : inject_Z (-45) <= inject_Z (t - 45)) by (rewrite <- Zle_Qle; lia).
    assert (H2 : inject_Z (t - 45) <= inject_Z 45) by (rewrite <- Zle_Qle; lia).
    generalize dependent (inject_Z (t - 45)). intros x H1 H2.
    change (inject_Z (-45)) with (-(45)) in H1. change (inject_Z 45) with 45 in *.
    split.
    - apply Qle_shift_div_l; [reflexivity | lra].
    - apply Qle_shift_div_r; [reflexivity | lra]. }
  pose proof (Qabs_nonneg (inject_Z (t - 45) / inject_Z 45)) as Hpos.
  generalize dependent (Qabs (inject_Z (t - 45) / inject_Z 45)). intros a Habs Hpos.
  split; lra.
Qed.

(** The accumulated value of a record whose features are in range, for a
    positive largest deal value. *)
Lemma spec_effects_bounds (m : Q) (k : Z) bt rt urt dv pr tip dvc :
  0 < m -> 0 <= dv <= m -> 3 <= rt <= 5 -> (10 <= urt <= k)%Z ->
  (0 <= dvc <= 6)%Z -> In pr Gen.PRIORITY_LEVELS -> (1 <= tip <= 89)%Z ->
  exists e,
    Gen.spec_effects (Fin m) (of_int k) bt rt urt dv pr tip dvc = Fin e /\
    0.06 <= e <= 0.90.
Proof.
  intros Hm Hdv Hrt Hurt Hdvc Hpr Htip.
  destruct (priority_effect_bounds pr Hpr) as (w & Hw & Hwb).
  destruct (time_penalty_bounds tip Htip) as (pen & Hpen & Hpenb).
  assert (Hd : 0 <= dv / m <= 1).
  { split.
    - apply Qle_shift_div_l; [exact Hm | lra].
    - apply Qle_shift_div_r; [exact Hm | lra]. }
  assert (Hk : 0 < inject_Z k).
  { change 0 with (inject_Z 0). rewrite <- Zlt_Qlt. lia. }
  assert (Hu : 0 <= inject_Z urt <= inject_Z k).
  { split; [change 0 with (inject_Z 0)|]; rewrite <- Zle_Qle; lia. }
  assert (Hv : 0 <= inject_Z urt / inject_Z k <= 1).
  { split.
    - apply Qle_shift_div_l; [exact Hk | lra].
    - apply Qle_shift_div_r; [exact Hk | lra]. }
  assert (Hc : 0 <= inject_Z dvc <= 6).
  { split; [change 0 with (inject_Z 0) | change 6 with (inject_Z 6)];
      rewrite <- Zle_Qle; lia. }
  unfold Gen.spec_effects, Gen.deal_value_effect, Gen.review_count_effect,
    Gen.rating_effect, Gen.document_effect, of_int.
  rewrite Hw, Hpen.
  rewrite (fdiv_fin dv m) by lra.
  rewrite (fdiv_fin (inject_Z urt) (inject_Z k)) by lra.
  rewrite (fdiv_fin rt 5.0) by discriminate.
  rewrite (fdiv_fin (inject_Z dvc) 6.0) by discriminate.
  generalize dependent (dv / m). intros d Hd.
  generalize dependent (inject_Z urt / inject_Z k). intros v Hv.
  generalize dependent (inject_Z dvc). intros c Hc.
  assert (Hr5 : 0.6 <= rt / 5.0 <= 1).
  { split.
    - apply Qle_shift_div_l; [reflexivity | lra].
    - apply Qle_shift_div_r; [reflexivity | lra]. }
  assert (Hc6 : 0 <= c / 6.0 <= 1).
  { split.
    - apply Qle_shift_div_l; [reflexivity | lra].
    - apply Qle_shift_div_r; [reflexivity | lra]. }
  generalize dependent (rt / 5.0). intros r5 Hr5.
  generalize dependent (c / 6.0). intros c6 Hc6.
  unfold Gen.business_type_bonus. cbn [fmul fadd].
  destruct (String.eqb bt "Restaurant"); cbn [fadd fsub fneg];
    (eexists; split; [reflexivity|]); unfold Gen.BASE_CONVERSION_RATE; split; lra.
Qed.

(** X3. Before the noise is added, the accumulated value of every generated
    record lies between 0.06 and 0.90: the base rate and the seven effects
    alone never reach the clipping bounds 0.01 and 0.99, so a probability is
    clipped only when the noise pushes it out.  The features are in the
    supports of their samplers and the largest deal value is positive. *)
Theorem X3_effects_within_clipping_bounds
    {RS : Type} `{NumpyRandom RS}
    (HS : NumpyRandomSpec RS) (HC : NumpyContinuousSpec RS)
    (n : nat) (s : RS) (i : nat) :
  let r := fst (Gen.run_generator n s) in
  (i < n)%nat ->
  (exists m, series_max (Gen.deal_value (Gen.run_data r)) = Fin m /\ 0 < m) ->
  exists e,
    Gen.run_effects r !! i = Some (Fin e) /\ 0.06 <= e <= 0.90 /\
    Gen.clip_probability (Fin e) = Fin e.
Proof.
  intros r Hi [m [Hm Hpos]].
  destruct (run_record n s i Hi)
    as (bt & rt & urt & dv & pr & tip & dvc & noise & u & Hbt & Hrt & Hurt & Hdv
        & Hpr & Htip & Hdvc & _ & _ & Heff & _).
  fold r in Hbt, Hrt, Hurt, Hdv, Hpr, Htip, Hdvc, Heff. cbv zeta in Heff.
  destruct (run_generator_spec n s) as (Hdata & _). fold r in Hdata.
  destruct (sample_features_support n s) as (_ & Hrev & Hprio & Htime & Hdocs & _).
  destruct (sample_features_continuous_support n s) as (Hrating & Hdeal).
  rewrite <- Hdata in Hrev, Hprio, Htime, Hdocs, Hrating, Hdeal.
  assert (Hat : forall A (P : A -> Prop) (l : list A) (x : A),
             Forall P l -> l !! i = Some x -> P x).
  { intros A P l x Hall Hx. rewrite Forall_forall in Hall. apply Hall.
    apply list_elem_of_lookup. exists i. exact Hx. }
  assert (Hin : forall A (l : list A) (x : A), l !! i = Some x -> In x l).
  { intros A l x Hx. apply list_elem_of_In, list_elem_of_lookup. exists i. exact Hx. }
  destruct (series_max_int_ge (Gen.user_ratings_total (Gen.run_data r)) 10)
    as [k [Hk Hk10]].
  { intros Hnil. rewrite Hnil in Hurt. discriminate. }
  { eapply Forall_impl; [exact Hrev|]. intros z Hz. simpl in Hz. lia. }
  pose proof (series_max_int_ge_elem _ _ _ Hk (Hin _ _ _ Hurt)) as Hurt_k.
  pose proof (series_max_ge _ _ _ Hm (Hin _ _ _ Hdv)) as Hdv_m.
  pose proof (Hat _ _ _ _ Hrev Hurt) as Hurt_r. simpl in Hurt_r.
  pose proof (Hat _ _ _ _ Hdeal Hdv) as Hdv_0. simpl in Hdv_0.
  pose proof (Hat _ _ _ _ Hrating Hrt) as Hrt_r. simpl in Hrt_r.
  pose proof (Hat _ _ _ _ Hprio Hpr) as Hpr_r. simpl in Hpr_r.
  pose proof (Hat _ _ _ _ Htime Htip) as Htip_r. simpl in Htip_r.
  pose proof (Hat _ _ _ _ Hdocs Hdvc) as Hdvc_r. simpl in Hdvc_r.
  destruct (spec_effects_bounds m k bt rt urt dv pr tip dvc) as (e & He & Hlo & Hhi);
    try assumption; try lia; try (split; assumption).
  exists e. split; [rewrite Heff, Hm, Hk, He; reflexivity|].
  split; [split; assumption|].
  unfold Gen.clip_probability, clip. rewrite maximum_fin.
  assert (H1 : flt (Fin e) (Fin 0.01) = false) by (apply flt_fin_false; lra).
  rewrite H1, minimum_fin.
  assert (H2 : flt (Fin 0.99) (Fin e) = false) by (apply flt_fin_false; lra).
  rewrite H2. reflexivity.
Qed.

Lemma X3_witness :
  exists e,
    Gen.run_effects Demo.run3 !! 0%nat = Some (Fin e) /\ 0.06 <= e <= 0.90.
Proof.
  assert (Hmax : exists m,
             series_max (Gen.deal_value (Gen.run_data Demo.run3)) = Fin m /\ 0 < m).
  { eexists. split; [vm_compute; reflexivity | reflexivity]. }
  destruct (X3_effects_within_clipping_bounds lcg_spec lcg_continuous_spec 3 42%Z 0
              ltac:(lia) Hmax) as (e & He & Hb & _).
  exists e. split; [exact He | exact Hb].
Defined.

(** ** From the generator to the trainer *)

(** The feature frame the trainer selects from a generated dataset. *)
Lemma select_generated (df : Gen.LeadData) (converted : list Z) :
  Pd.select (Gen.to_frame df converted)
    (Trainer.NUMERIC_FEATURES ++ Trainer.CATEGORICAL_FEATURES)
  = Ok [ ("rating"%string, FloatCol (map Fin (Gen.rating df)));
         ("user_ratings_total"%string, IntCol (Gen.user_ratings_total df));
         ("deal_value"%string, FloatCol (map Fin (Gen.deal_value df)));
         ("time_in_pipeline"%string, IntCol (Gen.time_in_pipeline df));
         ("documents_verified_count"%string, IntCol (Gen.documents_verified_count df));
         ("contacts_count"%string, IntCol (Gen.contacts_count df));
         ("business_type"%string, StrCol (Gen.business_type df));
         ("priority"%string, StrCol (Gen.priority df)) ].
Proof. reflexivity. Qed.

Lemma take_rows_get_column (X : DataFrame) (idx : list nat) (name : string) (c : Column) :
  Pd.get_column X name = Ok c ->
  Pd.get_column (Pd.take_rows X idx) name = Ok (Pd.take_column c idx).
Proof.
  induction X as [|[k col] X IH]; simpl; [discriminate|].
  destruct (String.eqb k name); [intros [= <-]; reflexivity | exact IH].
Qed.

(** X4. The trainer accepts every dataset the generator writes: the two
    programs name the same file, [load_dataset] returns the generated frame,
    the eight feature columns and the label column are found in it with the
    types the trainer needs, and every row subset of the features has the
    columns the preprocessor reads.  The generator touches no other file. *)
Theorem X4_trainer_accepts_generated_dataset
    {RS : Type} `{NumpyRandom RS} (n : nat) (w : Gen.World) :
  let r := fst (Gen.run_generator n (Gen.np_random w)) in
  let fs := Gen.files (Gen.generate_n n w) in
  Gen.OUTPUT_FILE = Trainer.DATA_PATH /\
  Trainer.load_dataset fs Trainer.DATA_PATH = Ok (Gen.run_frame r) /\
  (forall path, path <> Gen.OUTPUT_FILE -> fs !! path = Gen.files w !! path) /\
  exists X ycol,
    Pd.select (Gen.run_frame r) (Trainer.NUMERIC_FEATURES ++ Trainer.CATEGORICAL_FEATURES)
      = Ok X /\
    Pd.get_column (Gen.run_frame r) Trainer.TARGET_COLUMN = Ok ycol /\
    Pd.label_values ycol = Ok (Gen.run_converted r) /\
    forall rel pre idx,
      Trainer.build_preprocessor rel = Ok pre ->
      Sk.has_columns pre (Pd.take_rows X idx).
Proof.
  intros r fs. split; [reflexivity|]. split; [|split].
  - unfold Trainer.load_dataset, Pd.path_exists, Pd.read_csv, fs.
    change Trainer.DATA_PATH with Gen.OUTPUT_FILE.
    rewrite generate_n_output. reflexivity.
  - intros path Hne. unfold fs, Gen.generate_n.
    destruct (Gen.run_generator n (Gen.np_random w)) as [r' s'].
    cbn [Gen.files]. apply lookup_insert_ne. congruence.
  - eexists. exists (IntCol (Gen.run_converted r)).
    split; [apply select_generated|]. split; [reflexivity|]. split; [reflexivity|].
    intros rel pre idx Hpre.
    assert (Hcfg : Sk.numeric pre = Trainer.NUMERIC_FEATURES /\
                   Sk.categorical pre = Trainer.CATEGORICAL_FEATURES).
    { destruct (build_preprocessor_inv rel pre Hpre) as (_ & _ & Hnum & Hcat & _).
    split; assumption. }
    destruct Hcfg as [Hn Hc]. unfold Sk.has_columns. rewrite Hn, Hc.
    split; repeat constructor;
      (eexists; eexists; split;
       [apply take_rows_get_column; reflexivity | reflexivity]).
Qed.

Lemma X4_witness :
  exists X pre,
    Pd.select (Gen.run_frame (fst (Gen.run_generator (H := Lcg.lcg_random) 3 42%Z)))
      (Trainer.NUMERIC_FEATURES ++ Trainer.CATEGORICAL_FEATURES) = Ok X /\
    Trainer.build_preprocessor Sk.Since_1_2 = Ok pre /\
    Sk.has_columns pre (Pd.take_rows X [0; 2]%nat).
Proof.
  destruct (X4_trainer_accepts_generated_dataset (H := Lcg.lcg_random) 3 Demo.world42)
    as (_ & _ & _ & X & ycol & HX & _ & _ & Hcols).
  exists X. eexists. split; [exact HX|]. split; [reflexivity|].
  apply (Hcols Sk.Since_1_2). reflexivity.
Defined.

(** ** The files one run of the trainer writes *)

Section MainFiles.
Context {Clf : Type} `{Sk.Learners Clf}.


End MainFiles.



(** ** The metrics table *)

Section MetricsRows.
Context {Clf : Type} `{Sk.Learners Clf}.

(** The loop appends one row per model, in the order of the models, each
    holding what [evaluate_model] returned for that model just after its
    pipeline was fitted; fitted classifiers are never dropped. *)
Lemma train_and_evaluate_rows (todo : list (string * Sk.ModelKind))
    (X_train : DataFrame) (y_train : list Z) (X_test : DataFrame) (y_test : list Z)
    (m0 m : Trainer.Models) (out0 out : list (string * Trainer.Metrics)) :
  Trainer.train_and_evaluate todo X_train y_train X_test y_test m0 out0 = Ok (m, out) ->
  map fst out = map fst out0 ++ map fst todo /\
  (forall name, is_Some (Trainer.classifiers m0 !! name) ->
                is_Some (Trainer.classifiers m !! name)) /\
  Forall (fun name => is_Some (Trainer.classifiers m !! name)) (map fst todo).
Proof.
  revert m0 out0. induction todo as [|[name kind] rest IH]; intros m0 out0; simpl.
  - intros [= <- <-]. rewrite app_nil_r. repeat split; [tauto | constructor].
  - unfold result_bind at 1.
    destruct (Trainer.pipeline_fit name kind X_train y_train m0) as [m1|e] eqn:Hfit;
      [|discriminate].
    unfold result_bind at 1.
    destruct (Trainer.evaluate_model m1 name X_test y_test) as [res|e]; [|discriminate].
    intros Hrest. destruct (IH _ _ Hrest) as (Hnames & Hkeep & Hall).
    destruct (pipeline_fit_inv _ _ _ _ _ _ Hfit) as (Xt & clf & _ & _ & _ & Hmap).
    assert (Hkeep1 : forall k, is_Some (Trainer.classifiers m0 !! k) ->
                               is_Some (Trainer.classifiers m1 !! k)).
    { intros k Hk. rewrite Hmap. destruct (decide (name = k)) as [-> | Hne].
      - rewrite lookup_insert_eq. eexists. reflexivity.
      - rewrite lookup_insert_ne by exact Hne. exact Hk. }
    split; [|split].
    + rewrite Hnames, map_app. simpl. rewrite <- app_assoc. reflexivity.
    + intros k Hk. apply Hkeep, Hkeep1, Hk.
    + constructor; [|exact Hall]. simpl. apply Hkeep. rewrite Hmap, lookup_insert_eq.
      eexists. reflexivity.
Qed.

End MetricsRows.

(** X6. After a successful run the metrics table has exactly three rows,
    one per model, in the order of the dict [models]: the dummy classifier,
    the logistic regression, LightGBM; the persisted metrics frame has the
    model name and the five metrics as its columns; and each of the three
    pipelines holds a fitted classifier. *)
Theorem X6_one_metrics_row_per_model
    {Clf : Type} `{Sk.Learners Clf} (rel : Sk.Release) (fs : gmap string FileNode)
    (r : Trainer.TrainerRun) :
  Trainer.main rel fs = Ok r ->
  map fst (Trainer.run_metrics r)
    = ["Dummy Classifier"; "Logistic Regression"; "LightGBM"]%string /\
  length (Trainer.run_metrics r) = 3%nat /\
  column_names (Trainer.metrics_frame (Trainer.run_metrics r))
    = ["model"; "accuracy"; "precision"; "recall"; "f1_score"; "roc_auc"]%string /\
  Forall (fun kc => column_length (snd kc) = 3%nat)
         (Trainer.metrics_frame (Trainer.run_metrics r)) /\
  Forall (fun name => is_Some (Trainer.classifiers (Trainer.run_models r) !! name))
         ["Dummy Classifier"; "Logistic Regression"; "LightGBM"]%string.
Proof.
  intros Hmain.
  destruct (main_inv rel fs r Hmain) as (df & ycol & pre & _ & _ & _ & _ & _ & _ & Htrain & _).
  destruct (train_and_evaluate_rows _ _ _ _ _ _ _ _ _ Htrain) as (Hnames & _ & Hall).
  simpl in Hnames.
  assert (Hlen : length (Trainer.run_metrics r) = 3%nat).
  { rewrite <- (length_map fst), Hnames. reflexivity. }
  split; [exact Hnames|]. split; [exact Hlen|]. split; [reflexivity|]. split.
  - unfold Trainer.metrics_frame.
    repeat constructor; cbn [snd column_length]; rewrite length_map; exact Hlen.
  - exact Hall.
Qed.

Lemma X6_witness :
  exists r,
    Trainer.main (H := Toy.toy_learners) Sk.Since_1_2 Demo.fs20 = Ok r /\
    map fst (Trainer.run_metrics r)
      = ["Dummy Classifier"; "Logistic Regression"; "LightGBM"]%string.
Proof.
  destruct (Trainer.main (H := Toy.toy_learners) Sk.Since_1_2 Demo.fs20) as [r|e] eqn:E;
    [|vm_compute in E; discriminate].
  exists r. split; [reflexivity|].
  exact (proj1 (X6_one_metrics_row_per_model
                  (H := Toy.toy_learners) Sk.Since_1_2 Demo.fs20 r E)).
Defined.

(** ** The range of the metrics *)

Lemma count_pairs_bounds (f : Z -> Z -> bool) (y_true y_pred : list Z) :
  (0 <= Sk.count_pairs f y_true y_pred <= Z.of_nat (length y_true))%Z.
Proof.
  revert y_pred. induction y_true as [|t ts IH]; intros y_pred; simpl; [lia|].
  destruct y_pred as [|p ps]; [lia|]. specialize (IH ps).
  destruct (f t p); lia.
Qed.

(** A share of a count in a larger count lies between 0 and 1. *)
Lemma ratio_in_unit (num den : Z) :
  (0 <= num <= den)%Z -> (0 < den)%Z ->
  in_unit (fdiv (of_int num) (of_int den)).
Proof.
  intros Hnum Hden. unfold of_int.
  assert (Hd : 0 < inject_Z den).
  { change 0 with (inject_Z 0). rewrite <- Zlt_Qlt. exact Hden. }
  assert (Hn : 0 <= inject_Z num <= inject_Z den).
  { split; [change 0 with (inject_Z 0)|]; rewrite <- Zle_Qle; lia. }
  rewrite fdiv_fin by lra. eexists. split; [reflexivity|]. split.
  - apply Qle_shift_div_l; [exact Hd | lra].
  - apply Qle_shift_div_r; [exact Hd | lra].
Qed.

Lemma ratio_or_in_unit (num den : Z) :
  (0 <= num <= den)%Z -> in_unit (Sk.ratio_or (Fin 0) num den).
Proof.
  intros Hnum. unfold Sk.ratio_or. destruct (den =? 0)%Z eqn:E.
  - exists 0. split; [reflexivity | split; discriminate].
  - apply Z.eqb_neq in E. apply ratio_in_unit; lia.
Qed.

Lemma sum_Z_bounds {A} (g : A -> Z) (c : Z) (l : list A) :
  (forall x, 0 <= g x <= c)%Z ->
  (0 <= Sk.sum_Z (map g l) <= c * Z.of_nat (length l))%Z.
Proof.
  intros Hg. induction l as [|x l IH]; simpl; [lia|].
  specialize (Hg x). lia.
Qed.

Lemma pair_credit_bounds (p n : npfloat) : (0 <= Sk.pair_credit p n <= 2)%Z.
Proof. unfold Sk.pair_credit. destruct (flt n p); [lia|]. destruct (flt p n); lia. Qed.

Lemma scores_where_nil_labels (f : Z -> bool) (y_score : list npfloat) :
  Sk.scores_where f [] y_score = [].
Proof. reflexivity. Qed.

(** What [roc_auc_score] returns when it returns: a share of the pairs, or
    the NaN of the releases that do not raise on a single class. *)
Lemma roc_auc_score_ok (installed : Sk.SingleClassAuc) (y_true : list Z)
    (y_score : list npfloat) (auc : npfloat) :
  Sk.roc_auc_score installed y_true y_score = Ok auc ->
  (in_unit auc /\ y_true <> []) \/ (installed = Sk.ReturnsNaN /\ auc = NaN).
Proof.
  unfold Sk.roc_auc_score.
  destruct (Sk.scores_where (fun t => (t =? 1)%Z) y_true y_score) as [|p ps] eqn:Hpos.
  { destruct installed; [discriminate|]. intros [= <-]. right. split; reflexivity. }
  destruct (Sk.scores_where (fun t => negb (t =? 1)%Z) y_true y_score) as [|q qs] eqn:Hneg.
  { destruct installed; [discriminate|]. intros [= <-]. right. split; reflexivity. }
  intros Hok. cbv beta iota zeta in Hok. left. split.
  - set (pos := p :: ps) in *. set (neg := q :: qs) in *.
    assert (Hauc : auc =
              fdiv (of_int (Sk.sum_Z (map (fun x => Sk.sum_Z (map (Sk.pair_credit x) neg))
                                          pos)))
                   (of_int (2 * Z.of_nat (length pos) * Z.of_nat (length neg))))
      by congruence.
    assert (Hinner : forall x, (0 <= Sk.sum_Z (map (Sk.pair_credit x) neg)
                                <= 2 * Z.of_nat (length neg))%Z).
    { intros x. apply sum_Z_bounds. intros n. apply pair_credit_bounds. }
    pose proof (sum_Z_bounds (fun x => Sk.sum_Z (map (Sk.pair_credit x) neg))
                  (2 * Z.of_nat (length neg)) pos Hinner) as Hsum.
    rewrite Hauc. apply ratio_in_unit; [|unfold pos, neg; simpl length; lia].
    split; [apply Hsum|]. destruct Hsum as [_ Hup]. lia.
  - intros ->. discriminate Hpos.
Qed.

(** X7. Every metric [evaluate_model] reports is a number between 0 and 1:
    precision, recall and F1 always, accuracy and ROC-AUC whenever the
    ROC-AUC is a number; the only other report is the NaN that a release of
    scikit-learn which does not raise gives for a single-class partition. *)
Theorem X7_metrics_between_0_and_1
    {Clf : Type} `{Sk.Learners Clf} (models : Trainer.Models) (name : string)
    (X_test : DataFrame) (y_test : list Z) (res : Trainer.Metrics * list npfloat) :
  Trainer.evaluate_model models name X_test y_test = Ok res ->
  in_unit (Trainer.precision (fst res)) /\
  in_unit (Trainer.recall (fst res)) /\
  in_unit (Trainer.f1_score (fst res)) /\
  ((in_unit (Trainer.accuracy (fst res)) /\ in_unit (Trainer.roc_auc (fst res))) \/
   (Sk.single_class_auc = Sk.ReturnsNaN /\ Trainer.roc_auc (fst res) = NaN)).
Proof.
  unfold Trainer.evaluate_model, result_bind. intros Heval.
  destruct (Trainer.pipeline_predict models name X_test) as [y_pred|e]; [|discriminate].
  destruct (Trainer.pipeline_predict_proba models name X_test) as [proba|e];
    [|discriminate].
  destruct res as [m y_prob]. apply score_ok in Heval.
  destruct Heval as (_ & Ha & Hp & Hr & Hf & Hauc). cbn [fst].
  pose proof (count_pairs_bounds (fun t p => (t =? 1)%Z && (p =? 1)%Z) y_test y_pred)
    as Htp.
  pose proof (count_pairs_bounds (fun t p => negb (t =? 1)%Z && (p =? 1)%Z) y_test y_pred)
    as Hfp.
  pose proof (count_pairs_bounds (fun t p => (t =? 1)%Z && negb (p =? 1)%Z) y_test y_pred)
    as Hfn.
  split; [|split; [|split]].
  - rewrite Hp. apply ratio_or_in_unit. unfold Sk.true_positives, Sk.false_positives. lia.
  - rewrite Hr. apply ratio_or_in_unit. unfold Sk.true_positives, Sk.false_negatives. lia.
  - rewrite Hf. apply ratio_or_in_unit.
    unfold Sk.true_positives, Sk.false_positives, Sk.false_negatives. lia.
  - destruct (roc_auc_score_ok _ _ _ _ Hauc) as [[Hunit Hne] | [Hnan Heq]].
    + left. split; [|exact Hunit]. rewrite Ha. unfold Sk.accuracy_score.
      apply ratio_in_unit; [apply count_pairs_bounds|].
      destruct y_test; [contradiction | simpl length; lia].
    + right. split; assumption.
Qed.

Lemma X7_witness :
  exists m res,
    Demo.dummy_fitted = Ok m /\
    Trainer.evaluate_model (H := Toy.toy_learners) m "Dummy Classifier"
      Demo.X_test Demo.y_test = Ok res /\
    in_unit (Trainer.precision (fst res)) /\ in_unit (Trainer.recall (fst res)).
Proof.
  destruct Demo.dummy_fitted as [m|e] eqn:Hm; [|vm_compute in Hm; discriminate].
  destruct (Trainer.evaluate_model (H := Toy.toy_learners) m "Dummy Classifier"
              Demo.X_test Demo.y_test) as [res|e] eqn:E.
  2:{ vm_compute in Hm. injection Hm as <-. vm_compute in E. discriminate. }
  exists m, res. split; [reflexivity|]. split; [exact E|].
  destruct (X7_metrics_between_0_and_1 (H := Toy.toy_learners) m "Dummy Classifier"
              Demo.X_test Demo.y_test res E) as (Hp & Hr & _).
  split; [exact Hp | exact Hr].
Defined.

(** ** When the evaluation of a model fails *)

(** [a[:, 1]] succeeds exactly when every row has two entries; otherwise it
    raises [IndexError]. *)
Lemma second_column_cases (proba : list (list npfloat)) :
  (exists y_prob, Trainer.second_column proba = Ok y_prob /\
                  length y_prob = length proba /\
                  Forall (fun row => (2 <= length row)%nat) proba) \/
  (Trainer.second_column proba = Raise IndexError /\
   ~ Forall (fun row => (2 <= length row)%nat) proba).
Proof.
  unfold Trainer.second_column. induction proba as [|row rows IH]; simpl.
  - left. exists []. repeat split. constructor.
  - destruct (row !! 1%nat) as [p|] eqn:Hrow; simpl.
    + apply lookup_lt_Some in Hrow.
      destruct IH as [(yp & Hyp & Hlen & Hall) | [Hraise Hnot]].
      * left. rewrite Hyp. simpl. exists (p :: yp).
        split; [reflexivity|]. split; [simpl; now rewrite Hlen|].
        constructor; [lia | exact Hall].
      * right. rewrite Hraise. simpl. split; [reflexivity|].
        intros Hall. apply Hnot. apply Forall_inv_tail in Hall. exact Hall.
    + right. split; [reflexivity|]. apply lookup_ge_None in Hrow.
      intros Hall. apply Forall_inv in Hall. lia.
Qed.

(** Some scored label satisfies [f] exactly when a score is kept. *)
Lemma scores_where_exists (f : Z -> bool) (y_true : list Z) (y_score : list npfloat) :
  length y_score = length y_true ->
  (Exists (fun t => f t = true) y_true <-> Sk.scores_where f y_true y_score <> []).
Proof.
  revert y_score. induction y_true as [|t ts IH]; intros y_score Hlen.
  - simpl. split; [intros Hex; inversion Hex | intros Hne; contradiction].
  - destruct y_score as [|s ss]; [discriminate|]. simpl.
    injection Hlen as Hlen. specialize (IH ss Hlen).
    destruct (f t) eqn:Hf.
    + split; [discriminate | intros _; left; exact Hf].
    + rewrite <- IH. split.
      * intros Hex. inversion Hex as [? ? Hhead | ? ? Htail]; subst;
          [congruence | exact Htail].
      * intros Hex. right. exact Hex.
Qed.

(** On labels that are 0 or 1, a label other than 1 is the label 0. *)
Lemma Exists_label_one (y : list Z) :
  Exists (fun t => (t =? 1)%Z = true) y <-> In 1%Z y.
Proof.
  induction y as [|t ts IH]; simpl.
  - split; [intros Hex; inversion Hex | intros []].
  - split.
    + intros Hex. inversion Hex as [? ? Hhead | ? ? Htail]; subst.
      * left. apply Z.eqb_eq. exact Hhead.
      * right. apply IH. exact Htail.
    + intros [-> | Hin]; [left; reflexivity | right; apply IH; exact Hin].
Qed.

Lemma Exists_label_zero (y : list Z) :
  Forall (fun t => t = 0%Z \/ t = 1%Z) y ->
  (Exists (fun t => negb (t =? 1)%Z = true) y <-> In 0%Z y).
Proof.
  induction 1 as [|t ts Ht _ IH]; simpl.
  - split; [intros Hex; inversion Hex | intros []].
  - split.
    + intros Hex. inversion Hex as [? ? Hhead | ? ? Htail]; subst.
      * left. destruct Ht as [-> | ->]; [reflexivity | discriminate Hhead].
      * right. apply IH. exact Htail.
    + intros [-> | Hin]; [left; reflexivity | right; apply IH; exact Hin].
Qed.

(** X8. On a binary problem, that is a test partition that is not empty,
    true and predicted labels that are 0 or 1 and of one length, and finite
    probabilities, one row per test record, [evaluate_model] fails for two
    reasons only: a probability row without a second entry (a
    [predict_proba] with a single class column), which raises [IndexError],
    and a test partition without both classes where scikit-learn raises on
    it, which raises [ValueError].  In every other case it returns its
    metrics. *)
Theorem X8_evaluate_model_failures
    {Clf : Type} `{Sk.Learners Clf} (models : Trainer.Models) (name : string)
    (X_test : DataFrame) (y_test y_pred : list Z) (proba : list (list npfloat)) :
  Trainer.pipeline_predict models name X_test = Ok y_pred ->
  Trainer.pipeline_predict_proba models name X_test = Ok proba ->
  y_test <> [] ->
  length y_pred = length y_test ->
  length proba = length y_test ->
  Forall (fun t => t = 0%Z \/ t = 1%Z) y_test ->
  Forall (fun p => p = 0%Z \/ p = 1%Z) y_pred ->
  Forall (Forall is_fin) proba ->
  let rows_ok := Forall (fun row => (2 <= length row)%nat) proba in
  let both_classes := In 1%Z y_test /\ In 0%Z y_test in
  (~ rows_ok -> Trainer.evaluate_model models name X_test y_test = Raise IndexError) /\
  (rows_ok -> ~ both_classes -> Sk.single_class_auc = Sk.RaisesValueError ->
   Trainer.evaluate_model models name X_test y_test
   = Raise (ValueError Sk.SINGLE_CLASS_MESSAGE)) /\
  (rows_ok -> both_classes \/ Sk.single_class_auc = Sk.ReturnsNaN ->
   exists res, Trainer.evaluate_model models name X_test y_test = Ok res).
Proof.
  intros Hpred Hproba _ _ Hlen Hbinary _ _ rows_ok both_classes.
  unfold Trainer.evaluate_model. rewrite Hpred, result_bind_ok, Hproba, result_bind_ok.
  unfold Trainer.score.
  destruct (second_column_cases proba) as [(y_prob & Hyp & Hlyp & Hall) | [Hraise Hnot]].
  2:{ split; [intros _; rewrite Hraise; reflexivity|].
      split; intros Hok; contradiction. }
  rewrite Hyp, result_bind_ok. cbv zeta.
  assert (Hl : length y_prob = length y_test) by congruence.
  pose proof (scores_where_exists (fun t => (t =? 1)%Z) y_test y_prob Hl) as Hpos.
  pose proof (scores_where_exists (fun t => negb (t =? 1)%Z) y_test y_prob Hl) as Hneg.
  cbv beta in Hpos, Hneg.
  rewrite Exists_label_one in Hpos. rewrite (Exists_label_zero y_test Hbinary) in Hneg.
  assert (Hboth : both_classes <->
                  (Sk.scores_where (fun t => (t =? 1)%Z) y_test y_prob <> [] /\
                   Sk.scores_where (fun t => negb (t =? 1)%Z) y_test y_prob <> [])).
  { unfold both_classes. rewrite <- Hpos, <- Hneg. reflexivity. }
  unfold Sk.roc_auc_score.
  destruct (Sk.scores_where (fun t => (t =? 1)%Z) y_test y_prob) as [|p ps];
    [|destruct (Sk.scores_where (fun t => negb (t =? 1)%Z) y_test y_prob) as [|q qs]].
  - split; [intros Hn; contradiction|]. split.
    + intros _ _ ->. reflexivity.
    + intros _ [Hb | ->]; [apply Hboth in Hb; destruct Hb as [Hb _]; contradiction|].
      eexists. reflexivity.
  - split; [intros Hn; contradiction|]. split.
    + intros _ _ ->. reflexivity.
    + intros _ [Hb | ->]; [apply Hboth in Hb; destruct Hb as [_ Hb]; contradiction|].
      eexists. reflexivity.
  - split; [intros Hn; contradiction|]. split.
    + intros _ Hnb. exfalso. apply Hnb, Hboth. split; discriminate.
    + intros _ _. eexists. reflexivity.
Qed.

Lemma X8_witness :
  exists m,
    Demo.dummy_fitted = Ok m /\
    Trainer.evaluate_model (H := Toy.toy_learners) m "Dummy Classifier"
      Demo.X_test Demo.y_test_single_class
    = Raise (ValueError Sk.SINGLE_CLASS_MESSAGE).
Proof.
  destruct Demo.dummy_fitted as [m|e] eqn:Hm; [|vm_compute in Hm; discriminate].
  exists m. split; [reflexivity|].
  destruct (Trainer.pipeline_predict (H := Toy.toy_learners) m "Dummy Classifier"
              Demo.X_test) as [y_pred|e] eqn:Hpred.
  2:{ vm_compute in Hm. injection Hm as <-. vm_compute in Hpred. discriminate. }
  destruct (Trainer.pipeline_predict_proba (H := Toy.toy_learners) m "Dummy Classifier"
              Demo.X_test) as [proba|e] eqn:Hproba.
  2:{ vm_compute in Hm. injection Hm as <-. vm_compute in Hproba. discriminate. }
  assert (Hpreds : length y_pred = length Demo.y_test_single_class /\
                   Forall (fun p => p = 0%Z \/ p = 1%Z) y_pred).
  { vm_compute in Hm. injection Hm as <-. vm_compute in Hpred.
    injection Hpred as <-. split; [reflexivity|]. repeat constructor. }
  assert (Hrows : Forall (fun row => (2 <= length row)%nat) proba /\
                  length proba = length Demo.y_test_single_class /\
                  Forall (Forall is_fin) proba).
  { vm_compute in Hm. injection Hm as <-. vm_compute in Hproba.
    injection Hproba as <-. split; [repeat constructor|].
    split; [reflexivity|]. repeat econstructor. }
  destruct Hpreds as [Hlpred Hbpred]. destruct Hrows as (Hrows & Hlen & Hfin).
  destruct (X8_evaluate_model_failures (H := Toy.toy_learners) m "Dummy Classifier"
              Demo.X_test Demo.y_test_single_class y_pred proba Hpred Hproba)
    as (_ & Hvalue & _).
  - discriminate.
  - exact Hlpred.
  - exact Hlen.
  - repeat constructor.
  - exact Hbpred.
  - exact Hfin.
  - apply Hvalue.
    + exact Hrows.
    + intros [Hone _]. simpl in Hone. intuition discriminate.
    + reflexivity.
Defined.

(** ** The input [main] needs *)

(** [df[name]] finds a column exactly when the frame has one of that name,
    and raises [KeyError] otherwise. *)
Lemma get_column_cases (df : DataFrame) (name : string) :
  (exists c, Pd.get_column df name = Ok c /\ In name (column_names df)) \/
  (Pd.get_column df name = Raise (KeyError name) /\ ~ In name (column_names df)).
Proof.
  induction df as [|[k col] df IH]; simpl.
  - right. split; [reflexivity | intros []].
  - destruct (String.eqb k name) eqn:Ek.
    + apply String.eqb_eq in Ek. left. exists col. split; [reflexivity | left; exact Ek].
    + apply String.eqb_neq in Ek.
      destruct IH as [(c & Hc & Hin) | [Hraise Hnot]].
      * left. exists c. split; [exact Hc | right; exact Hin].
      * right. split; [exact Hraise|]. intros [Heq | Hin]; [congruence | contradiction].
Qed.

(** [df[names]] returns exactly when every name is a column of the frame,
    and raises [KeyError] otherwise. *)
Lemma select_cases (df : DataFrame) (names : list string) :
  (exists X, Pd.select df names = Ok X /\
             Forall (fun name => In name (column_names df)) names) \/
  (exists key, Pd.select df names = Raise (KeyError key) /\
               ~ Forall (fun name => In name (column_names df)) names).
Proof.
  unfold Pd.select. induction names as [|name names IH]; simpl.
  - left. exists []. split; [reflexivity | constructor].
  - destruct (get_column_cases df name) as [(c & Hc & Hin) | [Hraise Hnot]].
    + rewrite Hc. simpl.
      destruct IH as [(X & HX & Hall) | (key & Hkey & Hnot)].
      * left. rewrite HX. simpl. eexists. split; [reflexivity|].
        constructor; [exact Hin | exact Hall].
      * right. rewrite Hkey. simpl. exists key. split; [reflexivity|].
        intros Hall. apply Hnot. apply Forall_inv_tail in Hall. exact Hall.
    + right. rewrite Hraise. simpl. exists name. split; [reflexivity|].
      intros Hall. apply Forall_inv in Hall. contradiction.
Qed.

(** The columns of [df[names]] are the columns of those names in [df]. *)
Lemma select_get_column (df X : DataFrame) (names : list string) (name : string) :
  Pd.select df names = Ok X ->
  In name names ->
  Pd.get_column X name = Pd.get_column df name.
Proof.
  unfold Pd.select. revert X. induction names as [|n names IH]; intros X; simpl.
  - intros _ [].
  - destruct (Pd.get_column df n) as [c|e] eqn:Hc; simpl; [|discriminate].
    destruct (result_map _ names) as [rest|e] eqn:Hrest; simpl; [|discriminate].
    intros [= <-] Hin. simpl.
    destruct (String.eqb n name) eqn:En.
    + apply String.eqb_eq in En. subst n. symmetry. exact Hc.
    + apply String.eqb_neq in En. destruct Hin as [Heq | Hin]; [congruence|].
      apply (IH rest eq_refl Hin).
Qed.

(** [load_dataset] returns exactly the table the path holds. *)
Lemma load_dataset_table (fs : gmap string FileNode) (path : string) (df : DataFrame) :
  fs !! path = Some (CsvTable df) ->
  Trainer.load_dataset fs path = Ok df.
Proof.
  intros Hfs. unfold Trainer.load_dataset, Pd.path_exists, Pd.read_csv.
  rewrite Hfs. reflexivity.
Qed.

Lemma load_dataset_inv (fs : gmap string FileNode) (path : string) (df : DataFrame) :
  Trainer.load_dataset fs path = Ok df -> fs !! path = Some (CsvTable df).
Proof.
  unfold Trainer.load_dataset, Pd.path_exists, Pd.read_csv.
  destruct (fs !! path) as [[t| |]|]; simpl; try discriminate.
  intros [= <-]. reflexivity.
Qed.

(** X9. [main] checks its input before it trains anything: without a file at
    the dataset path it raises the [FileNotFoundError] of [load_dataset],
    a dataset that lacks one of the eight feature columns or the target
    column makes it raise [KeyError], and so a run that succeeds has read a
    table holding all nine columns. *)
Theorem X9_main_needs_the_nine_columns
    {Clf : Type} `{Sk.Learners Clf} (rel : Sk.Release) (fs : gmap string FileNode) :
  let needed := Trainer.NUMERIC_FEATURES ++ Trainer.CATEGORICAL_FEATURES
                ++ [Trainer.TARGET_COLUMN] in
  (fs !! Trainer.DATA_PATH = None ->
   Trainer.main rel fs = Raise (FileNotFoundError Trainer.MISSING_DATASET_MESSAGE)) /\
  (forall df, fs !! Trainer.DATA_PATH = Some (CsvTable df) ->
     ~ Forall (fun name => In name (column_names df)) needed ->
     exists key, Trainer.main rel fs = Raise (KeyError key)) /\
  (forall r, Trainer.main rel fs = Ok r ->
     exists df, fs !! Trainer.DATA_PATH = Some (CsvTable df) /\
                Forall (fun name => In name (column_names df)) needed).
Proof.
  intros needed. split; [|split].
  - intros Hfs. unfold Trainer.main, Trainer.load_dataset, Pd.path_exists.
    rewrite Hfs. reflexivity.
  - intros df Hfs Hnot. unfold Trainer.main.
    rewrite (load_dataset_table fs _ df Hfs), result_bind_ok.
    destruct (select_cases df (Trainer.NUMERIC_FEATURES ++ Trainer.CATEGORICAL_FEATURES))
      as [(X & HX & Hall) | (key & Hkey & _)].
    2:{ exists key. rewrite Hkey. reflexivity. }
    rewrite HX, result_bind_ok.
    destruct (get_column_cases df Trainer.TARGET_COLUMN) as [(c & Hc & Hin) | [Hraise _]].
    2:{ exists Trainer.TARGET_COLUMN. rewrite Hraise. reflexivity. }
    exfalso. apply Hnot. unfold needed. rewrite app_assoc.
    apply Forall_app. split; [exact Hall|]. constructor; [exact Hin | constructor].
  - intros r Hmain. unfold Trainer.main in Hmain.
    destruct (Trainer.load_dataset fs Trainer.DATA_PATH) as [df|e] eqn:Hload;
      [|discriminate].
    rewrite result_bind_ok in Hmain. exists df.
    split; [apply load_dataset_inv; exact Hload|].
    destruct (select_cases df (Trainer.NUMERIC_FEATURES ++ Trainer.CATEGORICAL_FEATURES))
      as [(X & HX & Hall) | (key & Hkey & _)].
    2:{ rewrite Hkey in Hmain. discriminate. }
    rewrite HX, result_bind_ok in Hmain.
    destruct (get_column_cases df Trainer.TARGET_COLUMN) as [(c & Hc & Hin) | [Hraise _]].
    2:{ rewrite Hraise in Hmain. discriminate. }
    unfold needed. rewrite app_assoc.
    apply Forall_app. split; [exact Hall|]. constructor; [exact Hin | constructor].
Qed.

Lemma X9_witness :
  exists key,
    Trainer.main (H := Toy.toy_learners) Sk.Since_1_2 Demo.fs_features_only
    = Raise (KeyError key).
Proof.
  refine (proj1 (proj2 (X9_main_needs_the_nine_columns (H := Toy.toy_learners)
                          Sk.Since_1_2 Demo.fs_features_only)) Demo.X_train _ _).
  - reflexivity.
  - intros Hall. do 8 apply Forall_inv_tail in Hall.
    apply Forall_inv in Hall. vm_compute in Hall.
    repeat (destruct Hall as [Hall | Hall]; [discriminate|]). exact Hall.
Defined.

(** ** Features and labels stay aligned *)

Lemma label_values_inv (c : Column) (y : list Z) :
  Pd.label_values c = Ok y -> c = IntCol y.
Proof. destruct c; simpl; try discriminate. intros [= <-]. reflexivity. Qed.

(** X10. In a successful run the feature frame has the eight feature columns
    in the order numeric then categorical, each one the dataset's column of
    that name unchanged, and the labels are the dataset's [converted]
    column; the train and test partitions take, for every feature and for
    the labels alike, the rows at the positions [train_test_split] returned
    for test size 0.2, seed 42 and stratification by the labels, so features
    and labels stay aligned. *)
Theorem X10_partitions_are_row_subsets_of_the_dataset
    {Clf : Type} `{Sk.Learners Clf} (rel : Sk.Release) (fs : gmap string FileNode)
    (r : Trainer.TrainerRun) :
  Trainer.main rel fs = Ok r ->
  let features := Trainer.NUMERIC_FEATURES ++ Trainer.CATEGORICAL_FEATURES in
  let parts := Sk.train_test_split (Pd.num_rows (Trainer.run_X r))
                 Trainer.TEST_SIZE Trainer.RANDOM_STATE (Trainer.run_y r) in
  exists df,
    fs !! Trainer.DATA_PATH = Some (CsvTable df) /\
    column_names (Trainer.run_X r) = features /\
    column_names (Trainer.run_X_train r) = features /\
    column_names (Trainer.run_X_test r) = features /\
    Pd.get_column df Trainer.TARGET_COLUMN = Ok (IntCol (Trainer.run_y r)) /\
    Trainer.run_y_train r = Pd.take (Trainer.run_y r) (fst parts) /\
    Trainer.run_y_test r = Pd.take (Trainer.run_y r) (snd parts) /\
    forall name, In name features ->
      exists c,
        Pd.get_column df name = Ok c /\
        Pd.get_column (Trainer.run_X r) name = Ok c /\
        Pd.get_column (Trainer.run_X_train r) name = Ok (Pd.take_column c (fst parts)) /\
        Pd.get_column (Trainer.run_X_test r) name = Ok (Pd.take_column c (snd parts)).
Proof.
  intros Hmain features parts.
  destruct (main_inv rel fs r Hmain)
    as (df & ycol & pre & Hload & Hsel & Hy & Hlab & Hparts & _).
  cbv zeta in Hparts. fold parts in Hparts.
  destruct Hparts as (Htrain & Htest & Hytrain & Hytest).
  exists df. split; [apply load_dataset_inv; exact Hload|].
  pose proof (select_column_names _ _ _ Hsel) as Hnames.
  split; [exact Hnames|].
  split; [rewrite Htrain, take_rows_column_names; exact Hnames|].
  split; [rewrite Htest, take_rows_column_names; exact Hnames|].
  split; [rewrite Hy; f_equal; apply label_values_inv; exact Hlab|].
  split; [exact Hytrain|]. split; [exact Hytest|].
  intros name Hin.
  pose proof (select_get_column _ _ _ name Hsel Hin) as Hsame.
  destruct (select_cases df features) as [(X & _ & Hall) | (key & Hkey & _)].
  2:{ unfold features in Hkey. rewrite Hkey in Hsel. discriminate. }
  destruct (get_column_cases df name) as [(c & Hc & _) | [_ Hnot]].
  2:{ exfalso. apply Hnot. rewrite List.Forall_forall in Hall. apply Hall, Hin. }
  exists c. rewrite Hc in Hsame.
  split; [exact Hc|]. split; [exact Hsame|].
  rewrite Htrain, Htest.
  split; apply take_rows_get_column; exact Hsame.
Qed.

Lemma X10_witness :
  exists r,
    Trainer.main (H := Toy.toy_learners) Sk.Since_1_2 Demo.fs20 = Ok r /\
    column_names (Trainer.run_X_train r)
    = Trainer.NUMERIC_FEATURES ++ Trainer.CATEGORICAL_FEATURES.
Proof.
  destruct (Trainer.main (H := Toy.toy_learners) Sk.Since_1_2 Demo.fs20) as [r|e] eqn:E;
    [|vm_compute in E; discriminate].
  exists r. split; [reflexivity|].
  destruct (X10_partitions_are_row_subsets_of_the_dataset (H := Toy.toy_learners)
              Sk.Since_1_2 Demo.fs20 r E) as (df & _ & _ & Htrain & _).
  exact Htrain.
Defined.

(** ** The columns the classifiers see *)

Lemma result_map_map {A B C} (f : A -> Result B) (g : B -> C) (h : A -> C)
    (l : list A) (ys : list B) :
  result_map f l = Ok ys ->
  (forall x y, f x = Ok y -> g y = h x) ->
  map g ys = map h l.
Proof.
  intros Hmap Hfg. revert ys Hmap. induction l as [|x l IH]; intros ys; simpl.
  - intros [= <-]. reflexivity.
  - destruct (f x) as [y|e] eqn:Hy; simpl; [|discriminate].
    destruct (result_map f l) as [zs|e]; simpl; [|discriminate].
    intros [= <-]. simpl. rewrite (Hfg x y Hy), (IH zs eq_refl). reflexivity.
Qed.

Lemma encode_column_names (enc : Sk.OneHotEncoder) (feature : string)
    (categories values : list string) (cols : DataFrame) :
  Sk.encode enc feature categories values = Ok cols ->
  column_names cols
  = map (fun c => ("cat__" ++ feature ++ "_" ++ c)%string) categories.
Proof.
  unfold Sk.encode, column_names.
  destruct (Sk.handle_unknown enc);
    [destruct (forallb _ values); [|discriminate]|];
    intros [= <-]; rewrite map_map; reflexivity.
Qed.

Lemma column_names_concat (frames : list DataFrame) :
  column_names (concat frames) = concat (map column_names frames).
Proof. unfold column_names. apply concat_map. Qed.

(** X11. Once the preprocessor is fitted, every frame it transforms has
    exactly the columns [get_feature_names_out] lists, in that order: the
    scaled numeric features under [num__], then one indicator column per
    fitted category under [cat__].  So the test partition is given to a
    classifier with the columns it was trained on, and the names in the
    feature-importance table are the names of the classifier's inputs. *)
Theorem X11_transformed_columns_are_the_feature_names
    {Clf : Type} `{Sk.Learners Clf}
    (pre pre' : Sk.ColumnTransformer) (X_fit X Xt : DataFrame) :
  Sk.fit pre X_fit = Ok pre' ->
  Sk.transform pre' X = Ok Xt ->
  Sk.get_feature_names_out pre' = Ok (column_names Xt).
Proof.
  intros Hfit Htrans.
  destruct (fit_inv pre pre' X_fit Hfit) as (Hnum & _ & _ & f & Hf & Hmean & Hscale & _).
  unfold Sk.transform in Htrans. unfold Sk.get_feature_names_out.
  rewrite Hf in *.
  destruct (result_map _ (zip (Sk.numeric pre') _)) as [nums|e] eqn:Hnums;
    [|discriminate].
  rewrite result_bind_ok in Htrans.
  destruct (result_map _ (zip (Sk.categorical pre') _)) as [cats|e] eqn:Hcats;
    [|discriminate].
  rewrite result_bind_ok in Htrans.
  assert (HXt : Xt = nums ++ concat cats) by congruence. subst Xt. clear Htrans.
  f_equal. unfold column_names at 1. rewrite map_app. f_equal.
  - rewrite (result_map_map _ fst (fun nms => ("num__" ++ fst nms)%string) _ _ Hnums).
    + rewrite <- (map_map fst (fun name => ("num__" ++ name)%string)).
      f_equal. symmetry. apply fst_zip.
      rewrite length_zip_with. rewrite Hnum, Hmean, Hscale. lia.
    + intros nms y Hy. cbv beta in Hy.
      destruct (Pd.get_column X (fst nms)) as [c|e]; [|discriminate].
      rewrite result_bind_ok in Hy.
      destruct (Pd.numeric_values c) as [xs|e]; [|discriminate].
      rewrite result_bind_ok in Hy. injection Hy as <-. reflexivity.
  - fold (column_names (concat cats)). rewrite column_names_concat. f_equal.
    symmetry. eapply result_map_map; [exact Hcats|].
    intros nc cols Hcols. cbv beta in Hcols.
    destruct (Pd.get_column X (fst nc)) as [c|e]; [|discriminate].
    rewrite result_bind_ok in Hcols.
    destruct (Pd.category_values c) as [vs|e]; [|discriminate].
    rewrite result_bind_ok in Hcols.
    apply (encode_column_names _ _ _ _ _ Hcols).
Qed.

Lemma X11_witness :
  exists pre pre' Xt,
    Trainer.build_preprocessor Sk.Since_1_2 = Ok pre /\
    Sk.fit (H := Toy.toy_learners) pre Demo.X_train = Ok pre' /\
    Sk.transform pre' Demo.X_test = Ok Xt /\
    Sk.get_feature_names_out pre' = Ok (column_names Xt).
Proof.
  destruct (Trainer.build_preprocessor Sk.Since_1_2) as [pre|e] eqn:Hpre;
    [|vm_compute in Hpre; discriminate].
  destruct (Sk.fit (H := Toy.toy_learners) pre Demo.X_train) as [pre'|e] eqn:Hfit.
  2:{ vm_compute in Hpre. injection Hpre as <-. vm_compute in Hfit. discriminate. }
  destruct (Sk.transform pre' Demo.X_test) as [Xt|e] eqn:Htrans.
  2:{ vm_compute in Hpre. injection Hpre as <-. vm_compute in Hfit.
      injection Hfit as <-. vm_compute in Htrans. discriminate. }
  exists pre, pre', Xt. split; [reflexivity|]. split; [exact Hfit|].
  split; [exact Htrans|].
  exact (X11_transformed_columns_are_the_feature_names (H := Toy.toy_learners)
           pre pre' Demo.X_train Demo.X_test Xt Hfit Htrans).
Defined.

(** ** One indicator per seen category *)

(** The fitted categories hold every value of the column once. *)
Lemma unique_NoDup (l : list string) : NoDup (Sk.unique l).
Proof.
  unfold Sk.unique. rewrite merge_sort_Permutation. apply NoDup_remove_dups.
Qed.

Lemma unique_elem_of (l : list string) (v : string) : v ∈ Sk.unique l <-> v ∈ l.
Proof.
  unfold Sk.unique. rewrite merge_sort_Permutation. apply elem_of_remove_dups.
Qed.

Lemma encode_inv (enc : Sk.OneHotEncoder) (feature : string)
    (categories values : list string) (cols : DataFrame) :
  Sk.encode enc feature categories values = Ok cols ->
  cols = map (fun c => (("cat__" ++ feature ++ "_" ++ c)%string,
                        FloatCol (Sk.indicator c values))) categories.
Proof.
  unfold Sk.encode.
  destruct (Sk.handle_unknown enc);
    [destruct (forallb _ values); [|discriminate]|]; congruence.
Qed.

(** X12. A categorical value that occurred in the training column is
    encoded by exactly one indicator: among the columns the encoder gives a
    feature, the column of that value holds 1 in the record's row and every
    other column holds 0. *)
Theorem X12_seen_category_sets_exactly_one_indicator
    (enc : Sk.OneHotEncoder) (feature : string)
    (train_values values : list string) (cols : DataFrame) (i : nat) (v : string) :
  Sk.encode enc feature (Sk.unique train_values) values = Ok cols ->
  values !! i = Some v ->
  In v train_values ->
  exists j,
    Sk.unique train_values !! j = Some v /\
    length cols = length (Sk.unique train_values) /\
    forall k, (k < length cols)%nat ->
      exists c row,
        Sk.unique train_values !! k = Some c /\
        cols !! k = Some (("cat__" ++ feature ++ "_" ++ c)%string, FloatCol row) /\
        row !! i = Some (if Nat.eqb k j then Fin 1 else Fin 0).
Proof.
  intros Henc Hv Hin. apply encode_inv in Henc. subst cols.
  apply list_elem_of_In, (unique_elem_of train_values v) in Hin.
  apply list_elem_of_lookup in Hin as [j Hj].
  exists j. split; [exact Hj|]. split; [apply length_map|].
  intros k Hk. rewrite length_map in Hk.
  destruct (lookup_lt_is_Some_2 _ _ Hk) as [c Hc].
  exists c, (Sk.indicator c values). split; [exact Hc|].
  split; [etransitivity; [apply lookup_map|]; rewrite Hc; reflexivity|].
  rewrite (indicator_lookup c values i v Hv).
  destruct (Nat.eqb k j) eqn:Ekj.
  - apply Nat.eqb_eq in Ekj. subst k.
    assert (c = v) by congruence. subst c. rewrite String.eqb_refl. reflexivity.
  - apply Nat.eqb_neq in Ekj.
    destruct (String.eqb v c) eqn:Evc; [|reflexivity].
    apply String.eqb_eq in Evc. subst c. exfalso. apply Ekj.
    exact (NoDup_lookup _ _ _ _ (unique_NoDup train_values) Hc Hj).
Qed.

Lemma X12_witness :
  exists enc cols j,
    Trainer.build_one_hot_encoder Sk.Before_1_2 = Ok enc /\
    Sk.encode enc "priority" (Sk.unique ["High"; "Low"; "Medium"; "Low"]%string)
      ["Medium"; "High"]%string = Ok cols /\
    Sk.unique ["High"; "Low"; "Medium"; "Low"]%string !! j = Some "Medium"%string /\
    length cols = 3%nat.
Proof.
  destruct (Trainer.build_one_hot_encoder Sk.Before_1_2) as [enc|e] eqn:Henc;
    [|vm_compute in Henc; discriminate].
  destruct (Sk.encode enc "priority" (Sk.unique ["High"; "Low"; "Medium"; "Low"]%string)
              ["Medium"; "High"]%string) as [cols|e] eqn:Hcols.
  2:{ vm_compute in Henc. injection Henc as <-. vm_compute in Hcols. discriminate. }
  destruct (X12_seen_category_sets_exactly_one_indicator enc "priority"
              ["High"; "Low"; "Medium"; "Low"]%string ["Medium"; "High"]%string
              cols 0%nat "Medium"%string Hcols eq_refl)
    as (j & Hj & Hlen & _).
  { right. right. left. reflexivity. }
  exists enc, cols, j. split; [reflexivity|]. split; [exact Hcols|].
  split; [exact Hj|]. rewrite Hlen. vm_compute. reflexivity.
Defined.

(** ** The bars of the feature-importance plot *)

Section TopFeatures.
Context {Clf : Type} `{Sk.Learners Clf}.


End TopFeatures.


(** A column whose values come from [options] has at most that many
    categories. *)
Lemma unique_length_le (values options : list string) :
  Forall (fun v => In v options) values ->
  (length (Sk.unique values) <= length options)%nat.
Proof.
  intros Hall. apply submseteq_length, NoDup_submseteq; [apply unique_NoDup|].
  intros v Hv. apply (proj1 (unique_elem_of values v)) in Hv. apply list_elem_of_In.
  rewrite List.Forall_forall in Hall. apply Hall, list_elem_of_In, Hv.
Qed.

Section GeneratedCategories.
Context {Clf : Type} `{Sk.Learners Clf}.

(** X14. When the training partition takes its business types and
    priorities from the generator's option lists, the fitted pipeline has at
    most twelve input columns (six numeric features and at most three
    indicators per categorical feature), so the plot titled with the top
    twenty features leaves no feature out. *)
Theorem X14_generated_data_has_at_most_twelve_features
    (pre : Sk.ColumnTransformer) (m : Trainer.Models) (X_train : DataFrame)
    (name : string) (table : list (string * Z))
    (business_types priorities : list string) :
  Sk.numeric pre = Trainer.NUMERIC_FEATURES ->
  Sk.categorical pre = Trainer.CATEGORICAL_FEATURES ->
  Sk.fit pre X_train = Ok (Trainer.preprocessor m) ->
  Pd.get_column X_train "business_type" = Ok (StrCol business_types) ->
  Pd.get_column X_train "priority" = Ok (StrCol priorities) ->
  Forall (fun b => In b Gen.BUSINESS_TYPES) business_types ->
  Forall (fun p => In p Gen.PRIORITY_LEVELS) priorities ->
  Trainer.plot_feature_importance m name = Ok table ->
  (length table <= 12)%nat /\
  Outputs.top_n table = table /\
  Outputs.not_plotted table = [].
Proof.
  intros Hnum Hcat Hfit Hbt Hpr Hbts Hprs Hplot.
  destruct (plot_feature_importance_inv m name table Hplot)
    as (names & Hnames & Hlen & _ & _).
  destruct (feature_names_after_fit pre _ X_train Hnum Hcat Hfit)
    as (bts & prs & Hbt' & Hpr' & Hout).
  assert (bts = business_types) by congruence. subst bts.
  assert (prs = priorities) by congruence. subst prs.
  assert (Hn : names = map (fun name => ("num__" ++ name)%string) Trainer.NUMERIC_FEATURES
                 ++ map (fun c => ("cat__business_type_" ++ c)%string)
                        (Sk.unique business_types)
                 ++ map (fun c => ("cat__priority_" ++ c)%string)
                        (Sk.unique priorities)) by congruence.
  assert (Hle : (length table <= 12)%nat).
  { rewrite Hlen, Hn. rewrite !length_app, !length_map.
    pose proof (unique_length_le _ _ Hbts) as H1.
    pose proof (unique_length_le _ _ Hprs) as H2.
    change (length Trainer.NUMERIC_FEATURES) with 6%nat.
    change (length Gen.BUSINESS_TYPES) with 3%nat in H1.
    change (length Gen.PRIORITY_LEVELS) with 3%nat in H2. lia. }
  split; [exact Hle|]. unfold Outputs.top_n, Outputs.not_plotted.
  split; [apply firstn_all2; lia | apply skipn_all2; lia].
Qed.

End GeneratedCategories.

Lemma X14_witness :
  exists pre m table,
    Trainer.build_preprocessor Sk.Since_1_2 = Ok pre /\
    Trainer.pipeline_fit (H := Toy.toy_learners) "Dummy Classifier" Sk.DummyClassifier
      Demo.X_train Demo.y_train
      {| Trainer.preprocessor := pre; Trainer.classifiers := ∅ |} = Ok m /\
    Trainer.plot_feature_importance (H := Toy.toy_learners) m "Dummy Classifier" = Ok table /\
    (length table <= 12)%nat.
Proof.
  destruct (Trainer.build_preprocessor Sk.Since_1_2) as [pre|e] eqn:Hpre;
    [|vm_compute in Hpre; discriminate].
  destruct (Trainer.pipeline_fit (H := Toy.toy_learners) "Dummy Classifier"
              Sk.DummyClassifier Demo.X_train Demo.y_train
              {| Trainer.preprocessor := pre; Trainer.classifiers := ∅ |})
    as [m|e] eqn:Hm.
  2:{ vm_compute in Hpre. injection Hpre as <-. vm_compute in Hm. discriminate. }
  destruct (Trainer.plot_feature_importance (H := Toy.toy_learners) m "Dummy Classifier")
    as [table|e] eqn:Hplot.
  2:{ vm_compute in Hpre. injection Hpre as <-. vm_compute in Hm. injection Hm as <-.
      vm_compute in Hplot. discriminate. }
  exists pre, m, table. split; [reflexivity|]. split; [exact Hm|]. split; [exact Hplot|].
  destruct (pipeline_fit_inv _ _ _ _ _ _ Hm) as (Xt & clf & Hfit & _).
  cbn [Trainer.preprocessor] in Hfit.
  refine (proj1 (X14_generated_data_has_at_most_twelve_features (H := Toy.toy_learners)
                   pre m Demo.X_train "Dummy Classifier" table
                   ["Restaurant"; "Retail"; "Restaurant"; "Retail"]%string
                   ["High"; "Low"; "Medium"; "Low"]%string
                   _ _ Hfit eq_refl eq_refl _ _ Hplot)).
  - vm_compute in Hpre. injection Hpre as <-. reflexivity.
  - vm_compute in Hpre. injection Hpre as <-. reflexivity.
  - repeat constructor; simpl; tauto.
  - repeat constructor; simpl; tauto.
Defined.

(** ** One preprocessor shared by three pipelines *)

Section SharedPreprocessor.
Context {Clf : Type} `{Sk.Learners Clf}.

(** A pipeline is evaluated through the preprocessor state and its own
    classifier only. *)
Lemma evaluate_model_ext (m1 m2 : Trainer.Models) (name : string)
    (X_test : DataFrame) (y_test : list Z) :
  Trainer.preprocessor m1 = Trainer.preprocessor m2 ->
  Trainer.classifiers m1 !! name = Trainer.classifiers m2 !! name ->
  Trainer.evaluate_model m1 name X_test y_test
  = Trainer.evaluate_model m2 name X_test y_test.
Proof.
  intros Hpre Hclf.
  unfold Trainer.evaluate_model, Trainer.pipeline_predict,
    Trainer.pipeline_predict_proba, Trainer.fitted_classifier.
  rewrite Hpre, Hclf. reflexivity.
Qed.

(** Fitting a fitted preprocessor again on the same frame gives the same
    state. *)
Lemma refit_same (pre pre' : Sk.ColumnTransformer) (X : DataFrame) :
  Sk.fit pre X = Ok pre' -> Sk.fit pre' X = Ok pre'.
Proof.
  intros Hfit. destruct (fit_inv pre pre' X Hfit) as (Hnum & Hcat & Henc & _).
  rewrite <- Hfit. apply fit_ignores_state; assumption.
Qed.

Lemma train_and_evaluate_stable (todo : list (string * Sk.ModelKind))
    (X_train : DataFrame) (y_train : list Z) (X_test : DataFrame) (y_test : list Z)
    (m0 m : Trainer.Models) (out0 out : list (string * Trainer.Metrics)) :
  Trainer.train_and_evaluate todo X_train y_train X_test y_test m0 out0 = Ok (m, out) ->
  NoDup (map fst todo) ->
  (forall n, n ∉ map fst todo ->
             Trainer.classifiers m !! n = Trainer.classifiers m0 !! n) /\
  (forall pre1, Sk.fit (Trainer.preprocessor m0) X_train = Ok pre1 -> todo <> [] ->
                Trainer.preprocessor m = pre1) /\
  exists new,
    out = out0 ++ new /\
    map fst new = map fst todo /\
    Forall (fun row => exists res,
              Trainer.evaluate_model m (fst row) X_test y_test = Ok res /\
              fst res = snd row) new.
Proof.
  revert m0 out0. induction todo as [|[name kind] rest IH]; intros m0 out0 Hrun Hnodup.
  - simpl in Hrun. assert (m = m0) by congruence. assert (out = out0) by congruence.
    subst m out. split; [reflexivity|]. split; [intros pre1 _ Hne; contradiction|].
    exists []. rewrite app_nil_r. repeat split. constructor.
  - simpl in Hrun, Hnodup. apply NoDup_cons in Hnodup as [Hname Hnodup].
    destruct (Trainer.pipeline_fit name kind X_train y_train m0) as [m'|e] eqn:Hfit;
      [|discriminate].
    rewrite result_bind_ok in Hrun.
    destruct (Trainer.evaluate_model m' name X_test y_test) as [res|e] eqn:Heval;
      [|discriminate].
    rewrite result_bind_ok in Hrun.
    destruct (pipeline_fit_inv _ _ _ _ _ _ Hfit) as (Xt & clf & Hpre & _ & _ & Hclf).
    destruct (IH m' _ Hrun Hnodup) as (Hkeep & Hsame & new & Hout & Hnames & Hall).
    assert (Hm : Trainer.preprocessor m = Trainer.preprocessor m').
    { destruct rest as [|next rest'].
      - simpl in Hrun. congruence.
      - apply Hsame; [exact (refit_same _ _ _ Hpre) | discriminate]. }
    split; [|split].
    + intros n Hn. simpl in Hn. apply not_elem_of_cons in Hn as [Hne Hn].
      rewrite (Hkeep n Hn), Hclf. apply lookup_insert_ne. congruence.
    + intros pre1 Hpre1 _. rewrite Hm. congruence.
    + exists ((name, fst res) :: new). split; [rewrite Hout, <- app_assoc; reflexivity|].
      split; [simpl; now rewrite Hnames|].
      constructor; [|exact Hall]. exists res. split; [|reflexivity].
      rewrite <- Heval. apply evaluate_model_ext; [exact Hm | apply Hkeep, Hname].
Qed.

End SharedPreprocessor.

(** X16. The three pipelines share one preprocessor object, which every
    [pipeline.fit] fits again.  Because each fit is on the same training
    partition, this does not disturb the pipelines fitted before: at the end
    of a successful run, evaluating any of the three models on the test
    partition gives exactly the metrics row reported for it. *)
Theorem X16_reported_metrics_are_those_of_the_final_models
    {Clf : Type} `{Sk.Learners Clf} (rel : Sk.Release) (fs : gmap string FileNode)
    (r : Trainer.TrainerRun) :
  Trainer.main rel fs = Ok r ->
  Forall (fun row => exists res,
            Trainer.evaluate_model (Trainer.run_models r) (fst row)
              (Trainer.run_X_test r) (Trainer.run_y_test r) = Ok res /\
            fst res = snd row)
         (Trainer.run_metrics r).
Proof.
  intros Hmain.
  destruct (main_inv rel fs r Hmain)
    as (df & ycol & pre & _ & _ & _ & _ & _ & _ & Hrun & _).
  assert (Hnodup : NoDup (map fst Trainer.MODELS)).
  { simpl. repeat (apply NoDup_cons_2;
                   [intros Hin; apply list_elem_of_In in Hin; simpl in Hin;
                    intuition discriminate|]).
    apply NoDup_nil_2. }
  destruct (train_and_evaluate_stable _ _ _ _ _ _ _ _ _ Hrun Hnodup)
    as (_ & _ & new & Hout & _ & Hall).
  rewrite Hout. exact Hall.
Qed.

Lemma X16_witness :
  exists r,
    Trainer.main (H := Toy.toy_learners) Sk.Since_1_2 Demo.fs20 = Ok r /\
    Forall (fun row => exists res,
              Trainer.evaluate_model (H := Toy.toy_learners) (Trainer.run_models r)
                (fst row) (Trainer.run_X_test r) (Trainer.run_y_test r) = Ok res /\
              fst res = snd row)
           (Trainer.run_metrics r).
Proof.
  destruct (Trainer.main (H := Toy.toy_learners) Sk.Since_1_2 Demo.fs20) as [r|e] eqn:E;
    [|vm_compute in E; discriminate].
  exists r. split; [reflexivity|].
  exact (X16_reported_metrics_are_those_of_the_final_models (H := Toy.toy_learners)
           Sk.Since_1_2 Demo.fs20 r E).
Defined.

(** ** The two keyword spellings of the encoder *)

(** X15. The fallback of [build_one_hot_encoder] builds the same dense
    encoder that ignores unknown categories on both sides of the renaming of
    the keyword: before scikit-learn 1.2 the first call raises [TypeError]
    and the second builds it.  This does not make the trainer run there:
    [build_preprocessor] goes on to call [set_output], which those releases
    lack, so it raises [AttributeError] and [main] never returns.  From 1.2
    on the preprocessor is built, unfitted, over the listed features. *)
Theorem X15_keyword_fallback_does_not_reach_old_releases
    {Clf : Type} `{Sk.Learners Clf} :
  Sk.OneHotEncoder_init Sk.Before_1_2 Sk.HandleIgnore "sparse_output" false
    = Raise TypeError /\
  (forall rel,
     Trainer.build_one_hot_encoder rel
     = Ok {| Sk.handle_unknown := Sk.HandleIgnore; Sk.dense_output := true |}) /\
  Trainer.build_preprocessor Sk.Before_1_2 = Raise AttributeError /\
  (forall fs, exists e, Trainer.main Sk.Before_1_2 fs = Raise e) /\
  Trainer.build_preprocessor Sk.Since_1_2
    = Ok {| Sk.numeric := Trainer.NUMERIC_FEATURES;
            Sk.categorical := Trainer.CATEGORICAL_FEATURES;
            Sk.encoder := {| Sk.handle_unknown := Sk.HandleIgnore;
                             Sk.dense_output := true |};
            Sk.fitted_ := None |}.
Proof.
  split; [reflexivity|]. split; [intros [|]; reflexivity|]. split; [reflexivity|].
  split; [|reflexivity].
  intros fs. destruct (Trainer.main Sk.Before_1_2 fs) as [r|e] eqn:Hmain.
  - destruct (main_inv _ _ _ Hmain) as (df & ycol & pre & _ & _ & _ & _ & _ & Hpre & _).
    destruct (build_preprocessor_inv _ _ Hpre) as [Hrel _]. discriminate Hrel.
  - exists e. reflexivity.
Qed.
